(** * PAI-Notifier: [src/scraper.js], [src/storage.js],
    [src/examMonitor.js], [src/telegram.js] and [src/index.js], embedded
    in Rocq.

    Conventions of the embedding.
    - A JavaScript string is a [string]: a sequence of 8-bit code units
      (the Latin-1 range).  White space, case mapping and the regular
      expression classes are the ECMAScript ones restricted to that range.
    - Times are integers in milliseconds, as [Date.now()] returns them.
    - [cheerio.load] and [pdf-parse] are external libraries: the HTML parser
      is a parameter [cheerio_load] that yields what the selectors of the
      code observe, the PDF text is the input of the extraction.
    - The network is an oracle: the reply to the n-th request is given by
      the environment; the code threads a state that records what was
      requested.
    - The data directory is a record of its files, and the outcome of
      creating it and of each write is given by the environment.
    - The bot is recorded by the calls made of it; whether an awaited call
      succeeds is given by the environment.
    - A function that may throw runs in a state monad whose outcome is a
      value or [Thrown]. *)

From Stdlib Require Import ZArith Ascii String List Bool Lia.
From Stdlib Require Import Floats.SpecFloat Numbers.DecimalString.
From Stdlib Require Import Sorting.Sorted Sorting.Permutation.
From stdpp Require Import base option list gmap strings.
From Equations Require Import Equations.

Local Open Scope string_scope.
Local Open Scope Z_scope.

#[global] Arguments String.append !s1 s2 : simpl nomatch.

(** ** JavaScript strings *)

Module Js.

Definition code (c : ascii) : N := N_of_ascii c.

Definition between (lo hi : N) (c : ascii) : bool :=
  ((lo <=? code c) && (code c <=? hi))%N.

(** WhiteSpace and LineTerminator code points below 256:
    TAB, LF, VT, FF, CR, SP and NBSP. *)
Definition is_space (c : ascii) : bool :=
  between 9 13 c || (code c =? 32)%N || (code c =? 160)%N.

Definition is_digit (c : ascii) : bool := between 48 57 c.
Definition is_upper (c : ascii) : bool := between 65 90 c.
Definition is_lower (c : ascii) : bool := between 97 122 c.

(** [\w] *)
Definition is_word (c : ascii) : bool :=
  is_upper c || is_lower c || is_digit c || (code c =? 95)%N.

(** [String.prototype.toLowerCase], one code unit at a time: A-Z and the
    Latin-1 capitals U+00C0..U+00DE except the multiplication sign. *)
Definition lower_char (c : ascii) : ascii :=
  if is_upper c || (between 192 222 c && negb (code c =? 215)%N)
  then ascii_of_N (code c + 32) else c.

Fixpoint toLowerCase (s : string) : string :=
  match s with
  | EmptyString => EmptyString
  | String c s' => String (lower_char c) (toLowerCase s')
  end.

Definition is_empty (s : string) : bool :=
  match s with EmptyString => true | _ => false end.

(** Truthiness of a string value: only the empty string is falsy. *)
Definition truthy (s : string) : bool := negb (is_empty s).

Fixpoint trimStart (s : string) : string :=
  match s with
  | EmptyString => EmptyString
  | String c s' => if is_space c then trimStart s' else s
  end.

Fixpoint trimEnd (s : string) : string :=
  match s with
  | EmptyString => EmptyString
  | String c s' =>
      let t := trimEnd s' in
      if is_space c && is_empty t then EmptyString else String c t
  end.

Definition trim (s : string) : string := trimEnd (trimStart s).

(** [s.startsWith(p)] *)
Fixpoint startsWith (s p : string) {struct p} : bool :=
  match p, s with
  | EmptyString, _ => true
  | String a p', String b s' => Ascii.eqb a b && startsWith s' p'
  | String _ _, EmptyString => false
  end.

(** [s.includes(p)] *)
Fixpoint includes (s p : string) : bool :=
  startsWith s p ||
  match s with
  | EmptyString => false
  | String _ s' => includes s' p
  end.

(** Value of a run of decimal digits, most significant first. *)
Fixpoint digits_value (acc : Z) (s : string) : Z :=
  match s with
  | EmptyString => acc
  | String c s' => digits_value (10 * acc + Z.of_N (code c - 48)) s'
  end.

(** Hexadecimal digits and the value of a run of them. *)
Definition is_hex (c : ascii) : bool :=
  is_digit c || between 65 70 c || between 97 102 c.

Definition hex_digit (c : ascii) : Z :=
  if is_digit c then Z.of_N (code c - 48)
  else if is_upper c then Z.of_N (code c - 55)
  else Z.of_N (code c - 87).

Fixpoint hex_value (acc : Z) (s : string) : Z :=
  match s with
  | EmptyString => acc
  | String c s' => hex_value (16 * acc + hex_digit c) s'
  end.

(** Longest prefix of characters of a class, and what follows it. *)
Fixpoint span (p : ascii -> bool) (s : string) : string * string :=
  match s with
  | EmptyString => (EmptyString, EmptyString)
  | String c s' =>
      if p c then let '(a, b) := span p s' in (String c a, b)
      else (EmptyString, s)
  end.

(** Every character of the string is in the class. *)
Fixpoint every (p : ascii -> bool) (s : string) : bool :=
  match s with
  | EmptyString => true
  | String c s' => p c && every p s'
  end.

(** Number-to-string conversion of an integer, as in a template literal. *)
Definition of_int (n : Z) : string := NilZero.string_of_int (Z.to_int n).

End Js.

(** ** Regular expressions

    The patterns of the code are sequences of single characters, greedy
    repetitions of a character class and capture groups around such
    sequences.  Matching is the backtracking search of ECMAScript: a
    greedy repetition takes as many characters as it can and gives them
    back one at a time when what follows fails; [exec] tries the start
    positions from left to right. *)

Module Regex.

Inductive atom : Type :=
| One (p : ascii -> bool)      (* one character of the class *)
| Many (p : ascii -> bool)     (* class*, greedy *)
| Many1 (p : ascii -> bool).   (* class+, greedy *)

Inductive item : Type :=
| Atom (a : atom)
| Group (g : list atom).       (* ( ... ), numbered from the left *)

Definition snoc (s : string) (c : ascii) : string :=
  s ++ String c EmptyString.

Section Matcher.
Context {R : Type}.

(** [acc] is the text consumed so far by the enclosing group, [k] the
    rest of the pattern. *)
Fixpoint many (p : ascii -> bool) (s acc : string)
    (k : string -> string -> option R) : option R :=
  match s with
  | String c s' =>
      if p c then
        match many p s' (snoc acc c) k with
        | Some r => Some r
        | None => k acc s
        end
      else k acc s
  | EmptyString => k acc s
  end.

Definition atomM (a : atom) (s acc : string)
    (k : string -> string -> option R) : option R :=
  match a with
  | One p =>
      match s with
      | String c s' => if p c then k (snoc acc c) s' else None
      | EmptyString => None
      end
  | Many p => many p s acc k
  | Many1 p =>
      match s with
      | String c s' => if p c then many p s' (snoc acc c) k else None
      | EmptyString => None
      end
  end.

Fixpoint atomsM (l : list atom) (s acc : string)
    (k : string -> string -> option R) : option R :=
  match l with
  | [] => k acc s
  | a :: l' => atomM a s acc (fun acc' s' => atomsM l' s' acc' k)
  end.

Fixpoint itemsM (r : list item) (s : string) (caps : list string)
    (k : list string -> string -> option R) : option R :=
  match r with
  | [] => k caps s
  | Atom a :: r' =>
      atomM a s EmptyString (fun _ s' => itemsM r' s' caps k)
  | Group g :: r' =>
      atomsM g s EmptyString
        (fun c s' => itemsM r' s' (caps ++ [c]) k)
  end.
End Matcher.

(** A match that begins at the first character of [s]: the captures. *)
Definition matchAt (r : list item) (s : string) : option (list string) :=
  itemsM r s [] (fun caps _ => Some caps).

(** [s.match(r)] without the g flag: the leftmost match. *)
Fixpoint exec (r : list item) (s : string) : option (list string) :=
  match matchAt r s with
  | Some caps => Some caps
  | None =>
      match s with
      | EmptyString => None
      | String _ s' => exec r s'
      end
  end.

(** The n-th capture (from 1) of a match. *)
Definition group (n : nat) (caps : list string) : string :=
  nth (pred n) caps EmptyString.


Definition chr (c : ascii) : item := Atom (One (Ascii.eqb c)).

(** A character of the pattern under the i flag. *)
Definition chr_i (c : ascii) : item :=
  Atom (One (fun x => Ascii.eqb (Js.lower_char x) (Js.lower_char c))).

Fixpoint lit (s : string) : list item :=
  match s with
  | EmptyString => []
  | String c s' => chr c :: lit s'
  end.

Fixpoint lit_i (s : string) : list item :=
  match s with
  | EmptyString => []
  | String c s' => chr_i c :: lit_i s'
  end.

End Regex.

(** ** Numbers: IEEE 754 binary64, after the specification of floats of
    the Rocq core library *)

Module Number.

Definition prec : Z := 53.
Definition emax : Z := 1024.

(** The Number value of an integer literal. *)
Definition of_Z (n : Z) : spec_float := binary_normalize prec emax n 0 false.

(** The Number value of [m * 10^e10], rounded once to nearest-even: an
    integer is rounded as it is, a fraction is the rounded quotient of two
    integers. *)
Definition decimal (neg : bool) (m e10 : Z) : spec_float :=
  if m <=? 0 then S754_zero neg
  else if 0 <=? e10 then
    binary_round prec emax neg (Z.to_pos (m * 10 ^ e10)) 0
  else
    SFdiv prec emax (S754_finite neg (Z.to_pos m) 0)
                    (S754_finite false (Z.to_pos (10 ^ (- e10))) 0).

(** [x >= y] *)
Definition ge (x y : spec_float) : bool := SFleb y x.

Definition sign_of (s : string) : bool * string :=
  match s with
  | String "-"%char t => (true, t)
  | String "+"%char t => (false, t)
  | _ => (false, s)
  end.

Definition exponent (s : string) : Z :=
  match s with
  | String c t =>
      if Ascii.eqb (Js.lower_char c) "e"%char then
        let '(neg, t') := sign_of t in
        let '(d, _) := Js.span Js.is_digit t' in
        if Js.is_empty d then 0
        else if neg then - Js.digits_value 0 d else Js.digits_value 0 d
      else 0
  | EmptyString => 0
  end.

(** [parseFloat]: the longest prefix that is a decimal literal. *)
Definition parseFloat (s : string) : spec_float :=
  let '(neg, s1) := sign_of (Js.trimStart s) in
  if Js.startsWith s1 "Infinity" then S754_infinity neg
  else
    let '(ip, s2) := Js.span Js.is_digit s1 in
    let '(fp, s3) :=
      match s2 with
      | String "."%char t => Js.span Js.is_digit t
      | _ => (EmptyString, s2)
      end in
    if Js.is_empty ip && Js.is_empty fp then S754_nan
    else decimal neg (Js.digits_value 0 (ip ++ fp))
                 (exponent s3 - Z.of_nat (String.length fp)).

End Number.

(** ** What the cheerio selectors of the code observe in a document *)

Module Dom.

(** An [a] element: its [href] attribute, if it has one, and its text. *)
Record Anchor : Type := { a_href : option string; a_text : string }.

(** A [td] element: its text and the [a] elements inside it. *)
Record Cell : Type := { td_text : string; td_links : list Anchor }.

(** A [tr] element: the [td] elements inside it, in document order. *)
Definition Row : Type := list Cell.

Record Document : Type := {
  (** every [a] element, in document order *)
  doc_anchors : list Anchor;
  (** [$('table.table').first()]: the [tr] elements inside the first such
      table, in document order; [None] when there is no such table *)
  doc_table : option (list Row)
}.

Definition no_cell : Cell := {| td_text := EmptyString; td_links := [] |}.

End Dom.

(** ** src/examMonitor.js *)

Module ExamMonitor.
Import Dom Regex.

Definition BASE_URL : string := "https://www.aktuaris.or.id".
Definition LOGIN_URL : string := BASE_URL ++ "/page/login_validation".
Definition EXAM_URL : string := BASE_URL ++ "/exam/index".

Record Session : Type := { cookie : string; expiry : Z }.

(** The parts of an axios response that the code reads. *)
Record Response : Type := {
  set_cookie : option (list string);   (* headers['set-cookie'] *)
  responseUrl : option string;         (* request.res.responseUrl *)
  data : string
}.

(** Outcome of an axios call: the promise resolves with a response, or is
    rejected; [error.response] is present when the server answered with a
    status that [validateStatus] refuses, absent on a transport error. *)
Inductive Reply : Type :=
| Resolved (r : Response)
| Rejected (r : option Response).

(** /ci_session=([^;]+)/ *)
Definition cookieRe : list item :=
  lit "ci_session=" ++
  [Group [Many1 (fun c => negb (Ascii.eqb c ";"%char))]].

Fixpoint scanCookies (now : Z) (cookies : list string) : option Session :=
  match cookies with
  | [] => None
  | c :: rest =>
      if Js.startsWith c "ci_session=" then
        match exec cookieRe c with
        | Some m => Some {| cookie := group 1 m;
                            expiry := now + 36000 * 1000 |}
        | None => scanCookies now rest
        end
      else scanCookies now rest
  end.

(** [now] is the value of [Date.now()]. *)
Definition extractSessionFromResponse (now : Z) (response : Response)
    : option Session :=
  match set_cookie response with
  | Some cookies => scanCookies now cookies
  | None => None
  end.

(** *** Result documents *)

Record ExamResult : Type := {
  rawText : string;
  subject : option string;
  subjectCode : option string;
  score : option spec_float;
  passed : option bool;
  periode : option string
}.

Definition word_dash (c : ascii) : bool :=
  Js.is_word c || Ascii.eqb c "-"%char.
Definition word_space_dash (c : ascii) : bool :=
  Js.is_word c || Js.is_space c || Ascii.eqb c "-"%char.
(** [A-Z0-9] under the i flag *)
Definition alnum_i (c : ascii) : bool :=
  Js.is_upper c || Js.is_lower c || Js.is_digit c.
Definition digit_dot (c : ascii) : bool :=
  Js.is_digit c || Ascii.eqb c "."%char.
(** [IVX] under the i flag *)
Definition roman_i (c : ascii) : bool :=
  let l := Js.lower_char c in
  Ascii.eqb l "i"%char || Ascii.eqb l "v"%char || Ascii.eqb l "x"%char.

(** /([\w\-]+[\w\s\-]+)\s*\(([A-Z0-9]+)\)\s*=\s*([\d.]+)/i *)
Definition scoreRe : list item :=
  [ Group [Many1 word_dash; Many1 word_space_dash];
    Atom (Many Js.is_space);
    chr "("%char;
    Group [Many1 alnum_i];
    chr ")"%char;
    Atom (Many Js.is_space);
    chr "="%char;
    Atom (Many Js.is_space);
    Group [Many1 digit_dot] ].

(** /Periode\s+([IVX]+)\s+Tahun\s+(\d{4})/i *)
Definition periodeRe : list item :=
  lit_i "Periode" ++
  [ Atom (Many1 Js.is_space); Group [Many1 roman_i];
    Atom (Many1 Js.is_space) ] ++
  lit_i "Tahun" ++
  [ Atom (Many1 Js.is_space);
    Group [One Js.is_digit; One Js.is_digit; One Js.is_digit;
           One Js.is_digit] ].

(** The passing grade. *)
Definition seventy : spec_float := Number.of_Z 70.

(** The extraction of [fetchExamResultPdf] from the text of the document
    (from the creation of [result] to its return). *)
Definition resultOfText (text : string) : ExamResult :=
  let result :=
    {| rawText := text; subject := None; subjectCode := None;
       score := None; passed := None; periode := None |} in
  let result :=
    match exec scoreRe text with
    | Some scoreMatch =>
        let sc := Number.parseFloat (group 3 scoreMatch) in
        {| rawText := rawText result;
           subject := Some (Js.trim (group 1 scoreMatch));
           subjectCode := Some (Js.trim (group 2 scoreMatch));
           score := Some sc;
           passed := Some (Number.ge sc seventy);
           periode := periode result |}
    | None => result
    end in
  match exec periodeRe text with
  | Some periodeMatch =>
      {| rawText := rawText result;
         subject := subject result;
         subjectCode := subjectCode result;
         score := score result;
         passed := passed result;
         periode := Some ("Periode " ++ group 1 periodeMatch ++ " "
                          ++ group 2 periodeMatch) |}
  | None => result
  end.

(** *** The exam table *)

Record HasilUjian : Type := { hu_text : string; hu_link : option string }.

Record Action : Type := { act_text : string; act_link : option string }.

Record Exam : Type := {
  kode : string;
  periode_ : string;
  kota : string;
  hasilUjian : HasilUjian;
  status : string;
  actions : list Action;
  result : option ExamResult
}.

Definition excludeActions : list string :=
  ["detail"; "cetak undangan"; "cetak kartu ujian"].

(** [excludeActions.some(ex => lowerText.includes(ex))] *)
Definition excluded (lowerText : string) : bool :=
  existsb (fun ex => Js.includes lowerText ex) excludeActions.

(** [$(cell).find('a').attr('href') || null]: the attribute of the first
    link, [null] when it is missing or empty. *)
Definition firstHref (c : Cell) : option string :=
  match td_links c with
  | a :: _ =>
      match a_href a with
      | Some h => if Js.truthy h then Some h else None
      | None => None
      end
  | [] => None
  end.

(** The links of the sixth cell that are kept. *)
Fixpoint keptActions (links : list Anchor) : list Action :=
  match links with
  | [] => []
  | link :: rest =>
      let text := Js.trim (a_text link) in
      let lowerText := Js.toLowerCase text in
      if negb (excluded lowerText)
      then {| act_text := text; act_link := a_href link |}
           :: keptActions rest
      else keptActions rest
  end.

(** The body of the loop over the rows: what one row pushes on [exams]. *)
Definition examsOfRow (cells : Row) : list Exam :=
  if (6 <=? length cells)%nat then
    let cell i := nth i cells no_cell in
    let exam :=
      {| kode := Js.trim (td_text (cell 0%nat));
         periode_ := Js.trim (td_text (cell 1%nat));
         kota := Js.trim (td_text (cell 2%nat));
         hasilUjian :=
           {| hu_text := Js.trim (td_text (cell 3%nat));
              hu_link := firstHref (cell 3%nat) |};
         status := Js.trim (td_text (cell 4%nat));
         actions := keptActions (td_links (cell 5%nat));
         result := None |} in
    if Js.truthy (kode exam) && negb (String.eqb (kode exam) "KODE")
    then [exam] else []
  else [].

Section Parse.
(** [cheerio.load] *)
Variable cheerio_load : string -> Document.

Definition parseExamTable (html : string) : list Exam :=
  match doc_table (cheerio_load html) with
  | None => []
  | Some rows => flat_map examsOfRow rows
  end.
End Parse.

(** *** Sessions and the network *)

Inductive Request : Type :=
| PostLogin (email password : string)
| GetExam (cookie : string)
| GetPdf (url cookie : string).

(** The environment: the reply to the request numbered [n] (counting all
    requests from 0) and the time it takes, in milliseconds. *)
Record Net : Type := {
  reply : nat -> Request -> Reply;
  elapsed : nat -> Z
}.

(** The state of the module and of the world around it: the map
    [userSessions], the clock read by [Date.now()], and the requests
    issued so far, oldest first. *)
Record State : Type := {
  userSessions : gmap string Session;
  clock : Z;
  sent : list Request
}.

Definition M (A : Type) : Type := State -> A * State.

Definition ret {A} (a : A) : M A := fun st => (a, st).

Definition bind {A B} (c : M A) (f : A -> M B) : M B :=
  fun st => let '(a, st') := c st in f a st'.

Notation "x <- c ;; k" := (bind c (fun x => k))
  (at level 100, c at next level, right associativity).
Notation "c ;;; k" := (bind c (fun _ => k))
  (at level 100, right associativity).

Definition gets {A} (f : State -> A) : M A := fun st => (f st, st).

Definition isLogin (q : Request) : bool :=
  match q with PostLogin _ _ => true | _ => false end.

(** Number of authentication attempts issued so far. *)
Definition logins (st : State) : nat :=
  length (List.filter isLogin (sent st)).

(** [userId] is the key [String(userId)]. *)
Definition isSessionValid (userId : string) (st : State) : bool :=
  match userSessions st !! userId with
  | None => false
  | Some session => clock st <? expiry session - 5 * 60 * 1000
  end.

Definition clearSession (userId : string) : M unit :=
  fun st => (tt, {| userSessions := delete userId (userSessions st);
                    clock := clock st; sent := sent st |}).

Definition setSession (userId : string) (s : Session) : M unit :=
  fun st => (tt, {| userSessions := <[userId := s]> (userSessions st);
                    clock := clock st; sent := sent st |}).

Section Network.
Variable net : Net.
Variable cheerio_load : string -> Document.

(** One axios call: the request is recorded, time passes, the reply of
    the environment is returned. *)
Definition axios (q : Request) : M Reply :=
  fun st =>
    let n := length (sent st) in
    (reply net n q,
     {| userSessions := userSessions st;
        clock := clock st + elapsed net n;
        sent := sent st ++ [q] |}).

Definition login (email password : string) : M (option Session) :=
  r <- axios (PostLogin email password) ;;
  match r with
  | Resolved response =>
      now <- gets clock ;;
      ret (extractSessionFromResponse now response)
  | Rejected (Some response) =>
      now <- gets clock ;;
      match extractSessionFromResponse now response with
      | Some session => ret (Some session)
      | None => ret None
      end
  | Rejected None => ret None
  end.

Definition getSession (userId email password : string)
    : M (option string) :=
  valid <- gets (isSessionValid userId) ;;
  if valid then
    gets (fun st => cookie <$> userSessions st !! userId)
  else
    session <- login email password ;;
    match session with
    | Some s => setSession userId s ;;; ret (Some (cookie s))
    | None => ret None
    end.

Definition fetchExamPage (cookie : string) : M (option string) :=
  r <- axios (GetExam cookie) ;;
  match r with
  | Resolved response =>
      match responseUrl response with
      | Some u =>
          if Js.truthy u && Js.includes u "/page/login" then ret None
          else ret (Some (data response))
      | None => ret (Some (data response))
      end
  | Rejected _ => ret None
  end.

(** [!x] for a value that is a string or [null]. *)
Definition falsy (x : option string) : bool :=
  match x with Some s => negb (Js.truthy s) | None => true end.

Definition fetchExamListForUser (userId email password : string)
    : M (option (list Exam)) :=
  cookie <- getSession userId email password ;;
  if falsy cookie then ret None
  else
    html <- fetchExamPage (default EmptyString cookie) ;;
    if falsy html then
      clearSession userId ;;;
      newCookie <- getSession userId email password ;;
      if falsy newCookie then ret None
      else
        retryHtml <- fetchExamPage (default EmptyString newCookie) ;;
        if falsy retryHtml then ret None
        else ret (Some (parseExamTable cheerio_load
                          (default EmptyString retryHtml)))
    else ret (Some (parseExamTable cheerio_load
                      (default EmptyString html))).

(** [pdfParse] gives the text of the document, or throws. *)
Variable pdfParse : string -> option string.

Definition fetchExamResultPdf (pdfUrl cookie : string)
    : M (option ExamResult) :=
  let fullUrl :=
    if Js.startsWith pdfUrl "http" then pdfUrl else BASE_URL ++ pdfUrl in
  r <- axios (GetPdf fullUrl cookie) ;;
  match r with
  | Resolved response =>
      match pdfParse (data response) with
      | Some text => ret (Some (resultOfText text))
      | None => ret None
      end
  | Rejected _ => ret None
  end.
End Network.

End ExamMonitor.

(** ** A JavaScript [Map] with string keys: the entries in insertion order,
    each key once *)

Module JsMap.

Abbreviation t V := (list (string * V)) (only parsing).

Section Ops.
Context {V : Type}.

Definition has (m : t V) (k : string) : bool :=
  existsb (fun e => String.eqb (fst e) k) m.

(** [m.set(k, v)]: a present key keeps its position, a new key comes
    last. *)
Fixpoint set (m : t V) (k : string) (v : V) : t V :=
  match m with
  | [] => [(k, v)]
  | e :: m' =>
      if String.eqb (fst e) k then (k, v) :: m' else e :: set m' k v
  end.

(** [m.get(k)]; [None] is [undefined]. *)
Fixpoint get (m : t V) (k : string) : option V :=
  match m with
  | [] => None
  | e :: m' => if String.eqb (fst e) k then Some (snd e) else get m' k
  end.

(** [Array.from(m.values())] *)
Definition values (m : t V) : list V := map snd m.
End Ops.
End JsMap.

(** ** src/scraper.js *)

Module Scraper.
Import Dom Regex.

Definition BASE_URL : string :=
  "https://www.aktuaris.or.id/page/news_nextpage/".
Definition MAX_OFFSET : Z := 260.
Definition PAGE_STEP : Z := 5.

Record Article : Type := { id : string; title : string; url : string }.

(** /\/page\/news_detail\/(\d+)\// *)
Definition detailRe : list item :=
  lit "/page/news_detail/" ++ [Group [Many1 Js.is_digit]; chr "/"%char].

(** [a[href*="/page/news_detail/"]] *)
Definition selected (a : Anchor) : bool :=
  match a_href a with
  | Some h => Js.includes h "/page/news_detail/"
  | None => false
  end.

(** [parseInt] of a string, without a radix argument: radix 16 after a
    ["0x"] prefix, radix 10 otherwise; NaN when no digit follows. *)
Definition parseInt (s : string) : spec_float :=
  let '(neg, s1) := Number.sign_of (Js.trimStart s) in
  let '(hex, s2) :=
    match s1 with
    | String "0"%char (String x t) =>
        if Ascii.eqb (Js.lower_char x) "x"%char then (true, t)
        else (false, s1)
    | _ => (false, s1)
    end in
  let '(d, _) := Js.span (if hex then Js.is_hex else Js.is_digit) s2 in
  if Js.is_empty d then S754_nan
  else Number.decimal neg
         (if hex then Js.hex_value 0 d else Js.digits_value 0 d) 0.

(** The sign of [parseInt(b.id) - parseInt(a.id)], which is all that
    [sort] reads of it: [Lt] when negative ([a] goes first), [Gt] when
    positive, [Eq] when zero or NaN.  The difference of two Numbers has
    the sign of their comparison: it rounds to zero only when they are
    equal, and it is NaN for two infinities of the same sign. *)
Definition compareFn (a b : Article) : comparison :=
  match SFcompare (parseInt (id b)) (parseInt (id a)) with
  | Some c => c
  | None => Eq
  end.

(** [Array.prototype.sort] is stable; for a comparator that is a total
    preorder its result is the one of this insertion sort. *)
Fixpoint insert (x : Article) (l : list Article) : list Article :=
  match l with
  | [] => [x]
  | y :: l' =>
      match compareFn x y with
      | Gt => y :: insert x l'
      | _ => x :: l
      end
  end.

Definition sort (l : list Article) : list Article :=
  fold_right insert [] l.

(** The callback of [each] in [parseArticles]. *)
Definition addAnchor (articles : JsMap.t Article) (element : Anchor)
    : JsMap.t Article :=
  let href := default EmptyString (a_href element) in
  let text := Js.trim (a_text element) in
  match exec detailRe href with
  | Some m =>
      if Js.truthy text then
        let id := group 1 m in
        if negb (JsMap.has articles id) then
          JsMap.set articles id
            {| id := id; title := text;
               url := if Js.startsWith href "http" then href
                      else "https://www.aktuaris.or.id" ++ href |}
        else articles
      else articles
  | None => articles
  end.

(** The callback of [forEach] in the loop of [scrapeArticles]. *)
Definition addArticle (allArticles : JsMap.t Article) (article : Article)
    : JsMap.t Article :=
  if negb (JsMap.has allArticles (id article))
  then JsMap.set allArticles (id article) article
  else allArticles.

Definition pageUrl (offset : Z) : string :=
  if offset =? 0 then BASE_URL else BASE_URL ++ Js.of_int offset.

(** The state: the URLs requested so far, oldest first. *)
Record State : Type := { requested : list string }.

Section Scrape.
(** [cheerio.load] *)
Variable cheerio_load : string -> Document.
(** The reply to the request numbered [n]: the HTML of the page, or
    [None] when axios throws. *)
Variable page : nat -> string -> option string.

Definition parseArticles (html : string) : list Article :=
  let articles :=
    fold_left addAnchor
      (List.filter selected (doc_anchors (cheerio_load html))) [] in
  sort (JsMap.values articles).

(** [None] stands for the exception that [fetchNewsPage] rethrows. *)
Definition fetchNewsPage (offset : Z) (st : State)
    : option string * State :=
  let url := pageUrl offset in
  (page (length (requested st)) url,
   {| requested := requested st ++ [url] |}).

(** The [for] loop of [scrapeArticles], from [offset] on. *)
Equations? scrapeLoop (offset : Z) (allArticles : JsMap.t Article)
    (st : State) : JsMap.t Article * State
    by wf (Z.to_nat (MAX_OFFSET + PAGE_STEP - offset)) lt :=
  scrapeLoop offset allArticles st with Z_le_gt_dec offset MAX_OFFSET => {
    | left _ =>
        let '(r, st') := fetchNewsPage offset st in
        let allArticles' :=
          match r with
          | Some html =>
              fold_left addArticle (parseArticles html) allArticles
          | None => allArticles
          end in
        scrapeLoop (offset + PAGE_STEP) allArticles' st'
    | right _ => (allArticles, st) }.
Proof. unfold MAX_OFFSET, PAGE_STEP in *. lia. Qed.

(** [None] stands for a rejected promise. *)
Definition scrapeArticles (allPages : bool) (st : State)
    : option (list Article) * State :=
  if allPages then
    let '(allArticles, st') := scrapeLoop 0 [] st in
    (Some (sort (JsMap.values allArticles)), st')
  else
    let '(r, st') := fetchNewsPage 0 st in
    match r with
    | Some html =>
        let allArticles :=
          fold_left (fun m article => JsMap.set m (id article) article)
            (parseArticles html) [] in
        (Some (sort (JsMap.values allArticles)), st')
    | None => (None, st')
    end.
End Scrape.

End Scraper.

(** ** A JavaScript [Set] of strings: the elements in insertion order,
    each once *)

Module JsSet.

Abbreviation t := (list string) (only parsing).

Definition has (s : t) (k : string) : bool := existsb (String.eqb k) s.

(** [s.add(k)] *)
Definition add (s : t) (k : string) : t := if has s k then s else s ++ [k].

(** [s.delete(k)] *)
Definition delete (s : t) (k : string) : t :=
  List.filter (fun x => negb (String.eqb x k)) s.

(** [new Set(array)] *)
Definition of_array (l : list string) : t := fold_left add l [].

End JsSet.

(** ** A JavaScript object used as a map: its own properties in the order
    of [Object.entries], which is the array indices in ascending order
    followed by the other keys in the order of their creation.  The keys
    are not names that [Object.prototype] defines. *)

Module JsObject.

Abbreviation t V := (list (string * V)) (only parsing).

(** An array index is the canonical numeral of an integer from 0 to
    2^32 - 2. *)
Definition arrayIndex (k : string) : option Z :=
  match k with
  | EmptyString => None
  | String "0"%char (String _ _) => None
  | _ =>
      if Js.every Js.is_digit k && (Js.digits_value 0 k <=? 4294967294)
      then Some (Js.digits_value 0 k) else None
  end.

Section Ops.
Context {V : Type}.

(** [o[k]]; [None] is [undefined]. *)
Fixpoint get (o : t V) (k : string) : option V :=
  match o with
  | [] => None
  | e :: o' => if String.eqb (fst e) k then Some (snd e) else get o' k
  end.

Fixpoint replace (o : t V) (k : string) (v : V) : t V :=
  match o with
  | [] => []
  | e :: o' =>
      if String.eqb (fst e) k then (k, v) :: o' else e :: replace o' k v
  end.

(** A new array index goes before the first key that is a greater array
    index or no array index. *)
Fixpoint insertIndex (o : t V) (i : Z) (k : string) (v : V) : t V :=
  match o with
  | [] => [(k, v)]
  | e :: o' =>
      match arrayIndex (fst e) with
      | Some j => if j <? i then e :: insertIndex o' i k v else (k, v) :: o
      | None => (k, v) :: o
      end
  end.

(** [o[k] = v] *)
Definition set (o : t V) (k : string) (v : V) : t V :=
  match get o k with
  | Some _ => replace o k v
  | None =>
      match arrayIndex k with
      | Some i => insertIndex o i k v
      | None => o ++ [(k, v)]
      end
  end.

End Ops.
End JsObject.

(** ** Calls that change a state and may throw *)

Module Control.

Inductive Outcome (A : Type) : Type :=
| Returned (a : A)
| Thrown.
Arguments Returned {A} a.
Arguments Thrown {A}.

Section Monad.
Context {S : Type}.

Definition M (A : Type) : Type := S -> Outcome A * S.

Definition ret {A} (a : A) : M A := fun st => (Returned a, st).

Definition throw {A} : M A := fun st => (Thrown, st).

Definition bind {A B} (c : M A) (f : A -> M B) : M B :=
  fun st =>
    match c st with
    | (Returned a, st') => f a st'
    | (Thrown, st') => (Thrown, st')
    end.

Definition gets {A} (f : S -> A) : M A := fun st => (Returned (f st), st).

(** [try { c } catch (error) { handler }] *)
Definition try_catch {A} (c : M A) (handler : M A) : M A :=
  fun st =>
    match c st with
    | (Returned a, st') => (Returned a, st')
    | (Thrown, st') => handler st'
    end.

(** [for (const x of l) { body }] *)
Fixpoint for_of {A} (l : list A) (body : A -> M unit) : M unit :=
  match l with
  | [] => ret tt
  | x :: rest => bind (body x) (fun _ => for_of rest body)
  end.

End Monad.

Arguments M S A : clear implicits.

Declare Scope control_scope.
Delimit Scope control_scope with control.
Notation "x <- c ;; k" := (bind c (fun x => k))
  (at level 100, c at next level, right associativity) : control_scope.
Notation "c ;;; k" := (bind c (fun _ => k))
  (at level 100, right associativity) : control_scope.

End Control.

(** ** src/storage.js *)

Module Storage.
Import Scraper.

Definition getNewArticles (currentArticles : list Article)
    (seenIds : gset string) : list Article :=
  filter (fun article => id article ∉ seenIds) currentArticles.

(** *** The files of the data directory

    A file of the data directory is absent, cannot be read or parsed, or
    holds a document of the form the module writes.  A document stands for
    its text: [JSON.parse] gives back what [JSON.stringify] was given.  Of
    a document only the part that the loader of the file reads is kept,
    the field [lastUpdated] of the first three files is not.  Numbers in
    the documents are integers. *)

Module Disk.
Import Control.
Local Open Scope control_scope.

Inductive File (A : Type) : Type :=
| Missing
| Unreadable
| Holds (content : A).
Arguments Missing {A}.
Arguments Unreadable {A}.
Arguments Holds {A} content.

Record AccessRequest : Type := {
  userId : string;
  username : option string;
  name : string;
  requestedAt : string
}.

(** The value of a preference. *)
Inductive Value : Type :=
| VNull
| VBool (b : bool)
| VNum (n : Z)
| VStr (s : string).

(** Truthiness of a property that may be [undefined]. *)
Definition truthy (v : option Value) : bool :=
  match v with
  | Some (VBool b) => b
  | Some (VNum n) => negb (n =? 0)
  | Some (VStr s) => Js.truthy s
  | Some VNull | None => false
  end.

Record Files : Type := {
  SEEN_ARTICLES_FILE : File (list string);
  ALLOWED_USERS_FILE : File (list string);
  ACCESS_REQUESTS_FILE : File (list AccessRequest);
  USER_PREFS_FILE : File (JsObject.t (JsObject.t Value))
}.

(** A path of the data directory: how its file is read and replaced. *)
Record Path (A : Type) : Type := {
  file : Files -> File A;
  with_file : File A -> Files -> Files
}.
Arguments file {A} p fs.
Arguments with_file {A} p f fs.

Definition seen_articles_json : Path (list string) :=
  {| file := SEEN_ARTICLES_FILE;
     with_file := fun f fs =>
       {| SEEN_ARTICLES_FILE := f;
          ALLOWED_USERS_FILE := ALLOWED_USERS_FILE fs;
          ACCESS_REQUESTS_FILE := ACCESS_REQUESTS_FILE fs;
          USER_PREFS_FILE := USER_PREFS_FILE fs |} |}.

Definition allowed_users_json : Path (list string) :=
  {| file := ALLOWED_USERS_FILE;
     with_file := fun f fs =>
       {| SEEN_ARTICLES_FILE := SEEN_ARTICLES_FILE fs;
          ALLOWED_USERS_FILE := f;
          ACCESS_REQUESTS_FILE := ACCESS_REQUESTS_FILE fs;
          USER_PREFS_FILE := USER_PREFS_FILE fs |} |}.

Definition access_requests_json : Path (list AccessRequest) :=
  {| file := ACCESS_REQUESTS_FILE;
     with_file := fun f fs =>
       {| SEEN_ARTICLES_FILE := SEEN_ARTICLES_FILE fs;
          ALLOWED_USERS_FILE := ALLOWED_USERS_FILE fs;
          ACCESS_REQUESTS_FILE := f;
          USER_PREFS_FILE := USER_PREFS_FILE fs |} |}.

Definition user_preferences_json
    : Path (JsObject.t (JsObject.t Value)) :=
  {| file := USER_PREFS_FILE;
     with_file := fun f fs =>
       {| SEEN_ARTICLES_FILE := SEEN_ARTICLES_FILE fs;
          ALLOWED_USERS_FILE := ALLOWED_USERS_FILE fs;
          ACCESS_REQUESTS_FILE := ACCESS_REQUESTS_FILE fs;
          USER_PREFS_FILE := f |} |}.

(** The state: the files of the data directory, if the directory exists,
    the clock read by [new Date()], and the number of writes attempted so
    far. *)
Record State : Type := {
  dataDir : option Files;
  clock : Z;
  writes : nat
}.

(** How a call of [writeFileSync] ends: the file holds the new text, or
    the call throws and leaves the file as it was or damaged. *)
Inductive Written : Type :=
| WriteOk
| WriteFailed (intact : bool).

Section Files.
(** whether [mkdirSync] succeeds *)
Variable mkdirSync : bool.
(** the outcome of the write numbered [n], counting all writes from 0 *)
Variable writeFileSync : nat -> Written.
(** [Date.prototype.toISOString] of the instant [t] *)
Variable toISOString : Z -> string.

Definition ensureDataDir : M State unit :=
  fun st =>
    match dataDir st with
    | Some _ => (Returned tt, st)
    | None =>
        if mkdirSync then
          (Returned tt,
           {| dataDir := Some {| SEEN_ARTICLES_FILE := Missing;
                                 ALLOWED_USERS_FILE := Missing;
                                 ACCESS_REQUESTS_FILE := Missing;
                                 USER_PREFS_FILE := Missing |};
              clock := clock st; writes := writes st |})
        else (Thrown, st)
    end.

(** What [existsSync], [readFileSync] and [JSON.parse] find at a path. *)
Definition readJson {A} (path : Path A) : M State (File A) :=
  gets (fun st =>
          match dataDir st with
          | Some fs => file path fs
          | None => Missing
          end).

(** [writeFileSync(path, JSON.stringify(content))] inside [try]: the
    error of a failed write is logged and dropped. *)
Definition writeJson {A} (path : Path A) (content : A) : M State unit :=
  fun st =>
    let after (old : File A) :=
      match writeFileSync (writes st) with
      | WriteOk => Holds content
      | WriteFailed true => old
      | WriteFailed false => Unreadable
      end in
    (Returned tt,
     {| dataDir :=
          match dataDir st with
          | Some fs => Some (with_file path (after (file path fs)) fs)
          | None => None
          end;
        clock := clock st;
        writes := S (writes st) |}).

(** *** Seen articles *)

Definition loadSeenArticles : M State JsSet.t :=
  ensureDataDir ;;;
  f <- readJson seen_articles_json ;;
  match f with
  | Holds articleIds => ret (JsSet.of_array articleIds)
  | Missing | Unreadable => ret []
  end.

Definition saveSeenArticles (articleIds : JsSet.t) : M State unit :=
  ensureDataDir ;;;
  writeJson seen_articles_json articleIds.

(** The set [seenIds] is changed in place; the result is the set after
    the call. *)
Definition markArticlesAsSeen (articles : list Article) (seenIds : JsSet.t)
    : M State JsSet.t :=
  let seenIds' :=
    fold_left (fun s article => JsSet.add s (id article)) articles seenIds in
  saveSeenArticles seenIds' ;;;
  ret seenIds'.

(** *** Allowed users *)

Definition loadAllowedUsers : M State JsSet.t :=
  ensureDataDir ;;;
  f <- readJson allowed_users_json ;;
  match f with
  | Holds userIds => ret (JsSet.of_array userIds)
  | Missing | Unreadable => ret []
  end.

Definition saveAllowedUsers (userIds : JsSet.t) : M State unit :=
  ensureDataDir ;;;
  writeJson allowed_users_json userIds.

(** [userId] is the string [String(userId)], here and below. *)
Definition isUserAllowed (userId : string) : M State bool :=
  allowedUsers <- loadAllowedUsers ;;
  ret (JsSet.has allowedUsers userId).

Definition addAllowedUser (userId : string) : M State unit :=
  allowedUsers <- loadAllowedUsers ;;
  saveAllowedUsers (JsSet.add allowedUsers userId).

Definition removeAllowedUser (userId : string) : M State unit :=
  allowedUsers <- loadAllowedUsers ;;
  saveAllowedUsers (JsSet.delete allowedUsers userId).

(** *** Access requests *)

Definition loadAccessRequests : M State (list AccessRequest) :=
  ensureDataDir ;;;
  f <- readJson access_requests_json ;;
  match f with
  | Holds requests => ret requests
  | Missing | Unreadable => ret []
  end.

Definition saveAccessRequests (requests : list AccessRequest)
    : M State unit :=
  ensureDataDir ;;;
  writeJson access_requests_json requests.

(** [requests.findIndex(predicate)]; [None] is -1. *)
Fixpoint findIndex {A} (predicate : A -> bool) (l : list A) : option nat :=
  match l with
  | [] => None
  | x :: rest =>
      if predicate x then Some 0%nat
      else option_map S (findIndex predicate rest)
  end.

(** [username] is [None] when the sender has no user name. *)
Definition addAccessRequest (userId : string) (username : option string)
    (name : string) : M State unit :=
  requests <- loadAccessRequests ;;
  let existingIndex :=
    findIndex (fun r => String.eqb (Disk.userId r) userId) requests in
  now <- gets clock ;;
  let request :=
    {| userId := userId;
       username :=
         match username with
         | Some u => if Js.truthy u then Some u else None
         | None => None
         end;
       name := if Js.truthy name then name else "Unknown";
       requestedAt := toISOString now |} in
  match existingIndex with
  | Some i => saveAccessRequests (<[i := request]> requests)
  | None => saveAccessRequests (requests ++ [request])
  end.

Definition removeAccessRequest (userId : string) : M State unit :=
  requests <- loadAccessRequests ;;
  let filtered :=
    List.filter (fun r => negb (String.eqb (Disk.userId r) userId))
      requests in
  saveAccessRequests filtered.

Definition getAccessRequests : M State (list AccessRequest) :=
  loadAccessRequests.

(** *** User preferences *)

Definition loadUserPreferences : M State (JsObject.t (JsObject.t Value)) :=
  ensureDataDir ;;;
  f <- readJson user_preferences_json ;;
  match f with
  | Holds prefs => ret prefs
  | Missing | Unreadable => ret []
  end.

Definition saveUserPreferences (prefs : JsObject.t (JsObject.t Value))
    : M State unit :=
  ensureDataDir ;;;
  writeJson user_preferences_json prefs.

Definition getUserPreference (userId key : string) (defaultValue : Value)
    : M State Value :=
  prefs <- loadUserPreferences ;;
  let userPrefs := default [] (JsObject.get prefs userId) in
  ret (match JsObject.get userPrefs key with
       | Some v => v
       | None => defaultValue
       end).

Definition setUserPreference (userId key : string) (value : Value)
    : M State unit :=
  prefs <- loadUserPreferences ;;
  let prefs1 :=
    match JsObject.get prefs userId with
    | Some _ => prefs
    | None => JsObject.set prefs userId []
    end in
  let userPrefs := default [] (JsObject.get prefs1 userId) in
  let userPrefs1 := JsObject.set userPrefs key value in
  now <- gets clock ;;
  let userPrefs2 :=
    JsObject.set userPrefs1 "lastUpdated" (VStr (toISOString now)) in
  saveUserPreferences (JsObject.set prefs1 userId userPrefs2).

(** The objects [{userId, intervalMinutes}] as pairs. *)
Definition getAllUsersWithReminders : M State (list (string * Value)) :=
  prefs <- loadUserPreferences ;;
  ret (omap (fun entry =>
               let userPrefs := snd entry in
               if truthy (JsObject.get userPrefs "reminderEnabled") &&
                  truthy (JsObject.get userPrefs "reminderInterval")
               then Some (fst entry,
                          default VNull
                            (JsObject.get userPrefs "reminderInterval"))
               else None)
         prefs).

End Files.

End Disk.

End Storage.

(** ** src/telegram.js

    The bot is initialised.  A chat id and a user id are the strings that
    [String] makes of them.  A call of the bot that is not awaited is
    recorded; what becomes of it does not reach the code.  Text constants
    with characters outside Latin-1 stand as their UTF-8 bytes. *)

Module Telegram.
Import Scraper Control Storage.Disk.
Local Open Scope control_scope.

(** The options of [sendMessage]: none, [parse_mode: 'Markdown'], and that
    with [disable_web_page_preview: true]. *)
Inductive Options : Type := NoOptions | Markdown | MarkdownNoPreview.

(** A call of the bot. *)
Inductive Call : Type :=
| SendMessage (chatId text : string) (options : Options)
| DeleteMessage (chatId messageId : string).

(** The state of the process and of the world around it: the data
    directory, the pages requested from the site, and the calls of the bot
    so far, oldest first. *)
Record World : Type := {
  storage : Storage.Disk.State;
  site : Scraper.State;
  outbox : list Call
}.

(** A message that the bot receives. *)
Record Message : Type := {
  chat_id : string;
  from_id : string;
  from_username : option string;
  from_first_name : option string;
  from_last_name : option string;
  msg_text : option string;
  message_id : string
}.

Definition LF : string := String (ascii_of_nat 10) EmptyString.

(** [/[_*[\]()~`>#+=|{}.!-]/] *)
Definition special (c : ascii) : bool :=
  existsb (Ascii.eqb c)
    (list_ascii_of_string "_*[]()~`>#+=|{}.!-").

(** [text.replace(/[_*[\]()~`>#+=|{}.!-]/g, '\\$&')] *)
Fixpoint escapeMarkdown (text : string) : string :=
  match text with
  | EmptyString => EmptyString
  | String c rest =>
      if special c then String "\"%char (String c (escapeMarkdown rest))
      else String c (escapeMarkdown rest)
  end.

(** [forEach((article, index) => ...)] of the notification, from [index]
    on. *)
Fixpoint articleLines (index : Z) (articles : list Article) : string :=
  match articles with
  | [] => EmptyString
  | article :: rest =>
      Js.of_int (index + 1) ++ ". [" ++ escapeMarkdown (title article) ++
      "](" ++ url article ++ ")" ++ LF ++ LF ++
      articleLines (index + 1) rest
  end.

(** The text that [sendNewArticlesNotification] builds. *)
Definition notification (articles : list Article) : string :=
  "🔔 *" ++ Js.of_int (Z.of_nat (length articles)) ++ " New Article" ++
  (if 1 <? Z.of_nat (length articles) then "s" else EmptyString) ++
  " on PAI Website!*" ++ LF ++ LF ++
  articleLines 0 articles ++
  "_Check it out on aktuaris.or.id_".

(** [String(v)], as a template literal makes it. *)
Definition toString (v : Value) : string :=
  match v with
  | VNull => "null"
  | VBool true => "true"
  | VBool false => "false"
  | VNum n => Js.of_int n
  | VStr s => s
  end.

(** [match[1] ? match[1].trim() : null] for the first capture of a
    pattern; [None] is [undefined] and [null]. *)
Definition trimmed (capture : option string) : option string :=
  match capture with
  | Some m => if Js.truthy m then Some (Js.trim m) else None
  | None => None
  end.

(** Truthiness of a string that may be [null]. *)
Definition given (x : option string) : bool :=
  match x with
  | Some s => Js.truthy s
  | None => false
  end.

(** [v === s] for a string [s] *)
Definition isString (v : Value) (s : string) : bool :=
  match v with
  | VStr t => String.eqb t s
  | _ => false
  end.

Definition isNaN (x : spec_float) : bool :=
  match x with
  | S754_nan => true
  | _ => false
  end.

(** The integer that a Number with an integral value is. *)
Definition toInteger (x : spec_float) : Z :=
  match x with
  | S754_finite s m e =>
      let v := if 0 <=? e then Zpos m * 2 ^ e else Zpos m / 2 ^ (- e) in
      if s then - v else v
  | _ => 0
  end.

Definition accessDenied : string :=
  "🔒 Access denied. Send /start to request access.".

Section Bot.
Variable mkdirSync : bool.
Variable writeFileSync : nat -> Written.
Variable toISOString : Z -> string.
(** [process.env.ADMIN_CHAT_ID] *)
Variable ADMIN_CHAT_ID : option string.
(** whether the call of the bot numbered [n], counting all calls from 0,
    succeeds *)
Variable delivered : nat -> bool.

(** A function of the storage module, called in this process. *)
Definition onStorage {A} (c : M Storage.Disk.State A) : M World A :=
  fun w =>
    let '(r, st) := c (storage w) in
    (r, {| storage := st; site := site w; outbox := outbox w |}).

(** A call of the bot that is not awaited. *)
Definition call (c : Call) : M World unit :=
  fun w =>
    (Returned tt,
     {| storage := storage w; site := site w;
        outbox := outbox w ++ [c] |}).

(** [await] of a call of the bot: it throws when the call fails. *)
Definition await (c : Call) : M World unit :=
  fun w =>
    (if delivered (length (outbox w)) then Returned tt else Thrown,
     {| storage := storage w; site := site w;
        outbox := outbox w ++ [c] |}).

Definition getAdminChatId : option string :=
  match ADMIN_CHAT_ID with
  | Some adminId => if Js.truthy adminId then Some adminId else None
  | None => None
  end.

(** The truthiness of the result. *)
Definition isAdmin (userId : string) : bool :=
  match getAdminChatId with
  | Some adminId => String.eqb userId adminId
  | None => false
  end.

Definition canUseBot (userId : string) : M World bool :=
  if isAdmin userId then ret true
  else onStorage (isUserAllowed mkdirSync userId).

Definition sendNewArticlesNotification (chatId : string)
    (articles : list Article) : M World unit :=
  await (SendMessage chatId (notification articles) MarkdownNoPreview).

(** [x || ''] *)
Definition orEmpty (x : option string) : string := default EmptyString x.

(** The handler of [/start]. *)
Definition onStart (msg : Message) : M World unit :=
  let chatId := chat_id msg in
  let userId := from_id msg in
  let username := from_username msg in
  let name :=
    Js.trim (orEmpty (from_first_name msg) ++ " " ++
             orEmpty (from_last_name msg)) in
  allowed <- canUseBot userId ;;
  if allowed then
    let message :=
      "👋 *Welcome to PAI News Notifier!*" ++ LF ++ LF ++
      "Your Chat ID is: `" ++ chatId ++ "`" ++ LF ++ LF ++
      "*Available Commands:*" ++ LF ++
      "/check - Check for new articles now" ++ LF ++
      "/latest - Show the 5 latest articles" ++ LF ++
      "/status - Bot status info" ++ LF ++
      "/help - Show this help message" in
    let message :=
      if isAdmin userId then
        message ++ LF ++ LF ++ "*Admin:*" ++ LF ++
        "/admin - Open admin panel"
      else message in
    call (SendMessage chatId message Markdown)
  else
    onStorage (addAccessRequest mkdirSync writeFileSync toISOString
                 userId username name) ;;;
    let message :=
      "🔒 *Access Denied*" ++ LF ++ LF ++
      "Your request has been logged. An admin will review your access request."
      ++ LF ++ LF ++
      "Your User ID: `" ++ userId ++ "`" in
    call (SendMessage chatId message Markdown).

(** The handler of [/grant]; [targetUserId] is the first capture of the
    pattern, a run of digits. *)
Definition onGrant (msg : Message) (targetUserId : string) : M World unit :=
  let chatId := chat_id msg in
  let userId := from_id msg in
  if negb (isAdmin userId) then
    call (SendMessage chatId "🔒 This command is for admins only." NoOptions)
  else
    onStorage (addAllowedUser mkdirSync writeFileSync targetUserId) ;;;
    onStorage (removeAccessRequest mkdirSync writeFileSync targetUserId) ;;;
    call (SendMessage chatId
            ("✅ User `" ++ targetUserId ++ "` has been granted access.")
            Markdown) ;;;
    call (SendMessage targetUserId
            ("🎉 Your access request has been approved! You can now use the bot."
             ++ LF ++ LF ++ "Send /start to get started.")
            NoOptions).

(** The handler of [/revoke]. *)
Definition onRevoke (msg : Message) (targetUserId : string)
    : M World unit :=
  let chatId := chat_id msg in
  let userId := from_id msg in
  if negb (isAdmin userId) then
    call (SendMessage chatId "🔒 This command is for admins only." NoOptions)
  else
    onStorage (removeAllowedUser mkdirSync writeFileSync targetUserId) ;;;
    call (SendMessage chatId
            ("✅ User `" ++ targetUserId ++ "` access has been revoked.")
            Markdown).

(** The handler of [/setpai]; [capture] is the first capture of the
    pattern, what follows the command. *)
Definition onSetpai (msg : Message) (capture : option string)
    : M World unit :=
  let chatId := chat_id msg in
  let userId := from_id msg in
  let args := trimmed capture in
  allowed <- canUseBot userId ;;
  if negb allowed then call (SendMessage chatId accessDenied NoOptions)
  else if given args &&
          String.eqb (Js.toLowerCase (orEmpty args)) "clear" then
    onStorage (setUserPreference mkdirSync writeFileSync toISOString
                 userId "paiEmail" VNull) ;;;
    onStorage (setUserPreference mkdirSync writeFileSync toISOString
                 userId "paiPassword" VNull) ;;;
    onStorage (setUserPreference mkdirSync writeFileSync toISOString
                 userId "paiLoginStep" VNull) ;;;
    call (SendMessage chatId "🗑 PAI credentials removed." NoOptions)
  else
    currentEmail <-
      onStorage (getUserPreference mkdirSync userId "paiEmail" VNull) ;;
    if truthy (Some currentEmail) && negb (given args) then
      call (SendMessage chatId
              ("✅ *PAI Credentials*" ++ LF ++ LF ++
               "Email: `" ++ toString currentEmail ++ "`" ++ LF ++ LF ++
               "• Send /setpai again to update" ++ LF ++
               "• Send `/setpai clear` to remove")
              Markdown)
    else
      onStorage (setUserPreference mkdirSync writeFileSync toISOString
                   userId "paiLoginStep" (VStr "email")) ;;;
      call (SendMessage chatId
              ("📧 *PAI Login Setup*" ++ LF ++ LF ++
               "Please enter your *email*:")
              Markdown).

(** The handler of the messages, which takes the steps of the login
    flow. *)
Definition onMessage (msg : Message) : M World unit :=
  if negb (given (msg_text msg)) ||
     Js.startsWith (orEmpty (msg_text msg)) "/" then ret tt
  else
    let chatId := chat_id msg in
    let userId := from_id msg in
    let text := Js.trim (orEmpty (msg_text msg)) in
    loginStep <-
      onStorage (getUserPreference mkdirSync userId "paiLoginStep" VNull) ;;
    if negb (truthy (Some loginStep)) then ret tt
    else if isString loginStep "email" then
      onStorage (setUserPreference mkdirSync writeFileSync toISOString
                   userId "paiTempEmail" (VStr text)) ;;;
      onStorage (setUserPreference mkdirSync writeFileSync toISOString
                   userId "paiLoginStep" (VStr "password")) ;;;
      call (SendMessage chatId
              ("🔐 Email: `" ++ text ++ "`" ++ LF ++ LF ++
               "Now enter your *password*:" ++ LF ++ LF ++
               "_⚠️ Your message will be deleted for security_")
              Markdown)
    else if isString loginStep "password" then
      try_catch (await (DeleteMessage chatId (message_id msg)))
        (ret tt) ;;;
      email <-
        onStorage (getUserPreference mkdirSync userId "paiTempEmail"
                     VNull) ;;
      if negb (truthy (Some email)) then
        onStorage (setUserPreference mkdirSync writeFileSync toISOString
                     userId "paiLoginStep" VNull) ;;;
        call (SendMessage chatId
                "❌ Something went wrong. Please start again with /setpai"
                NoOptions)
      else
        onStorage (setUserPreference mkdirSync writeFileSync toISOString
                     userId "paiEmail" email) ;;;
        onStorage (setUserPreference mkdirSync writeFileSync toISOString
                     userId "paiPassword" (VStr text)) ;;;
        onStorage (setUserPreference mkdirSync writeFileSync toISOString
                     userId "paiTempEmail" VNull) ;;;
        onStorage (setUserPreference mkdirSync writeFileSync toISOString
                     userId "paiLoginStep" VNull) ;;;
        call (SendMessage chatId
                ("✅ *PAI Credentials Saved*" ++ LF ++ LF ++
                 "Email: `" ++ toString email ++ "`" ++ LF ++ LF ++
                 "Use /examstatus to check your exams.")
                Markdown)
    else ret tt.

(** The handler of [/reminder]; [capture] is the first capture of the
    pattern, what follows the command. *)
Definition onReminder (msg : Message) (capture : option string)
    : M World unit :=
  let chatId := chat_id msg in
  let userId := from_id msg in
  let arg := trimmed capture in
  allowed <- canUseBot userId ;;
  if negb allowed then call (SendMessage chatId accessDenied NoOptions)
  else
    currentInterval <-
      onStorage (getUserPreference mkdirSync userId "reminderInterval"
                   VNull) ;;
    isEnabled <-
      onStorage (getUserPreference mkdirSync userId "reminderEnabled"
                   (VBool false)) ;;
    if negb (given arg) then
      let message := "*⏰ Reminder Settings*" ++ LF ++ LF in
      let message :=
        if truthy (Some isEnabled) && truthy (Some currentInterval) then
          message ++ "✅ Notifications: *Enabled*" ++ LF ++
          "⏱ Interval: Every *" ++ toString currentInterval ++
          " minutes*" ++ LF ++ LF
        else message ++ "❌ Notifications: *Disabled*" ++ LF ++ LF in
      let message :=
        message ++ "*To change:*" ++ LF ++
        "• `/reminder 30` - Check every 30 minutes" ++ LF ++
        "• `/reminder 60` - Check every hour" ++ LF ++
        "• `/reminder off` - Turn off notifications" in
      call (SendMessage chatId message Markdown)
    else if String.eqb (Js.toLowerCase (orEmpty arg)) "off" then
      onStorage (setUserPreference mkdirSync writeFileSync toISOString
                   userId "reminderEnabled" (VBool false)) ;;;
      call (SendMessage chatId
              "🔕 Notifications disabled. You can still use /check manually."
              NoOptions)
    else
      let minutes := parseInt (orEmpty arg) in
      if isNaN minutes || SFltb minutes (Number.of_Z 10) ||
         SFltb (Number.of_Z 1440) minutes then
        call (SendMessage chatId
                ("❌ Please enter a number between 10 and 1440 minutes (24 hours)."
                 ++ LF ++ LF ++ "Example: `/reminder 30`")
                Markdown)
      else
        onStorage (setUserPreference mkdirSync writeFileSync toISOString
                     userId "reminderInterval" (VNum (toInteger minutes))) ;;;
        onStorage (setUserPreference mkdirSync writeFileSync toISOString
                     userId "reminderEnabled" (VBool true)) ;;;
        call (SendMessage chatId
                ("✅ Notifications set to every *" ++
                 Js.of_int (toInteger minutes) ++ " minutes*." ++ LF ++ LF ++
                 "I'll notify you when new articles are published.")
                Markdown).

End Bot.

Section Site.
Variable mkdirSync : bool.
Variable writeFileSync : nat -> Written.
Variable ADMIN_CHAT_ID : option string.
Variable delivered : nat -> bool.
Variable cheerio_load : string -> Dom.Document.
Variable page : nat -> string -> option string.
(** [error.message] of the error that a handler catches when the bot has
    made [n] calls *)
Variable errorMessage : nat -> string.

(** [await scrapeArticles(allPages)] *)
Definition scrape (allPages : bool) : M World (list Article) :=
  fun w =>
    let '(r, s) := scrapeArticles cheerio_load page allPages (site w) in
    (match r with Some articles => Returned articles | None => Thrown end,
     {| storage := storage w; site := s; outbox := outbox w |}).

(** The handler of [/check]. *)
Definition onCheck (msg : Message) : M World unit :=
  let chatId := chat_id msg in
  let userId := from_id msg in
  allowed <- canUseBot mkdirSync ADMIN_CHAT_ID userId ;;
  if negb allowed then call (SendMessage chatId accessDenied NoOptions)
  else
    try_catch
      (call (SendMessage chatId "🔍 Checking for new articles..."
               NoOptions) ;;;
       articles <- scrape false ;;
       seenIds <- onStorage (loadSeenArticles mkdirSync) ;;
       let newArticles :=
         Storage.getNewArticles articles (list_to_set seenIds) in
       if (0 <? length newArticles)%nat then
         sendNewArticlesNotification delivered chatId newArticles ;;;
         onStorage (markArticlesAsSeen mkdirSync writeFileSync
                      newArticles seenIds) ;;;
         ret tt
       else
         call (SendMessage chatId
                 "✅ No new articles found. You're all caught up!"
                 NoOptions))
      (fun w =>
         call (SendMessage chatId
                 ("❌ Error checking for updates: " ++
                  errorMessage (length (outbox w)))
                 NoOptions) w).

End Site.
End Telegram.

(** ** src/index.js *)

Module Index.
Import Scraper Control Storage.Disk Telegram.
Local Open Scope control_scope.

(** The state: the world and the map [userLastCheck]. *)
Record State : Type := {
  world : World;
  userLastCheck : JsMap.t Z
}.

Section Checks.
Variable mkdirSync : bool.
Variable writeFileSync : nat -> Written.
Variable delivered : nat -> bool.
Variable cheerio_load : string -> Dom.Document.
Variable page : nat -> string -> option string.
(** The Number that a string converts to, for the strings that denote
    integers; [None] is NaN. *)
Variable StringToNumber : string -> option Z.

(** [userId] is not used. *)
Definition checkForUpdates (isFirstRun : bool) (userId : option string)
    : M World unit :=
  try_catch
    (seenIds <- onStorage (loadSeenArticles mkdirSync) ;;
     let shouldScrapeAll := isFirstRun && (length seenIds =? 0)%nat in
     articles <- scrape cheerio_load page shouldScrapeAll ;;
     let newArticles :=
       Storage.getNewArticles articles (list_to_set seenIds) in
     if (0 <? length newArticles)%nat then
       if shouldScrapeAll then
         onStorage (markArticlesAsSeen mkdirSync writeFileSync
                      newArticles seenIds) ;;;
         ret tt
       else
         usersWithReminders <-
           onStorage (getAllUsersWithReminders mkdirSync) ;;
         (if (0 <? length usersWithReminders)%nat then
            for_of usersWithReminders
              (fun user =>
                 try_catch
                   (sendNewArticlesNotification delivered (fst user)
                      newArticles)
                   (ret tt))
          else ret tt) ;;;
         onStorage (markArticlesAsSeen mkdirSync writeFileSync
                      newArticles seenIds) ;;;
         ret tt
     else ret tt)
    (ret tt).




End Checks.
End Index.

(** ** Definitions used to state the properties *)

Module Examples.




End Examples.

(** The change detector in the words of the specification: the entries of
    [current] whose id is not in [seen], in the order of [current]. *)
Fixpoint newEntries (current : list Scraper.Article) (seen : gset string)
    : list Scraper.Article :=
  match current with
  | [] => []
  | a :: rest =>
      if decide (Scraper.id a ∈ seen) then newEntries rest seen
      else a :: newEntries rest seen
  end.


(** [a] may stand directly before [b] in a listing sorted by descending
    numeric id: the comparator does not put [b] first. *)
Definition descending (a b : Scraper.Article) : Prop :=
  Scraper.compareFn a b <> Gt.


(** The entry that an anchor stands for: its target matches the detail
    pattern and its trimmed text is not empty. *)
Definition candidate (element : Dom.Anchor) : option Scraper.Article :=
  let href := default EmptyString (Dom.a_href element) in
  let text := Js.trim (Dom.a_text element) in
  match Regex.exec Scraper.detailRe href with
  | Some m =>
      if Js.truthy text then
        Some {| Scraper.id := Regex.group 1 m;
                Scraper.title := text;
                Scraper.url :=
                  if Js.startsWith href "http" then href
                  else "https://www.aktuaris.or.id" ++ href |}
      else None
  | None => None
  end.

(** In the words of the specification: the entries in their order, without
    those whose id is in [seen] or occurred before (first occurrence
    wins). *)
Fixpoint keepFirst (seen : list string) (l : list Scraper.Article)
    : list Scraper.Article :=
  match l with
  | [] => []
  | a :: rest =>
      if existsb (fun k => String.eqb k (Scraper.id a)) seen
      then keepFirst seen rest
      else a :: keepFirst (seen ++ [Scraper.id a]) rest
  end.

(** The keys of the map are the ids of its values. *)
Definition keyed (m : JsMap.t Scraper.Article) : Prop :=
  map fst m = map Scraper.id (JsMap.values m).

(** One turn of the loop of [scrapeArticles]: the page at [offset] is
    requested; its entries are added when it arrives, nothing is added when
    the request fails. *)
Definition addPage (cheerio_load : string -> Dom.Document)
    (page : nat -> string -> option string)
    (acc : JsMap.t Scraper.Article * Scraper.State) (offset : Z)
    : JsMap.t Scraper.Article * Scraper.State :=
  let '(allArticles, st) := acc in
  let '(r, st') := Scraper.fetchNewsPage page offset st in
  (match r with
   | Some html =>
       fold_left Scraper.addArticle
         (Scraper.parseArticles cheerio_load html) allArticles
   | None => allArticles
   end, st').

(** What the pages at the offsets [offs] contribute, when the first of
    them is the request numbered [n]: the parsed entries of a page that
    arrives, nothing for a page whose request fails. *)
Fixpoint pageEntries (cheerio_load : string -> Dom.Document)
    (page : nat -> string -> option string) (n : nat) (offs : list Z)
    : list (list Scraper.Article) :=
  match offs with
  | [] => []
  | o :: rest =>
      match page n (Scraper.pageUrl o) with
      | Some html => Scraper.parseArticles cheerio_load html
      | None => []
      end :: pageEntries cheerio_load page (S n) rest
  end.

(** The offsets 0, 5, 10, ..., 260. *)
Definition offsets : list Z :=
  map (fun k => Scraper.PAGE_STEP * Z.of_nat k) (seq 0 53).



(** What [login] makes of the reply of the server. *)
Definition sessionOfReply (now : Z) (r : ExamMonitor.Reply)
    : option ExamMonitor.Session :=
  match r with
  | ExamMonitor.Resolved response =>
      ExamMonitor.extractSessionFromResponse now response
  | ExamMonitor.Rejected (Some response) =>
      ExamMonitor.extractSessionFromResponse now response
  | ExamMonitor.Rejected None => None
  end.

(** The state when the clock shows [t]. *)
Definition atTime (t : Z) (st : ExamMonitor.State) : ExamMonitor.State :=
  {| ExamMonitor.userSessions := ExamMonitor.userSessions st;
     ExamMonitor.clock := t;
     ExamMonitor.sent := ExamMonitor.sent st |}.

(** What [fetchExamPage] makes of the reply of the server. *)
Definition pageOfReply (r : ExamMonitor.Reply) : option string :=
  match r with
  | ExamMonitor.Resolved response =>
      match ExamMonitor.responseUrl response with
      | Some u =>
          if Js.truthy u && Js.includes u "/page/login" then None
          else Some (ExamMonitor.data response)
      | None => Some (ExamMonitor.data response)
      end
  | ExamMonitor.Rejected _ => None
  end.

(** The final URL of the reply is the login page. *)
Definition redirectsToLogin (r : ExamMonitor.Reply) : bool :=
  match r with
  | ExamMonitor.Resolved response =>
      match ExamMonitor.responseUrl response with
      | Some u => Js.includes u "/page/login"
      | None => false
      end
  | ExamMonitor.Rejected _ => false
  end.

Definition isGetExam (q : ExamMonitor.Request) : bool :=
  match q with ExamMonitor.GetExam _ => true | _ => false end.

(** Number of fetches of the exam page issued so far. *)
Definition pageFetches (st : ExamMonitor.State) : nat :=
  length (List.filter isGetExam (ExamMonitor.sent st)).

Module Worlds.
Import ExamMonitor.

Definition emptyDocument : Dom.Document :=
  {| Dom.doc_anchors := []; Dom.doc_table := None |}.

(** No session stored, nothing requested yet. *)
Definition state0 : State :=
  {| userSessions := ∅; clock := 1700000000000; sent := [] |}.

(** The page the server sends to a client without a session: the login page,
    reached by a redirect, with no session cookie. *)
Definition loginPage : Response :=
  {| set_cookie := None;
     responseUrl := Some "https://www.aktuaris.or.id/page/login";
     data := "<html>login</html>" |}.

(** The server grants every login with the same cookie. *)
Definition granted : Response :=
  {| set_cookie := Some ["ci_session=abc123; path=/; HttpOnly"];
     responseUrl := None;
     data := EmptyString |}.

(** A network on which every request fails without a response. *)
Definition netDown : Net :=
  {| reply := fun _ _ => Rejected None; elapsed := fun _ => 30000 |}.

(** A server that refuses the credentials and redirects every page to the
    login page. *)
Definition netDenied : Net :=
  {| reply := fun _ _ => Resolved loginPage; elapsed := fun _ => 120 |}.

(** A server that grants every login and still redirects the exam page to
    the login page. *)
Definition netRedirecting : Net :=
  {| reply := fun _ q =>
       match q with
       | PostLogin _ _ => Resolved granted
       | _ => Resolved loginPage
       end;
     elapsed := fun _ => 120 |}.

(** A state in which user 42 has a session that is still valid. *)
Definition stateCached : State :=
  {| userSessions :=
       {[ "42" := {| cookie := "old999";
                     expiry := 1700000000000 + 3600 * 1000 |} ]};
     clock := 1700000000000; sent := [] |}.

(** Rows of an exam table: the header written with [td] cells, a row of
    five cells, and the row of an exam with three links in its last cell. *)
Definition plainCell (text : string) : Dom.Cell :=
  {| Dom.td_text := text; Dom.td_links := [] |}.

Definition headerRow : Dom.Row :=
  map plainCell ["KODE"; "PERIODE"; "KOTA"; "HASIL UJIAN"; "STATUS"; "AKSI"].

Definition shortRow : Dom.Row :=
  map plainCell ["A60"; "Periode II 2025"; "Jakarta"; "-"; "Lulus"].

Definition examRow : Dom.Row :=
  (map plainCell
     [" A70 "; "Periode III 2025"; "Jakarta"; "Lihat"; "Terdaftar"]
   ++ [ {| Dom.td_text := "Detail Cetak Kartu Ujian Bayar";
          Dom.td_links :=
            [ {| Dom.a_href := Some "/exam/detail/7";
                 Dom.a_text := " Detail " |};
              {| Dom.a_href := Some "/exam/card/7";
                 Dom.a_text := "Cetak Kartu Ujian" |};
              {| Dom.a_href := Some "/exam/pay/7";
                 Dom.a_text := "Bayar" |} ] |} ])%list.

(** The parser on three pages: the whole table, the table without its
    header row, and the table without its short row. *)
Definition loadExamPage (html : string) : Dom.Document :=
  {| Dom.doc_anchors := [];
     Dom.doc_table :=
       if String.eqb html "exam" then Some [headerRow; shortRow; examRow]
       else if String.eqb html "body" then Some [shortRow; examRow]
       else if String.eqb html "long" then Some [headerRow; examRow]
       else None |}.

(** Two listing pages.  "news": three entries, one of them twice, one
    anchor without text and one link that is no detail link.  "zeros": the
    ids 7 and 07. *)
Definition anchor (href text : string) : Dom.Anchor :=
  {| Dom.a_href := Some href; Dom.a_text := text |}.

Definition loadListing (html : string) : Dom.Document :=
  {| Dom.doc_anchors :=
       if String.eqb html "news" then
         [ anchor "/page/news_detail/9/ujian" " Jadwal Ujian ";
           anchor "/page/news_detail/12/seminar" "Seminar";
           anchor "/page/news" "Berita";
           anchor "/page/news_detail/9/ujian" "Selengkapnya";
           anchor "/page/news_detail/15/kosong" "  ";
           anchor "https://www.aktuaris.or.id/page/news_detail/7/iuran"
                  "Iuran" ]
       else if String.eqb html "zeros" then
         [ anchor "/page/news_detail/7/a" "A";
           anchor "/page/news_detail/07/b" "B" ]
       else [];
     Dom.doc_table := None |}.


End Worlds.

(** What a run of the session code may add to the requests: authentication
    attempts with the given credentials and fetches of the exam page with a
    cookie that is not empty. *)
Definition allowedRequest (email password : string)
    (q : ExamMonitor.Request) : Prop :=
  match q with
  | ExamMonitor.PostLogin e p => e = email /\ p = password
  | ExamMonitor.GetExam c => Js.truthy c = true
  | ExamMonitor.GetPdf _ _ => False
  end.

Definition issues {A} (userId email password : string) (nl np : nat)
    (c : ExamMonitor.M A) : Prop :=
  forall st, exists l,
    ExamMonitor.sent (snd (c st)) = (ExamMonitor.sent st ++ l)%list /\
    Forall (allowedRequest email password) l /\
    (length (List.filter ExamMonitor.isLogin l) <= nl)%nat /\
    (length (List.filter isGetExam l) <= np)%nat /\
    (length l <= nl + np)%nat /\
    forall u, u <> userId ->
      ExamMonitor.userSessions (snd (c st)) !! u =
      ExamMonitor.userSessions st !! u.

(** A page [fetchExamListForUser] goes on with: the body of a reply that
    is no redirect to the login page, when it is not empty. *)
Definition usablePage (r : ExamMonitor.Reply) : option string :=
  match pageOfReply r with
  | Some html => if Js.truthy html then Some html else None
  | None => None
  end.

Definition notSemicolon (c : ascii) : bool := negb (Ascii.eqb c ";"%char).

(** Two more servers.  Both grant every login with the same cookie.  The
    first one answers the request for the exam page with an empty body,
    the second one with the page "exam". *)
Module Servers.
Import ExamMonitor Worlds.

Definition emptyPage : Response :=
  {| set_cookie := None; responseUrl := Some EXAM_URL; data := EmptyString |}.

Definition examPage : Response :=
  {| set_cookie := None; responseUrl := Some EXAM_URL; data := "exam" |}.

Definition netEmptyBody : Net :=
  {| reply := fun _ q =>
       match q with
       | PostLogin _ _ => Resolved granted
       | GetExam _ => Resolved emptyPage
       | GetPdf _ _ => Resolved loginPage
       end;
     elapsed := fun _ => 120 |}.

Definition netServing : Net :=
  {| reply := fun _ q =>
       match q with
       | PostLogin _ _ => Resolved granted
       | GetExam _ => Resolved examPage
       | GetPdf _ _ => Resolved loginPage
       end;
     elapsed := fun _ => 120 |}.

End Servers.

(** Data directories and their surroundings. *)
Module Disks.
Import Storage.Disk.



(** The directory does not exist yet. *)
Definition noDisk : State :=
  {| dataDir := None; clock := 1700000000000; writes := 0 |}.

(** Every write succeeds. *)
Definition written (n : nat) : Written := WriteOk.

(** A stand-in for [toISOString]: the numeral of the instant. *)
Definition stamp (t : Z) : string := Js.of_int t.

(** User 7 is allowed; user 42 has asked for access; user 7 is reminded
    every 30 minutes and user 5000000000 has switched reminders off; the
    articles 9 and 7 were seen. *)
Definition disk1 : State :=
  {| dataDir :=
       Some {| SEEN_ARTICLES_FILE := Holds ["9"; "7"];
               ALLOWED_USERS_FILE := Holds ["7"];
               ACCESS_REQUESTS_FILE :=
                 Holds [ {| userId := "42"; username := Some "budi";
                            name := "Budi"; requestedAt := "1690000000000" |} ];
               USER_PREFS_FILE :=
                 Holds [ ("7", [ ("reminderInterval", VNum 30);
                                 ("reminderEnabled", VBool true) ]);
                         ("5000000000",
                          [ ("reminderInterval", VNum 60);
                            ("reminderEnabled", VBool false) ]) ] |};
     clock := 1700000000000; writes := 0 |}.

End Disks.

(** Unfolds a run of the functions of the storage module down to the
    operations on sets, lists and objects. *)
Ltac storage_step :=
  cbv [Storage.Disk.isUserAllowed Storage.Disk.addAllowedUser
       Storage.Disk.removeAllowedUser Storage.Disk.loadAllowedUsers
       Storage.Disk.saveAllowedUsers Storage.Disk.loadSeenArticles
       Storage.Disk.saveSeenArticles Storage.Disk.markArticlesAsSeen
       Storage.Disk.loadAccessRequests Storage.Disk.saveAccessRequests
       Storage.Disk.addAccessRequest Storage.Disk.removeAccessRequest
       Storage.Disk.getAccessRequests Storage.Disk.loadUserPreferences
       Storage.Disk.saveUserPreferences Storage.Disk.getUserPreference
       Storage.Disk.setUserPreference Storage.Disk.getAllUsersWithReminders
       Storage.Disk.ensureDataDir Storage.Disk.readJson
       Storage.Disk.writeJson Control.bind Control.ret Control.gets
       Storage.Disk.seen_articles_json Storage.Disk.allowed_users_json
       Storage.Disk.access_requests_json
       Storage.Disk.user_preferences_json];
  cbn [fst snd Storage.Disk.dataDir Storage.Disk.clock Storage.Disk.writes
       Storage.Disk.file Storage.Disk.with_file
       Storage.Disk.SEEN_ARTICLES_FILE Storage.Disk.ALLOWED_USERS_FILE
       Storage.Disk.ACCESS_REQUESTS_FILE Storage.Disk.USER_PREFS_FILE].

Ltac storage_run := storage_step; repeat (progress storage_step).

Ltac storage_cases st :=
  let d := fresh "d" in let c := fresh "c" in let w := fresh "w" in
  destruct st as [d c w];
  let fs := fresh "fs" in
  destruct d as [fs|].


(** What the loaders make of a file: the list of a document, the empty
    list for a file that is missing or cannot be read. *)
Definition listOf {A} (f : Storage.Disk.File (list A)) : list A :=
  match f with
  | Storage.Disk.Holds l => l
  | _ => []
  end.

(** Unfolds the calls of a handler down to the storage functions. *)
Ltac bot_simpl :=
  cbv [Control.bind Control.ret Control.gets Control.try_catch
       Telegram.onStorage Telegram.call Telegram.await];
  cbn [fst snd Telegram.storage Telegram.site Telegram.outbox
       Telegram.chat_id Telegram.from_id Telegram.from_username
       Telegram.from_first_name Telegram.from_last_name
       Telegram.msg_text Telegram.message_id
       Storage.Disk.file Storage.Disk.with_file
       Storage.Disk.seen_articles_json Storage.Disk.allowed_users_json
       Storage.Disk.access_requests_json Storage.Disk.user_preferences_json
       Storage.Disk.SEEN_ARTICLES_FILE Storage.Disk.ALLOWED_USERS_FILE
       Storage.Disk.ACCESS_REQUESTS_FILE Storage.Disk.USER_PREFS_FILE
       Storage.Disk.dataDir Storage.Disk.clock Storage.Disk.writes
       listOf].

(** Worlds and messages. *)
Module Chats.
Import Telegram.

(** The world of [disk1]: nothing requested from the site, no call of the
    bot yet. *)
Definition world1 : World :=
  {| storage := Disks.disk1;
     site := {| Scraper.requested := [] |};
     outbox := [] |}.

(** A message of a user in the private chat with the bot; the user has no
    user name and no last name. *)
Definition message (userId first_name text : string) : Message :=
  {| chat_id := userId; from_id := userId; from_username := None;
     from_first_name := Some first_name; from_last_name := None;
     msg_text := Some text; message_id := "1" |}.


(** A site that answers every request with the page "news". *)
Definition newsPage (n : nat) (url : string) : option string := Some "news".

(** Every call of the bot succeeds; no call does. *)
Definition reached (n : nat) : bool := true.
Definition blocked (n : nat) : bool := false.

End Chats.

(** The calls of the bot by which a check announces the articles [new] to
    the users [users]: none when there is no new article, one message for
    each user otherwise, in the order of the users. *)
Definition announced (new : list Scraper.Article)
    (users : list (string * Storage.Disk.Value)) : list Telegram.Call :=
  match new with
  | [] => []
  | _ :: _ =>
      map (fun user =>
             Telegram.SendMessage (fst user) (Telegram.notification new)
               Telegram.MarkdownNoPreview)
          users
  end.

(** The users with reminders, as [getAllUsersWithReminders] reads them
    from the preferences [prefs]. *)
Definition reminded (prefs : JsObject.t (JsObject.t Storage.Disk.Value))
    : list (string * Storage.Disk.Value) :=
  omap (fun entry : string * list (string * Storage.Disk.Value) =>
          if Storage.Disk.truthy (JsObject.get (snd entry) "reminderEnabled")
             && Storage.Disk.truthy
                  (JsObject.get (snd entry) "reminderInterval")
          then Some (fst entry,
                     default Storage.Disk.VNull
                       (JsObject.get (snd entry) "reminderInterval"))
          else None)
       prefs.


(** The preference [key] of the user [userId] in the preferences [prefs];
    [None] when it is not set. *)
Definition pref (prefs : JsObject.t (JsObject.t Storage.Disk.Value))
    (userId key : string) : option Storage.Disk.Value :=
  JsObject.get (default [] (JsObject.get prefs userId)) key.

(** The preferences after [setUserPreference] at an instant with the ISO
    string [stamp]. *)
Definition assigned (stamp : string)
    (prefs : JsObject.t (JsObject.t Storage.Disk.Value))
    (userId key : string) (value : Storage.Disk.Value)
    : JsObject.t (JsObject.t Storage.Disk.Value) :=
  let prefs1 :=
    match JsObject.get prefs userId with
    | Some _ => prefs
    | None => JsObject.set prefs userId []
    end in
  JsObject.set prefs1 userId
    (JsObject.set
       (JsObject.set (default [] (JsObject.get prefs1 userId)) key value)
       "lastUpdated" (Storage.Disk.VStr stamp)).

(** Simplifies the run of a handler between two storage calls, and the
    comparisons of the keys of the preferences. *)
Ltac flow_simpl :=
  repeat (progress
    (bot_simpl;
     cbn [negb andb orb Telegram.given Telegram.trimmed Telegram.orEmpty
          default from_option Datatypes.id]));
  cbv beta iota.

Ltac flow_keys :=
  cbn [String.eqb Ascii.eqb Bool.eqb andb orb negb
       default from_option Datatypes.id
       Storage.Disk.truthy Telegram.isString Js.truthy Js.is_empty].

Ltac flow := flow_simpl; flow_keys; repeat (progress (flow_simpl; flow_keys)).

(** Closes the side goals of a run of [fetchExamListForUser]: counts of
    requests and results that are [null]. *)
Ltac retry_done :=
  repeat first [split | intro]; first [discriminate | lia | reflexivity].

(** * Properties *)

Import Js Regex Examples.

(** ** Strings and patterns *)


Lemma snoc_app (acc : string) (c : ascii) (a : string) :
  snoc acc c ++ a = acc ++ String c a.
Proof.
  unfold snoc. induction acc as [|x acc IH]; simpl; [reflexivity|].
  now rewrite IH.
Qed.

Lemma app_empty_r (s : string) : s ++ EmptyString = s.
Proof. induction s as [|c s IH]; simpl; [reflexivity | now rewrite IH]. Qed.


Lemma span_app (p : ascii -> bool) (v rest : string) :
  every p v = true ->
  match rest with String c _ => p c = false | EmptyString => True end ->
  span p (v ++ rest) = (v, rest).
Proof.
  intros Hv Hr. induction v as [|c v IH]; simpl in *.
  - destruct rest as [|c r]; [reflexivity|]. simpl. now rewrite Hr.
  - apply andb_prop in Hv as [Hc Hv]. rewrite Hc, (IH Hv). reflexivity.
Qed.




(** ** Session cookies *)

Import ExamMonitor Worlds.




Lemma login_result (net : Net) (email password : string) (st : State) :
  login net email password st =
  let n := length (sent st) in
  let st' := {| userSessions := userSessions st;
                clock := clock st + elapsed net n;
                sent := sent st ++ [PostLogin email password] |} in
  (sessionOfReply (clock st') (reply net n (PostLogin email password)), st').
Proof.
  unfold login, bind, axios, gets, ret. cbn.
  destruct (reply net (length (sent st)) (PostLogin email password))
    as [response|[response|]]; cbn; try reflexivity.
  now destruct (extractSessionFromResponse _ response).
Qed.



(** ** Result documents *)










(** ** Sessions *)

Lemma scanCookies_expiry (now : Z) (cookies : list string) (s : Session) :
  scanCookies now cookies = Some s -> expiry s = now + 36000 * 1000.
Proof.
  induction cookies as [|c cookies IH]; cbn [scanCookies]; [discriminate|].
  destruct (startsWith c "ci_session="); [|exact IH].
  destruct (exec cookieRe c); [|exact IH].
  now intros [= <-].
Qed.

Lemma sessionOfReply_expiry (now : Z) (r : Reply) (s : Session) :
  sessionOfReply now r = Some s -> expiry s = now + 36000 * 1000.
Proof.
  destruct r as [response|[response|]]; cbn; try discriminate;
    unfold extractSessionFromResponse;
    (destruct (set_cookie response); [apply scanCookies_expiry|discriminate]).
Qed.

Lemma getSession_result (net : Net) (userId email password : string)
    (st : State) :
  getSession net userId email password st =
  if isSessionValid userId st then
    (cookie <$> userSessions st !! userId, st)
  else
    let '(session, st') := login net email password st in
    match session with
    | Some s => (Some (cookie s), snd (setSession userId s st'))
    | None => (None, st')
    end.
Proof.
  unfold getSession, bind, gets, ret. cbv beta iota zeta.
  destruct (isSessionValid userId st); [reflexivity|].
  destruct (login net email password st) as [[s|] st']; reflexivity.
Qed.

(** C2. A session is valid exactly when one is stored for the identity and
    the current time is strictly before its expiry minus 5 minutes
    (300000 ms).  A session stored with expiry [now + 36000 s] is valid at
    once and, at any later time [t], valid exactly when
    [t < expiry - 300 s]; the session that [getSession] stores after a
    login has this expiry; an absent or cleared session is invalid. *)
Theorem isSessionValid_five_minute_margin (userId : string) (st : State) :
  (isSessionValid userId st = true <->
   exists session, userSessions st !! userId = Some session /\
                   clock st < expiry session - 300 * 1000) /\
  (forall (c : string),
      let st1 :=
        snd (setSession userId
               {| cookie := c; expiry := clock st + 36000 * 1000 |} st) in
      isSessionValid userId st1 = true /\
      forall t : Z,
        isSessionValid userId (atTime t st1) = true <->
        t < (clock st + 36000 * 1000) - 300 * 1000) /\
  (forall (net : Net) (email password c : string),
      isSessionValid userId st = false ->
      fst (getSession net userId email password st) = Some c ->
      let st1 := snd (getSession net userId email password st) in
      isSessionValid userId st1 = true /\
      forall t : Z,
        isSessionValid userId (atTime t st1) = true <->
        t < (clock st1 + 36000 * 1000) - 300 * 1000) /\
  (userSessions st !! userId = None -> isSessionValid userId st = false) /\
  isSessionValid userId (snd (clearSession userId st)) = false.
Proof.
  split; [|split; [|split; [|split]]].
  - unfold isSessionValid.
    destruct (userSessions st !! userId) as [s|]; split.
    + intros H. exists s. split; [reflexivity|]. apply Z.ltb_lt in H. lia.
    + intros (s' & [= <-] & H). apply Z.ltb_lt. lia.
    + discriminate.
    + now intros (s' & [=] & _).
  - intros c. cbv zeta. unfold isSessionValid, setSession, atTime. cbn.
    rewrite lookup_insert_eq. cbn. split.
    + apply Z.ltb_lt. lia.
    + intros t. rewrite Z.ltb_lt. lia.
  - intros net email password c Hinv. rewrite getSession_result, Hinv.
    rewrite login_result. cbv zeta.
    destruct (sessionOfReply _ _) as [s|] eqn:Hs; cbn; [|discriminate].
    intros _. apply sessionOfReply_expiry in Hs. cbn in Hs.
    unfold isSessionValid, atTime. cbn. rewrite lookup_insert_eq, Hs. split.
    + apply Z.ltb_lt. lia.
    + intros t. rewrite Z.ltb_lt. lia.
  - unfold isSessionValid. now intros ->.
  - unfold isSessionValid, clearSession. cbn. now rewrite lookup_delete_eq.
Qed.

(** ** Failures of the network *)

Lemma fetchExamPage_result (net : Net) (c : string) (st : State) :
  fetchExamPage net c st =
  let n := length (sent st) in
  (pageOfReply (reply net n (GetExam c)),
   {| userSessions := userSessions st;
      clock := clock st + elapsed net n;
      sent := sent st ++ [GetExam c] |}).
Proof.
  unfold fetchExamPage, bind, axios, ret, pageOfReply. cbv beta iota zeta.
  destruct (reply net (length (sent st)) (GetExam c)) as [response|e];
    [|reflexivity].
  destruct (responseUrl response) as [u|]; [|reflexivity].
  now destruct (truthy u && includes u "/page/login").
Qed.

(** C6 (amended).  A transport error during the login exchange makes
    [login] return [null], the value it returns when the server sends no
    session cookie; a transport error during the fetch of the exam page
    makes [fetchExamPage] return [null], the value it returns when the
    session has expired.  The caller receives the same value in both
    cases. *)
Theorem transport_error_reported_as_null
    (net net' : Net) (st st' : State) (email password c : string)
    (response : Response) (u : string) :
  reply net (length (sent st)) (PostLogin email password) = Rejected None ->
  reply net (length (sent st)) (GetExam c) = Rejected None ->
  reply net' (length (sent st')) (PostLogin email password) =
    Resolved response ->
  set_cookie response = None ->
  reply net' (length (sent st')) (GetExam c) = Resolved response ->
  responseUrl response = Some u ->
  includes u "/page/login" = true ->
  fst (login net email password st) = None /\
  fst (login net email password st) = fst (login net' email password st') /\
  fst (fetchExamPage net c st) = None /\
  fst (fetchExamPage net c st) = fst (fetchExamPage net' c st').
Proof.
  intros Hl Hp Hl' Hc Hp' Hu Hi.
  rewrite !login_result, !fetchExamPage_result. cbn.
  rewrite Hl, Hp, Hl', Hp'. cbn.
  unfold extractSessionFromResponse. rewrite Hc, Hu, Hi.
  destruct u; [discriminate|]. auto.
Qed.

Lemma transport_error_reported_as_null_witness :
  fst (login netDown "a@b.id" "secret" state0) = None /\
  fst (login netDown "a@b.id" "secret" state0) =
    fst (login netDenied "a@b.id" "secret" state0) /\
  fst (fetchExamPage netDown "abc" state0) = None /\
  fst (fetchExamPage netDown "abc" state0) =
    fst (fetchExamPage netDenied "abc" state0).
Proof.
  apply (transport_error_reported_as_null netDown netDenied state0 state0
           "a@b.id" "secret" "abc" loginPage
           "https://www.aktuaris.or.id/page/login"); reflexivity.
Defined.

(** C6, as stated: on a transport error and on a refused login the caller
    of [login] receives the same value, [null]; on a transport error and on
    an expired session the caller of [fetchExamPage] receives the same
    value, [null]. *)
Lemma transport_error_not_distinct :
  fst (login netDown "a@b.id" "secret" state0) = None /\
  fst (login netDenied "a@b.id" "secret" state0) = None /\
  fst (fetchExamPage netDown "abc" state0) = None /\
  fst (fetchExamPage netDenied "abc" state0) = None.
Proof. repeat split. Qed.

(** ** The retry of [fetchExamListForUser] *)

Lemma many_acc {R} (p : ascii -> bool) (k : string -> string -> option R)
    (s acc : string) (r : R) :
  many p s acc k = Some r -> exists a rest, k (acc ++ a) rest = Some r.
Proof.
  revert acc. induction s as [|c s IH]; intros acc; simpl.
  - intros H. exists EmptyString, EmptyString. now rewrite app_empty_r.
  - destruct (p c).
    + destruct (many p s (snoc acc c) k) as [r'|] eqn:Hm.
      * intros [= <-]. apply IH in Hm as (a & rest & Hk).
        rewrite snoc_app in Hk. eauto.
      * intros H. exists EmptyString, (String c s). now rewrite app_empty_r.
    + intros H. exists EmptyString, (String c s). now rewrite app_empty_r.
Qed.

Lemma itemsM_lit_inv {R} (l : string) (r : list item) (s : string)
    (caps : list string) (k : list string -> string -> option R) (x : R) :
  itemsM (lit l ++ r) s caps k = Some x ->
  exists t, s = l ++ t /\ itemsM r t caps k = Some x.
Proof.
  revert s. induction l as [|c l IH]; intros s; simpl.
  - intros H. now exists s.
  - destruct s as [|c' s]; [discriminate|].
    destruct (Ascii.eqb c c') eqn:Hc; [|discriminate].
    apply Ascii.eqb_eq in Hc as <-.
    intros H. apply IH in H as (t & -> & H). now exists t.
Qed.

Lemma exec_inv (r : list item) (s : string) (m : list string) :
  exec r s = Some m -> exists pre t, s = pre ++ t /\ matchAt r t = Some m.
Proof.
  induction s as [|c s IH]; simpl.
  - destruct (matchAt r EmptyString) eqn:H; [|discriminate].
    intros [= <-]. now exists EmptyString, EmptyString.
  - destruct (matchAt r (String c s)) eqn:H.
    + intros [= <-]. now exists EmptyString, (String c s).
    + intros H'. apply IH in H' as (pre & t & -> & H').
      now exists (String c pre), t.
Qed.

(** The cookie of a session that the extraction returns is not empty. *)
Lemma cookieRe_nonempty (c : string) (m : list string) :
  exec cookieRe c = Some m -> truthy (group 1 m) = true.
Proof.
  intros H. apply exec_inv in H as (pre & t & _ & H).
  unfold matchAt, cookieRe in H.
  apply itemsM_lit_inv in H as (t' & _ & H). simpl in H.
  destruct t' as [|x t']; [discriminate|].
  destruct (negb (Ascii.eqb x ";"%char)); [|discriminate].
  apply many_acc in H as (a & rest & [= <-]).
  reflexivity.
Qed.

Lemma scanCookies_truthy (now : Z) (cookies : list string) (s : Session) :
  scanCookies now cookies = Some s -> truthy (cookie s) = true.
Proof.
  induction cookies as [|c cookies IH]; cbn [scanCookies]; [discriminate|].
  destruct (startsWith c "ci_session="); [|exact IH].
  destruct (exec cookieRe c) as [m|] eqn:Hm; [|exact IH].
  intros [= <-]. cbn. now apply cookieRe_nonempty in Hm.
Qed.

Lemma sessionOfReply_truthy (now : Z) (r : Reply) (s : Session) :
  sessionOfReply now r = Some s -> truthy (cookie s) = true.
Proof.
  destruct r as [response|[response|]]; cbn; try discriminate;
    unfold extractSessionFromResponse;
    (destruct (set_cookie response); [apply scanCookies_truthy|discriminate]).
Qed.

Lemma isSessionValid_deleted (userId : string) (m : gmap string Session)
    (t : Z) (l : list Request) :
  isSessionValid userId
    {| userSessions := delete userId m; clock := t; sent := l |} = false.
Proof. unfold isSessionValid. cbn. now rewrite lookup_delete_eq. Qed.

Lemma redirect_is_null (r : Reply) :
  redirectsToLogin r = true -> pageOfReply r = None.
Proof.
  destruct r as [response|e]; cbn; [|reflexivity].
  destruct (responseUrl response) as [u|]; [|discriminate].
  intros H. destruct u as [|a u]; [cbn in H; discriminate|].
  rewrite H. reflexivity.
Qed.

(** C1 (amended).  When every fetch of the exam page ends on the login
    page, [fetchExamListForUser] returns [null] after at most two
    authentication attempts and at most two page fetches: the operation
    re-authenticates once and never a second time.  There are exactly two
    attempts when no valid session was stored and the first login gave a
    session; there is at most one when a valid session was stored (the
    first attempt is then the retry), and exactly one, with no page fetch,
    when the first login gives no session. *)
Theorem fetchExamList_retries_once (net : Net)
    (cheerio_load : string -> Dom.Document)
    (userId email password : string) (st : State) :
  (forall n c, redirectsToLogin (reply net n (GetExam c)) = true) ->
  let out := fetchExamListForUser net cheerio_load userId email password st in
  fst out = None /\
  (logins (snd out) <= logins st + 2)%nat /\
  (pageFetches (snd out) <= pageFetches st + 2)%nat /\
  (isSessionValid userId st = true ->
   (logins (snd out) <= logins st + 1)%nat) /\
  (isSessionValid userId st = false ->
   match fst (login net email password st) with
   | Some _ =>
       logins (snd out) = (logins st + 2)%nat /\
       (pageFetches st + 1 <= pageFetches (snd out))%nat
   | None =>
       logins (snd out) = (logins st + 1)%nat /\
       pageFetches (snd out) = pageFetches st
   end).
Proof.
  intros Hred out. subst out.
  remember (fetchExamListForUser net cheerio_load userId email password st)
    as out eqn:Hout.
  unfold fetchExamListForUser, bind in Hout.
  rewrite getSession_result in Hout.
  destruct (isSessionValid userId st) eqn:Hv.
  - (* a valid session is stored *)
    destruct (userSessions st !! userId) as [s0|] eqn:Hs0;
      cbn [fmap option_fmap option_map falsy] in Hout.
    + destruct (truthy (cookie s0)) eqn:Ht; cbn [negb] in Hout.
      * rewrite fetchExamPage_result in Hout. cbv zeta in Hout.
        rewrite redirect_is_null in Hout by apply Hred.
        cbn [falsy] in Hout.
        unfold clearSession in Hout. cbv beta iota in Hout.
        rewrite getSession_result in Hout.
        cbn [userSessions clock sent] in Hout.
        rewrite isSessionValid_deleted, login_result in Hout.
        cbv zeta in Hout. cbn [userSessions clock sent] in Hout.
        destruct (sessionOfReply _ _) as [s1|] eqn:Hs1.
        -- apply sessionOfReply_truthy in Hs1.
           unfold setSession, ret in Hout. cbn [fst snd falsy] in Hout.
           rewrite Hs1 in Hout. cbn [negb] in Hout.
           rewrite fetchExamPage_result in Hout. cbv zeta in Hout.
           rewrite redirect_is_null in Hout by apply Hred.
           cbn [falsy] in Hout. subst out.
           unfold logins, pageFetches. cbn [fst snd sent].
           rewrite !List.filter_app, !length_app. cbn.
           retry_done.
        -- unfold ret in Hout. cbn [falsy] in Hout. subst out.
           unfold logins, pageFetches. cbn [fst snd sent].
           rewrite !List.filter_app, !length_app. cbn.
           retry_done.
      * unfold ret in Hout. subst out. cbn [fst snd].
        retry_done.
    + unfold ret in Hout. subst out. cbn [fst snd].
      retry_done.
  - (* no valid session: the first login *)
    rewrite login_result in *. cbv zeta in *.
    destruct (sessionOfReply _ _) as [s0|] eqn:Hs0.
    + pose proof (sessionOfReply_truthy _ _ _ Hs0) as Ht0.
      unfold setSession in Hout.
      cbn [fst snd falsy userSessions clock sent] in Hout.
      rewrite Ht0 in Hout. cbn [negb default] in Hout.
      rewrite fetchExamPage_result in Hout. cbv zeta in Hout.
      rewrite redirect_is_null in Hout by apply Hred.
      cbn [falsy] in Hout.
      unfold clearSession in Hout. cbv beta iota in Hout.
      rewrite getSession_result in Hout.
      cbn [userSessions clock sent] in Hout.
      rewrite isSessionValid_deleted, login_result in Hout.
      cbv zeta in Hout. cbn [userSessions clock sent] in Hout.
      clear Hs0.
      destruct (sessionOfReply _ _) as [s1|] eqn:Hs1.
      * apply sessionOfReply_truthy in Hs1.
        unfold setSession, ret in Hout. cbn [fst snd falsy] in Hout.
        rewrite Hs1 in Hout. cbn [negb] in Hout.
        rewrite fetchExamPage_result in Hout. cbv zeta in Hout.
        rewrite redirect_is_null in Hout by apply Hred.
        cbn [falsy] in Hout. subst out.
        unfold logins, pageFetches. cbn [fst snd sent].
        rewrite !List.filter_app, !length_app. cbn.
        retry_done.
      * unfold ret in Hout. cbn [falsy] in Hout. subst out.
        unfold logins, pageFetches. cbn [fst snd sent].
        rewrite !List.filter_app, !length_app. cbn.
        retry_done.
    + unfold ret in Hout. cbn [falsy] in Hout. subst out.
      unfold logins, pageFetches. cbn [fst snd sent].
      rewrite !List.filter_app, !length_app. cbn.
      retry_done.
Qed.

Lemma fetchExamList_retries_once_witness :
  (forall n c, redirectsToLogin (reply netRedirecting n (GetExam c)) = true) /\
  fst (fetchExamListForUser netRedirecting (fun _ => emptyDocument)
         "42" "a@b.id" "secret" state0) = None /\
  logins (snd (fetchExamListForUser netRedirecting (fun _ => emptyDocument)
                 "42" "a@b.id" "secret" state0)) = 2%nat.
Proof.
  assert (H : forall n c,
             redirectsToLogin (reply netRedirecting n (GetExam c)) = true)
    by reflexivity.
  pose proof (fetchExamList_retries_once netRedirecting
                (fun _ => emptyDocument) "42" "a@b.id" "secret" state0 H)
    as (Hnull & _ & _ & _ & Htwo).
  split; [exact H|]. split; [exact Hnull|].
  exact (proj1 (Htwo eq_refl)).
Defined.

(** C1, as stated: every page fetch ends on the login page, a valid session
    is stored when the operation starts, and there is one authentication
    attempt in total, not two. *)
Lemma fetchExamList_cached_session_one_login :
  (forall n c, redirectsToLogin (reply netRedirecting n (GetExam c)) = true) /\
  isSessionValid "42" stateCached = true /\
  fst (fetchExamListForUser netRedirecting (fun _ => emptyDocument)
         "42" "a@b.id" "secret" stateCached) = None /\
  sent (snd (fetchExamListForUser netRedirecting (fun _ => emptyDocument)
               "42" "a@b.id" "secret" stateCached)) =
    [GetExam "old999"; PostLogin "a@b.id" "secret"; GetExam "abc123"] /\
  logins (snd (fetchExamListForUser netRedirecting (fun _ => emptyDocument)
                 "42" "a@b.id" "secret" stateCached)) = 1%nat /\
  logins (snd (fetchExamListForUser netRedirecting (fun _ => emptyDocument)
                 "42" "a@b.id" "secret" stateCached)) <> 2%nat.
Proof.
  split; [reflexivity|]. vm_compute. repeat split. discriminate.
Qed.

(** ** The change detector *)

Import Scraper Storage.

Lemma getNewArticles_newEntries (current : list Article)
    (seen : gset string) :
  getNewArticles current seen = newEntries current seen.
Proof.
  unfold getNewArticles.
  induction current as [|a current IH]; [reflexivity|].
  rewrite filter_cons. cbn [newEntries].
  destruct (decide (id a ∈ seen)) as [Hin|Hout].
  - rewrite decide_False by (intros H; now apply H). exact IH.
  - rewrite decide_True by exact Hout. now rewrite IH.
Qed.

(** C4. [getNewArticles] is the subsequence of the current entries whose id
    is not in the seen set, in the order of the input: its result is taken
    from the input, no id of it is in the seen set, and applying it again
    with the same seen set changes nothing. *)
Theorem getNewArticles_subsequence (current : list Article)
    (seen : gset string) :
  getNewArticles current seen = newEntries current seen /\
  sublist (getNewArticles current seen) current /\
  (forall a, a ∈ getNewArticles current seen <-> a ∈ current /\ id a ∉ seen) /\
  (list_to_set (id <$> getNewArticles current seen) : gset string) ## seen /\
  getNewArticles (getNewArticles current seen) seen =
    getNewArticles current seen.
Proof.
  split; [apply getNewArticles_newEntries|].
  split; [apply sublist_filter|].
  assert (Hmem : forall a,
             a ∈ getNewArticles current seen <-> a ∈ current /\ id a ∉ seen).
  { intros a. unfold getNewArticles. rewrite list_elem_of_filter. tauto. }
  split; [exact Hmem|]. split.
  - intros x Hx Hseen. apply elem_of_list_to_set in Hx.
    apply list_elem_of_fmap in Hx as (a & -> & Ha).
    apply Hmem in Ha as [_ Ha]. now apply Ha.
  - unfold getNewArticles. rewrite list_filter_filter.
    apply list_filter_iff. tauto.
Qed.

(** ** The exam table *)

Lemma string_app_assoc (a b c : string) : (a ++ b) ++ c = a ++ b ++ c.
Proof. induction a as [|x a IH]; simpl; [reflexivity | now rewrite IH]. Qed.





Lemma toLowerCase_idem (s : string) :
  toLowerCase (toLowerCase s) = toLowerCase s.
Proof.
  induction s as [|c s IH]; simpl; [reflexivity|]. rewrite IH. f_equal.
  destruct c as [[] [] [] [] [] [] [] []]; reflexivity.
Qed.




Lemma examsOfRow_inv (cells : Dom.Row) (exam : Exam) :
  In exam (examsOfRow cells) ->
  (6 <= length cells)%nat /\
  examsOfRow cells = [exam] /\
  kode exam = trim (Dom.td_text (nth 0 cells Dom.no_cell)) /\
  kode exam <> EmptyString /\ kode exam <> "KODE" /\
  actions exam = keptActions (Dom.td_links (nth 5 cells Dom.no_cell)).
Proof.
  unfold examsOfRow.
  destruct (6 <=? length cells)%nat eqn:Hlen; [|contradiction].
  apply Nat.leb_le in Hlen.
  cbn [kode].
  destruct (truthy (trim (Dom.td_text (nth 0 cells Dom.no_cell)))) eqn:Ht;
    [|contradiction].
  destruct (String.eqb _ "KODE") eqn:Hk; [contradiction|].
  cbn [andb negb In]. intros [<-|[]]. cbn [kode actions].
  repeat split; try assumption.
  - intros H. rewrite H in Ht. discriminate.
  - intros H. rewrite H in Hk. discriminate.
Qed.


Lemma examsOfRow_short (cells : Dom.Row) :
  (length cells < 6)%nat -> examsOfRow cells = [].
Proof.
  intros H. unfold examsOfRow.
  destruct (6 <=? length cells)%nat eqn:Hlen; [|reflexivity].
  apply Nat.leb_le in Hlen. lia.
Qed.

Lemma parseExamTable_drop_row (cheerio_load : string -> Dom.Document)
    (html html' : string) (pre post : list Dom.Row) (cells : Dom.Row) :
  Dom.doc_table (cheerio_load html) = Some (pre ++ cells :: post)%list ->
  Dom.doc_table (cheerio_load html') = Some (pre ++ post)%list ->
  examsOfRow cells = [] ->
  parseExamTable cheerio_load html = parseExamTable cheerio_load html'.
Proof.
  intros H H' Hrow. unfold parseExamTable. rewrite H, H'.
  rewrite !flat_map_app. cbn [flat_map]. now rewrite Hrow.
Qed.

Lemma parseExamTable_inv (cheerio_load : string -> Dom.Document)
    (html : string) (exam : Exam) :
  In exam (parseExamTable cheerio_load html) ->
  exists rows cells,
    Dom.doc_table (cheerio_load html) = Some rows /\
    In cells rows /\ In exam (examsOfRow cells).
Proof.
  unfold parseExamTable.
  destruct (Dom.doc_table (cheerio_load html)) as [rows|]; [|contradiction].
  intros H. apply in_flat_map in H as (cells & Hin & H).
  now exists rows, cells.
Qed.



(** C10. Every record that [parseExamTable] returns comes from a row with
    at least 6 cells; a row with fewer than 6 cells gives no record,
    whatever it holds: the table without that row gives the same result. *)
Theorem parseExamTable_needs_six_cells
    (cheerio_load : string -> Dom.Document) (html : string) :
  (forall exam : Exam,
      In exam (parseExamTable cheerio_load html) ->
      exists rows cells,
        Dom.doc_table (cheerio_load html) = Some rows /\
        In cells rows /\ (6 <= length cells)%nat /\
        examsOfRow cells = [exam]) /\
  (forall (html' : string) (pre post : list Dom.Row) (cells : Dom.Row),
      Dom.doc_table (cheerio_load html) = Some (pre ++ cells :: post)%list ->
      Dom.doc_table (cheerio_load html') = Some (pre ++ post)%list ->
      (length cells < 6)%nat ->
      parseExamTable cheerio_load html = parseExamTable cheerio_load html').
Proof.
  split.
  - intros exam Hin.
    apply parseExamTable_inv in Hin as (rows & cells & Htab & Hrow & Hex).
    apply examsOfRow_inv in Hex as (Hlen & Hone & _).
    now exists rows, cells.
  - intros html' pre post cells H H' Hlen.
    eapply parseExamTable_drop_row; eauto using examsOfRow_short.
Qed.

Lemma parseExamTable_needs_six_cells_witness :
  parseExamTable loadExamPage "exam" = parseExamTable loadExamPage "long" /\
  length shortRow = 5%nat /\
  length (parseExamTable loadExamPage "exam") = 1%nat.
Proof.
  split; [|split; reflexivity].
  apply (proj2 (parseExamTable_needs_six_cells loadExamPage "exam")
           "long" [headerRow] [examRow] shortRow).
  - reflexivity.
  - reflexivity.
  - cbn. lia.
Defined.

(** ** The listing: first occurrence wins, sorted by numeric id *)



Lemma SFcompare_Gt_swap (x y : spec_float) :
  SFcompare x y = Some Gt -> SFcompare y x = Some Lt.
Proof.
  destruct x as [sx|sx| |sx mx ex], y as [sy|sy| |sy my ey]; cbn;
    try discriminate;
    try (destruct sx; discriminate || reflexivity);
    try (destruct sy; discriminate || reflexivity);
    try (destruct sx, sy; discriminate || reflexivity).
  pose proof (Pos.compare_cont_antisym mx my Eq) as Hp. cbn in Hp.
  destruct sx, sy; try discriminate; try reflexivity;
    rewrite (Z.compare_antisym ex ey);
    destruct (ex ?= ey) eqn:He; cbn; try discriminate; try reflexivity;
    rewrite <- Hp;
    destruct (Pos.compare_cont Eq mx my); cbn;
    discriminate || reflexivity.
Qed.

Lemma compareFn_Gt_swap (a b : Article) :
  compareFn a b = Gt -> compareFn b a = Lt.
Proof.
  unfold compareFn.
  destruct (SFcompare (parseInt (id b)) (parseInt (id a))) as [c|] eqn:H;
    [|discriminate].
  intros ->. now rewrite (SFcompare_Gt_swap _ _ H).
Qed.

Lemma insert_perm (x : Article) (l : list Article) :
  Permutation (insert x l) (x :: l).
Proof.
  induction l as [|y l IH]; cbn [insert]; [reflexivity|].
  destruct (compareFn x y); try reflexivity.
  rewrite IH. apply perm_swap.
Qed.

Lemma sort_perm (l : list Article) : Permutation (sort l) l.
Proof.
  induction l as [|x l IH]; cbn; [reflexivity|].
  unfold sort in IH. now rewrite insert_perm, IH.
Qed.

Lemma insert_HdRel (R : Article -> Article -> Prop) (a x : Article)
    (l : list Article) :
  R a x -> HdRel R a l -> HdRel R a (insert x l).
Proof.
  intros Hax Hl. destruct l as [|y l]; cbn [insert]; [now constructor|].
  destruct (compareFn x y); constructor; try assumption;
    now inversion Hl.
Qed.

Lemma insert_sorted (x : Article) (l : list Article) :
  Sorted descending l -> Sorted descending (insert x l).
Proof.
  induction 1 as [|y l Hl IH Hy]; cbn [insert].
  - repeat constructor.
  - destruct (compareFn x y) eqn:Hc.
    + repeat constructor; try assumption. unfold descending. congruence.
    + repeat constructor; try assumption. unfold descending. congruence.
    + constructor; [exact IH|].
      apply insert_HdRel; [|exact Hy].
      unfold descending. rewrite (compareFn_Gt_swap _ _ Hc). discriminate.
Qed.

Lemma sort_sorted (l : list Article) : Sorted descending (sort l).
Proof.
  induction l as [|x l IH]; cbn; [constructor|].
  now apply insert_sorted.
Qed.


Lemma has_keys {V} (m : JsMap.t V) (k : string) :
  JsMap.has m k = existsb (fun k' => String.eqb k' k) (map fst m).
Proof.
  unfold JsMap.has. induction m as [|e m IH]; cbn; [reflexivity|].
  now rewrite IH.
Qed.

Lemma set_new {V} (m : JsMap.t V) (k : string) (v : V) :
  JsMap.has m k = false -> JsMap.set m k v = (m ++ [(k, v)])%list.
Proof.
  unfold JsMap.has. induction m as [|e m IH]; cbn; [reflexivity|].
  destruct (String.eqb (fst e) k); cbn; [discriminate|].
  intros H. now rewrite IH.
Qed.

Lemma seen_false (seen : list string) (k : string) :
  existsb (fun k' => String.eqb k' k) seen = false -> ~ In k seen.
Proof.
  intros H Hin.
  assert (existsb (fun k' => String.eqb k' k) seen = true) as Ht.
  { apply existsb_exists. exists k. split; [exact Hin|].
    apply String.eqb_refl. }
  congruence.
Qed.

Lemma seen_true (seen : list string) (k : string) :
  existsb (fun k' => String.eqb k' k) seen = true -> In k seen.
Proof.
  intros H. apply existsb_exists in H as (k' & Hin & E).
  apply String.eqb_eq in E. now subst.
Qed.

Lemma addAnchor_candidate (m : JsMap.t Article) (element : Dom.Anchor) :
  addAnchor m element =
  match candidate element with
  | Some a => if JsMap.has m (id a) then m else JsMap.set m (id a) a
  | None => m
  end.
Proof.
  unfold addAnchor, candidate.
  destruct (exec detailRe _) as [mt|]; [|reflexivity].
  destruct (truthy _); [|reflexivity].
  cbn [id]. now destruct (JsMap.has m (group 1 mt)).
Qed.

Lemma keyed_snoc (m : JsMap.t Article) (a : Article) :
  keyed m -> keyed (m ++ [(id a, a)])%list.
Proof.
  unfold keyed, JsMap.values. rewrite !map_app. cbn. now intros ->.
Qed.

Lemma fold_addArticle (l : list Article) (m : JsMap.t Article) :
  keyed m ->
  keyed (fold_left addArticle l m) /\
  JsMap.values (fold_left addArticle l m) =
    (JsMap.values m ++ keepFirst (map fst m) l)%list.
Proof.
  revert m. induction l as [|a l IH]; intros m Hm; cbn [fold_left keepFirst].
  - split; [exact Hm | now rewrite app_nil_r].
  - unfold addArticle at 2 4. rewrite has_keys.
    destruct (existsb _ (map fst m)) eqn:Hhas; cbn [negb].
    + now apply IH.
    + rewrite set_new by now rewrite has_keys.
      destruct (IH _ (keyed_snoc m a Hm)) as [Hk Hv]. split; [exact Hk|].
      rewrite Hv. unfold JsMap.values. rewrite !map_app. cbn.
      now rewrite <- app_assoc.
Qed.

Lemma fold_addAnchor (l : list Dom.Anchor) (m : JsMap.t Article) :
  keyed m ->
  keyed (fold_left addAnchor l m) /\
  JsMap.values (fold_left addAnchor l m) =
    (JsMap.values m ++ keepFirst (map fst m) (omap candidate l))%list.
Proof.
  revert m. induction l as [|e l IH]; intros m Hm; cbn [fold_left omap].
  - split; [exact Hm | now rewrite app_nil_r].
  - rewrite addAnchor_candidate. unfold omap; fold (omap candidate l).
    cbn [list_omap]. fold (omap candidate l).
    destruct (candidate e) as [a|]; [|now apply IH].
    cbn [keepFirst]. rewrite has_keys.
    destruct (existsb _ (map fst m)) eqn:Hhas.
    + now apply IH.
    + rewrite set_new by now rewrite has_keys.
      destruct (IH _ (keyed_snoc m a Hm)) as [Hk Hv]. split; [exact Hk|].
      rewrite Hv. unfold JsMap.values. rewrite !map_app. cbn.
      now rewrite <- app_assoc.
Qed.

Lemma keepFirst_NoDup (l : list Article) (seen : list string) :
  List.NoDup seen -> List.NoDup (seen ++ map id (keepFirst seen l)).
Proof.
  revert seen. induction l as [|a l IH]; intros seen Hs; cbn [keepFirst].
  - now rewrite app_nil_r.
  - destruct (existsb _ seen) eqn:Hhas; [now apply IH|].
    cbn [map]. specialize (IH (seen ++ [id a])%list).
    rewrite <- app_assoc in IH. apply IH.
    apply seen_false in Hhas.
    apply List.NoDup_app; [exact Hs | |].
    + repeat constructor. intros [].
    + intros x Hx [<-|[]]. contradiction.
Qed.

(** [keepFirst] keeps an entry exactly when no entry before it, and no
    seen id, has its id. *)
Lemma keepFirst_In (l : list Article) (seen : list string) (a : Article) :
  In a (keepFirst seen l) <->
  ~ In (id a) seen /\
  exists pre post, l = (pre ++ a :: post)%list /\
                   forall b, In b pre -> id b <> id a.
Proof.
  revert seen. induction l as [|x l IH]; intros seen; cbn [keepFirst].
  - split; [contradiction|]. intros (_ & pre & post & H & _).
    now destruct pre.
  - destruct (existsb _ seen) eqn:Hhas.
    + rewrite IH. split.
      * intros (Hs & pre & post & -> & Hpre). split; [exact Hs|].
        exists (x :: pre), post. split; [reflexivity|].
        intros b [<-|Hb]; [|now apply Hpre].
        apply seen_true in Hhas. congruence.
      * intros (Hs & pre & post & H & Hpre). split; [exact Hs|].
        destruct pre as [|y pre]; cbn in H; injection H as -> ->.
        -- apply seen_true in Hhas. contradiction.
        -- exists pre, post. split; [reflexivity|].
           intros b Hb. apply Hpre. now right.
    + apply seen_false in Hhas. cbn [In]. rewrite IH. split.
      * intros [<-|(Hs & pre & post & -> & Hpre)].
        -- split; [exact Hhas|]. exists [], l. split; [reflexivity|].
           intros b [].
        -- split; [intros H; apply Hs, in_or_app; now left|].
           exists (x :: pre), post. split; [reflexivity|].
           intros b [<-|Hb]; [|now apply Hpre].
           intros E. apply Hs, in_or_app. right. now left.
      * intros (Hs & pre & post & H & Hpre).
        destruct pre as [|y pre]; cbn in H; injection H as -> ->.
        -- now left.
        -- right. split.
           ++ intros Hin. apply in_app_or in Hin as [Hin|[E|[]]];
                [contradiction|].
              apply (Hpre y); [now left | exact E].
           ++ exists pre, post. split; [reflexivity|].
              intros b Hb. apply Hpre. now right.
Qed.

Lemma parseArticles_keepFirst (cheerio_load : string -> Dom.Document)
    (html : string) :
  parseArticles cheerio_load html =
  sort (keepFirst []
          (omap candidate
             (List.filter selected (Dom.doc_anchors (cheerio_load html))))).
Proof.
  unfold parseArticles.
  destruct (fold_addAnchor
              (List.filter selected (Dom.doc_anchors (cheerio_load html))) [])
    as [_ Hv]; [reflexivity|].
  now rewrite Hv.
Qed.

Lemma sort_NoDup (l : list Article) :
  List.NoDup (map id l) -> List.NoDup (map id (sort l)).
Proof.
  intros H. eapply Permutation_NoDup; [|exact H].
  apply Permutation_map. symmetry. apply sort_perm.
Qed.

Lemma sort_In (l : list Article) (a : Article) : In a (sort l) <-> In a l.
Proof.
  split; apply Permutation_in; [|symmetry]; apply sort_perm.
Qed.

Lemma candidate_text (element : Dom.Anchor) (a : Article) :
  candidate element = Some a ->
  title a = trim (Dom.a_text element) /\ title a <> EmptyString.
Proof.
  unfold candidate. destruct (exec detailRe _); [|discriminate].
  destruct (truthy (trim (Dom.a_text element))) eqn:Ht; [|discriminate].
  intros [= <-]. cbn [title]. split; [reflexivity|].
  intros E. rewrite E in Ht. discriminate.
Qed.

(** ** The full backfill *)

Section Backfill.
Variable cheerio_load : string -> Dom.Document.
Variable page : nat -> string -> option string.

Lemma scrapeLoop_step (offset : Z) (all : JsMap.t Article) (st : State) :
  offset <= MAX_OFFSET ->
  scrapeLoop cheerio_load page offset all st =
  let '(all', st') := addPage cheerio_load page (all, st) offset in
  scrapeLoop cheerio_load page (offset + PAGE_STEP) all' st'.
Proof.
  intros H. rewrite scrapeLoop_equation_1.
  destruct (Z_le_gt_dec offset MAX_OFFSET) as [Hle|Hgt]; [|lia].
  reflexivity.
Qed.

Lemma scrapeLoop_stop (offset : Z) (all : JsMap.t Article) (st : State) :
  offset > MAX_OFFSET ->
  scrapeLoop cheerio_load page offset all st = (all, st).
Proof.
  intros H. rewrite scrapeLoop_equation_1.
  destruct (Z_le_gt_dec offset MAX_OFFSET) as [Hle|Hgt]; [lia|].
  reflexivity.
Qed.

Lemma scrapeLoop_fold (n : nat) (offset : Z) (all : JsMap.t Article)
    (st : State) :
  offset = MAX_OFFSET + PAGE_STEP - PAGE_STEP * Z.of_nat n ->
  scrapeLoop cheerio_load page offset all st =
  fold_left (addPage cheerio_load page)
    (map (fun k => offset + PAGE_STEP * Z.of_nat k) (seq 0 n)) (all, st).
Proof.
  revert offset all st. induction n as [|n IH]; intros offset all st Hoff.
  - apply scrapeLoop_stop. unfold MAX_OFFSET, PAGE_STEP in *. lia.
  - rewrite scrapeLoop_step by (unfold MAX_OFFSET, PAGE_STEP in *; lia).
    cbn [seq map fold_left]. rewrite Z.mul_0_r, Z.add_0_r.
    destruct (addPage cheerio_load page (all, st) offset) as [all' st'].
    rewrite IH by (unfold MAX_OFFSET, PAGE_STEP in *; lia).
    f_equal. rewrite <- seq_shift, map_map. apply map_ext. intros k.
    unfold PAGE_STEP. lia.
Qed.

Lemma keepFirst_app (l1 l2 : list Article) (seen : list string) :
  keepFirst seen (l1 ++ l2) =
  (keepFirst seen l1 ++
   keepFirst (seen ++ map id (keepFirst seen l1)) l2)%list.
Proof.
  revert seen. induction l1 as [|a l1 IH]; intros seen; cbn [keepFirst app].
  - cbn. now rewrite app_nil_r.
  - destruct (existsb _ seen); [apply IH|].
    cbn [map app]. rewrite IH. now rewrite <- app_assoc.
Qed.

Lemma addPage_result (all : JsMap.t Article) (st : State) (o : Z) :
  keyed all ->
  let entries := hd [] (pageEntries cheerio_load page
                          (length (requested st)) [o]) in
  let r := addPage cheerio_load page (all, st) o in
  requested (snd r) = (requested st ++ [pageUrl o])%list /\
  keyed (fst r) /\
  JsMap.values (fst r) =
    (JsMap.values all ++ keepFirst (map fst all) entries)%list.
Proof.
  intros Hk. cbn [pageEntries hd addPage fetchNewsPage fst snd].
  split; [reflexivity|].
  destruct (page (length (requested st)) (pageUrl o)) as [html|].
  - now apply fold_addArticle.
  - cbn [keepFirst]. now rewrite app_nil_r.
Qed.

Lemma fold_addPage (offs : list Z) (all : JsMap.t Article) (st : State) :
  keyed all ->
  let r := fold_left (addPage cheerio_load page) offs (all, st) in
  requested (snd r) = (requested st ++ map pageUrl offs)%list /\
  keyed (fst r) /\
  JsMap.values (fst r) =
    (JsMap.values all ++
     keepFirst (map fst all)
       (concat (pageEntries cheerio_load page (length (requested st)) offs)))%list.
Proof.
  revert all st. induction offs as [|o offs IH]; intros all st Hk.
  - cbn. rewrite !app_nil_r. auto.
  - cbn [fold_left]. cbv zeta.
    destruct (addPage_result all st o Hk) as (Hr1 & Hk1 & Hv1).
    destruct (addPage cheerio_load page (all, st) o) as [all1 st1] eqn:E1.
    cbn [fst snd] in Hr1, Hk1, Hv1.
    destruct (IH all1 st1 Hk1) as (Hr & Hk' & Hv).
    split; [|split; [exact Hk'|]].
    + rewrite Hr, Hr1. cbn [map]. now rewrite <- app_assoc.
    + rewrite Hv, Hv1, Hr1, length_app. cbn [length].
      rewrite Nat.add_1_r.
      cbn [pageEntries concat hd]. rewrite keepFirst_app.
      rewrite <- app_assoc. do 2 f_equal.
      rewrite Hk1, Hv1, map_app. now rewrite <- Hk.
Qed.

End Backfill.


Lemma let_pair {A B C} (p : A * B) (f : A -> B -> C) :
  (let '(a, b) := p in f a b) = f (fst p) (snd p).
Proof. now destruct p. Qed.

Lemma scrapeArticles_all (cheerio_load : string -> Dom.Document)
    (page : nat -> string -> option string) (st : State) :
  scrapeArticles cheerio_load page true st =
  let r := fold_left (addPage cheerio_load page) offsets ([], st) in
  (Some (sort (JsMap.values (fst r))), snd r).
Proof.
  unfold scrapeArticles.
  rewrite (scrapeLoop_fold cheerio_load page 53 0) by reflexivity.
  change (map (fun k => 0 + PAGE_STEP * Z.of_nat k) (seq 0 53)) with offsets.
  apply (let_pair _ (fun all st' => (Some (sort (JsMap.values all)), st'))).
Qed.

(** ** Numeric ids: integers below 2^53 are Numbers, compared as integers *)

Lemma digits2_pos_bounds (p : positive) :
  2 ^ (Zpos (digits2_pos p) - 1) <= Zpos p < 2 ^ Zpos (digits2_pos p).
Proof.
  induction p as [p IH|p IH|]; cbn [digits2_pos].
  - rewrite Pos2Z.inj_succ.
    replace (Z.succ (Zpos (digits2_pos p)) - 1) with
      (Z.succ (Zpos (digits2_pos p) - 1)) by lia.
    rewrite !Z.pow_succ_r by lia. lia.
  - rewrite Pos2Z.inj_succ.
    replace (Z.succ (Zpos (digits2_pos p)) - 1) with
      (Z.succ (Zpos (digits2_pos p) - 1)) by lia.
    rewrite !Z.pow_succ_r by lia. lia.
  - cbn. lia.
Qed.

Lemma iter_xO_value (p k : positive) :
  Zpos (Pos.iter xO p k) = Zpos p * 2 ^ Zpos k.
Proof.
  induction k as [|k IH] using Pos.peano_ind.
  - cbn. lia.
  - rewrite Pos.iter_succ, Pos2Z.inj_xO, IH, Pos2Z.inj_succ.
    rewrite Z.pow_succ_r by lia. lia.
Qed.

Lemma iter_xO_digits (p k : positive) :
  digits2_pos (Pos.iter xO p k) = (digits2_pos p + k)%positive.
Proof.
  induction k as [|k IH] using Pos.peano_ind.
  - cbn. lia.
  - rewrite Pos.iter_succ. cbn [digits2_pos]. rewrite IH. lia.
Qed.

Lemma binary_round_aux_exact (m : positive) (e : Z) :
  digits2_pos m = 53%positive -> -1074 <= e <= 971 ->
  binary_round_aux Number.prec Number.emax false (Zpos m) e loc_Exact =
  S754_finite false m e.
Proof.
  intros Hd He.
  unfold binary_round_aux, shr_fexp, fexp, emin, Number.prec, Number.emax.
  cbn [Zdigits2 shr_record_of_loc]. rewrite Hd.
  replace (Z.max (53 + e - 53) (3 - 1024 - 53) - e) with 0 by lia.
  cbn [shr shr_m loc_of_shr_record round_nearest_even Zdigits2].
  rewrite Hd.
  replace (Z.max (53 + e - 53) (3 - 1024 - 53) - e) with 0 by lia.
  cbn [shr shr_m shr_record_of_loc].
  replace (e <=? 1024 - 53) with true by (symmetry; apply Z.leb_le; lia).
  reflexivity.
Qed.

(** The Number of a positive integer below 2^53: its mantissa is the integer
    shifted to 53 bits. *)
Lemma binary_round_small (p : positive) :
  Zpos p < 2 ^ 53 ->
  Zpos (digits2_pos p) <= 53 /\
  exists m,
    binary_round Number.prec Number.emax false p 0 =
      S754_finite false m (Zpos (digits2_pos p) - 53) /\
    Zpos m = Zpos p * 2 ^ (53 - Zpos (digits2_pos p)).
Proof.
  intros Hp. pose proof (digits2_pos_bounds p) as [Hlo _].
  assert (Zpos (digits2_pos p) <= 53) as Hd.
  { destruct (Z_le_gt_dec (Zpos (digits2_pos p)) 53) as [H|H]; [exact H|].
    assert (2 ^ 53 <= 2 ^ (Zpos (digits2_pos p) - 1))
      by (apply Z.pow_le_mono_r; lia).
    lia. }
  split; [exact Hd|].
  unfold binary_round, shl_align, fexp, emin, Number.prec, Number.emax.
  replace (Z.max (Zpos (digits2_pos p) + 0 - 53) (3 - 1024 - 53) - 0)
    with (Zpos (digits2_pos p) - 53) by lia.
  replace (Z.max (Zpos (digits2_pos p) + 0 - 53) (3 - 1024 - 53))
    with (Zpos (digits2_pos p) - 53) by lia.
  destruct (Zpos (digits2_pos p) - 53) as [|d|d] eqn:Hs; [| lia |].
  - exists p. split.
    + apply binary_round_aux_exact; [lia|lia].
    + replace (53 - Zpos (digits2_pos p)) with 0 by lia. cbn. lia.
  - exists (Pos.iter xO p d). split.
    + fold (binary_round_aux Number.prec Number.emax).
      apply binary_round_aux_exact; [|lia].
      rewrite iter_xO_digits. lia.
    + rewrite iter_xO_value. f_equal. f_equal. lia.
Qed.

Lemma compare_small (p q : positive) :
  Zpos p < 2 ^ 53 -> Zpos q < 2 ^ 53 ->
  SFcompare (binary_round Number.prec Number.emax false p 0)
            (binary_round Number.prec Number.emax false q 0) =
  Some (Zpos p ?= Zpos q).
Proof.
  intros Hp Hq.
  destruct (binary_round_small p Hp) as (Hdp & mp & -> & Hmp).
  destruct (binary_round_small q Hq) as (Hdq & mq & -> & Hmq).
  pose proof (digits2_pos_bounds p) as [Hplo Hphi].
  pose proof (digits2_pos_bounds q) as [Hqlo Hqhi].
  cbn [SFcompare]. f_equal.
  destruct (Z.compare_spec (Zpos (digits2_pos p) - 53)
                           (Zpos (digits2_pos q) - 53)) as [E|L|G].
  - assert (digits2_pos p = digits2_pos q) as Ed by lia.
    rewrite Ed in Hmp.
    change (Pos.compare_cont Eq mp mq) with (Zpos mp ?= Zpos mq).
    rewrite Hmp, Hmq.
    assert (0 < 2 ^ (53 - Zpos (digits2_pos q)))
      by (apply Z.pow_pos_nonneg; lia).
    destruct (Z.compare_spec (Zpos p) (Zpos q)) as [E'|L'|G'].
    + rewrite E'. apply Z.compare_refl.
    + apply Z.compare_lt_iff. nia.
    + apply Z.compare_gt_iff. nia.
  - symmetry. apply Z.compare_lt_iff.
    assert (2 ^ Zpos (digits2_pos p) <= 2 ^ (Zpos (digits2_pos q) - 1))
      by (apply Z.pow_le_mono_r; lia).
    lia.
  - symmetry. apply Z.compare_gt_iff.
    assert (2 ^ Zpos (digits2_pos q) <= 2 ^ (Zpos (digits2_pos p) - 1))
      by (apply Z.pow_le_mono_r; lia).
    lia.
Qed.

Lemma compare_decimal (a b : Z) :
  0 <= a < 2 ^ 53 -> 0 <= b < 2 ^ 53 ->
  SFcompare (Number.decimal false a 0) (Number.decimal false b 0) =
  Some (a ?= b).
Proof.
  intros Ha Hb. unfold Number.decimal. cbn [Z.leb Z.compare].
  rewrite !Z.pow_0_r, !Z.mul_1_r.
  destruct a as [|p|p], b as [|q|q]; try lia; cbn [Z.leb Z.compare Z.to_pos].
  - reflexivity.
  - destruct (binary_round_small q) as (_ & m & -> & _); [lia|]. reflexivity.
  - destruct (binary_round_small p) as (_ & m & -> & _); [lia|]. reflexivity.
  - apply compare_small; lia.
Qed.

Lemma is_digit_value (c : ascii) :
  is_digit c = true -> 0 <= Z.of_N (code c - 48) <= 9.
Proof.
  unfold is_digit, between. rewrite andb_true_iff, !N.leb_le. lia.
Qed.

Lemma digits_value_bound (s : string) (acc : Z) :
  every is_digit s = true -> 0 <= acc ->
  0 <= digits_value acc s < (acc + 1) * 10 ^ Z.of_nat (String.length s).
Proof.
  revert acc. induction s as [|c s IH]; intros acc Hs Hacc;
    cbn [digits_value String.length].
  - cbn. lia.
  - cbn [every] in Hs. apply andb_prop in Hs as [Hc Hs].
    apply is_digit_value in Hc.
    specialize (IH (10 * acc + Z.of_N (code c - 48)) Hs ltac:(lia)).
    rewrite Nat2Z.inj_succ, Z.pow_succ_r by lia.
    assert (0 < 10 ^ Z.of_nat (String.length s))
      by (apply Z.pow_pos_nonneg; lia).
    nia.
Qed.

Lemma span_every (p : ascii -> bool) (s : string) :
  every p s = true -> span p s = (s, EmptyString).
Proof.
  intros H. rewrite <- (app_empty_r s) at 1. now apply span_app.
Qed.

Lemma digit_head (c : ascii) (s : string) :
  is_digit c = true ->
  Number.sign_of (trimStart (String c s)) = (false, String c s).
Proof.
  destruct c as [[] [] [] [] [] [] [] []]; try discriminate; reflexivity.
Qed.

Lemma digit_not_x (x : ascii) :
  is_digit x = true -> Ascii.eqb (lower_char x) "x"%char = false.
Proof.
  destruct x as [[] [] [] [] [] [] [] []]; try discriminate; reflexivity.
Qed.

(** [parseInt] of a run of decimal digits is the Number of its value. *)
Lemma parseInt_digits (s : string) :
  every is_digit s = true -> s <> EmptyString ->
  parseInt s = Number.decimal false (digits_value 0 s) 0.
Proof.
  intros Hs Hne. destruct s as [|c s]; [congruence|].
  unfold parseInt. pose proof Hs as Hs'. cbn [every] in Hs'.
  apply andb_prop in Hs' as [Hc Hs'].
  rewrite (digit_head c s Hc).
  assert (match String c s with
          | String "0"%char (String x t) =>
              if Ascii.eqb (lower_char x) "x"%char then (true, t)
              else (false, String c s)
          | _ => (false, String c s)
          end = (false, String c s)) as ->.
  { destruct s as [|x t]; [now destruct c as [[] [] [] [] [] [] [] []]|].
    cbn [every] in Hs'. apply andb_prop in Hs' as [Hx _].
    rewrite (digit_not_x x Hx).
    now destruct c as [[] [] [] [] [] [] [] []]. }
  rewrite (span_every _ _ Hs). reflexivity.
Qed.

Lemma many_acc_every {R} (p : ascii -> bool)
    (k : string -> string -> option R) (s acc : string) (r : R) :
  many p s acc k = Some r ->
  exists a rest, every p a = true /\ k (acc ++ a) rest = Some r.
Proof.
  revert acc. induction s as [|c s IH]; intros acc; simpl.
  - intros H. exists EmptyString, EmptyString. now rewrite app_empty_r.
  - destruct (p c) eqn:Hc.
    + destruct (many p s (snoc acc c) k) as [r'|] eqn:Hm.
      * intros [= <-]. apply IH in Hm as (a & rest & Ha & Hk).
        rewrite snoc_app in Hk. exists (String c a), rest.
        cbn [every]. now rewrite Hc, Ha.
      * intros H. exists EmptyString, (String c s). now rewrite app_empty_r.
    + intros H. exists EmptyString, (String c s). now rewrite app_empty_r.
Qed.

(** The id that the detail pattern captures is a non-empty run of digits. *)
Lemma detailRe_digits (href : string) (m : list string) :
  exec detailRe href = Some m ->
  every is_digit (group 1 m) = true /\ group 1 m <> EmptyString.
Proof.
  intros H. apply exec_inv in H as (pre & t & _ & H).
  unfold matchAt, detailRe in H.
  apply itemsM_lit_inv in H as (t' & _ & H).
  cbn [itemsM atomsM atomM chr app] in H.
  destruct t' as [|x t']; [discriminate|].
  destruct (is_digit x) eqn:Hx; [|discriminate].
  apply many_acc_every in H as (a & rest & Ha & H).
  destruct rest as [|y rest]; [discriminate|].
  destruct (Ascii.eqb "/" y); [|discriminate].
  injection H as <-. cbn [group pred nth every snoc String.append].
  rewrite Hx, Ha. split; [reflexivity|discriminate].
Qed.

Lemma candidate_id (element : Dom.Anchor) (a : Article) :
  candidate element = Some a ->
  every is_digit (id a) = true /\ id a <> EmptyString.
Proof.
  unfold candidate.
  destruct (exec detailRe _) as [m|] eqn:Hm; [|discriminate].
  destruct (truthy _); [|discriminate].
  intros [= <-]. cbn [id]. now apply detailRe_digits in Hm.
Qed.




Lemma omap_candidate_In (anchors : list Dom.Anchor) (a : Article) :
  In a (omap candidate anchors) ->
  exists element, In element anchors /\ candidate element = Some a.
Proof.
  intros H. apply list_elem_of_In, list_elem_of_omap in H as (e & He & Hc).
  exists e. split; [now apply list_elem_of_In|exact Hc].
Qed.

Lemma keepFirst_incl (l : list Article) (seen : list string) (a : Article) :
  In a (keepFirst seen l) -> In a l.
Proof.
  intros H. apply keepFirst_In in H as (_ & pre & post & -> & _).
  apply in_or_app. right. now left.
Qed.




(** ** Numerals without a leading zero denote different numbers *)






(** ** The listing and the full backfill: main results *)






(** * Further properties of the code *)

(** ** Sessions and exam pages *)

Import Servers.

Section Runs.
Import ExamMonitor.
Variable net : Net.
Variables userId email password : string.

Lemma issues_ret {A} (a : A) : issues userId email password 0 0 (ret a).
Proof.
  intros st. exists []. cbn. rewrite List.app_nil_r. repeat split; lia || auto.
Qed.

Lemma issues_bind {A B} (c : M A) (f : A -> M B) (nl np nl' np' : nat) :
  issues userId email password nl np c ->
  (forall a, issues userId email password nl' np' (f a)) ->
  issues userId email password (nl + nl') (np + np') (bind c f).
Proof.
  intros Hc Hf st. unfold bind.
  destruct (Hc st) as (l & Hs & Ha & Hl & Hp & Hn & Hu).
  destruct (c st) as [a st1]. cbn [snd] in *.
  destruct (Hf a st1) as (l' & Hs' & Ha' & Hl' & Hp' & Hn' & Hu').
  exists (l ++ l')%list. rewrite Hs', Hs, <- List.app_assoc.
  rewrite !List.filter_app, !List.length_app.
  repeat split; try lia.
  - apply Forall_app; auto.
  - intros u Hne. now rewrite Hu', Hu.
Qed.

Lemma issues_weaken {A} (c : M A) (nl np nl' np' : nat) :
  (nl <= nl')%nat -> (np <= np')%nat ->
  issues userId email password nl np c ->
  issues userId email password nl' np' c.
Proof.
  intros H1 H2 Hc st. destruct (Hc st) as (l & Hs & Ha & Hl & Hp & Hn & Hu).
  exists l. repeat split; auto; lia.
Qed.

Lemma issues_clearSession :
  issues userId email password 0 0 (clearSession userId).
Proof.
  intros st. exists []. cbn. rewrite List.app_nil_r.
  repeat split; try lia; auto.
  intros u Hne. now apply lookup_delete_ne.
Qed.

Lemma issues_getSession :
  issues userId email password 1 0 (getSession net userId email password).
Proof.
  intros st. rewrite getSession_result.
  destruct (isSessionValid userId st).
  - exists []. cbn. rewrite List.app_nil_r. repeat split; lia || auto.
  - rewrite login_result. cbv zeta.
    exists [PostLogin email password].
    destruct (sessionOfReply _ _); cbn; repeat split; try lia;
      try (repeat constructor; fail).
    intros u Hne. now apply lookup_insert_ne.
Qed.

Lemma issues_fetchExamPage (c : string) :
  truthy c = true ->
  issues userId email password 0 1 (fetchExamPage net c).
Proof.
  intros Hc st. rewrite fetchExamPage_result. cbv zeta.
  exists [GetExam c]. cbn. repeat split; try lia.
  repeat constructor. exact Hc.
Qed.

Lemma falsy_default (x : option string) :
  falsy x = false -> truthy (default EmptyString x) = true.
Proof.
  destruct x as [s|]; [|discriminate]. cbn.
  now destruct (truthy s).
Qed.

Lemma issues_fetchExamListForUser (cheerio_load : string -> Dom.Document) :
  issues userId email password 2 2
    (fetchExamListForUser net cheerio_load userId email password).
Proof.
  unfold fetchExamListForUser.
  apply (issues_bind _ _ 1 0 1 2); [apply issues_getSession|].
  intros cookie. destruct (falsy cookie) eqn:Hc.
  { eapply issues_weaken; [| |apply issues_ret]; lia. }
  apply (issues_bind _ _ 0 1 1 1);
    [apply issues_fetchExamPage, falsy_default, Hc|].
  intros html. destruct (falsy html).
  2:{ eapply issues_weaken; [| |apply issues_ret]; lia. }
  apply (issues_bind _ _ 0 0 1 1); [apply issues_clearSession|].
  intros _.
  apply (issues_bind _ _ 1 0 0 1); [apply issues_getSession|].
  intros newCookie. destruct (falsy newCookie) eqn:Hn.
  { eapply issues_weaken; [| |apply issues_ret]; lia. }
  apply (issues_bind _ _ 0 1 0 0);
    [apply issues_fetchExamPage, falsy_default, Hn|].
  intros retryHtml. destruct (falsy retryHtml); apply issues_ret.
Qed.
End Runs.

(** X1. For every network, every state and every page parser, one call of
    [fetchExamListForUser] adds at most four requests to those issued
    before: at most two authentication attempts, each with the credentials
    given, and at most two fetches of the exam page, each with a cookie
    that is not empty.  The sessions stored for other users are left as
    they were. *)
Theorem fetchExamList_bounded (net : ExamMonitor.Net)
    (cheerio_load : string -> Dom.Document)
    (userId email password : string) (st : ExamMonitor.State) :
  let out := fetchExamListForUser net cheerio_load userId email password st in
  (exists l, sent (snd out) = (sent st ++ l)%list /\ (length l <= 4)%nat /\
     forall q, In q l ->
       (exists c, q = GetExam c /\ c <> EmptyString) \/
       q = PostLogin email password) /\
  (logins (snd out) <= logins st + 2)%nat /\
  (pageFetches (snd out) <= pageFetches st + 2)%nat /\
  forall other, other <> userId ->
    userSessions (snd out) !! other = userSessions st !! other.
Proof.
  cbv zeta.
  destruct (issues_fetchExamListForUser net userId email password
              cheerio_load st) as (l & Hs & Ha & Hl & Hp & Hn & Hu).
  unfold logins, pageFetches. rewrite Hs, !List.filter_app, !List.length_app.
  split.
  - exists l. split; [reflexivity|]. split; [lia|].
    intros q Hq. rewrite List.Forall_forall in Ha. specialize (Ha q Hq).
    destruct q as [e p|c|u c]; cbn in Ha.
    + right. now destruct Ha as [-> ->].
    + left. exists c. split; [reflexivity|]. now destruct c.
    + contradiction.
  - repeat split; try lia. exact Hu.
Qed.
Section Conflation.
Import ExamMonitor.
Variables net1 net2 : Net.
Hypothesis Helapsed : forall n, elapsed net1 n = elapsed net2 n.
Hypothesis Hother :
  forall n q, isGetExam q = false -> reply net1 n q = reply net2 n q.
Hypothesis Hpage :
  forall n q, isGetExam q = true ->
    usablePage (reply net1 n q) = usablePage (reply net2 n q).

Lemma getSession_ext (userId email password : string) (st : State) :
  getSession net1 userId email password st =
  getSession net2 userId email password st.
Proof.
  rewrite !getSession_result, !login_result. cbv zeta.
  now rewrite Helapsed, Hother.
Qed.

Lemma usablePage_falsy (r : Reply) :
  falsy (pageOfReply r) =
  match usablePage r with Some _ => false | None => true end.
Proof.
  unfold usablePage, falsy. destruct (pageOfReply r) as [h|]; [|reflexivity].
  now destruct (truthy h).
Qed.

Lemma usablePage_default (r : Reply) (h : string) :
  usablePage r = Some h -> default EmptyString (pageOfReply r) = h.
Proof.
  unfold usablePage. destruct (pageOfReply r) as [h'|]; [|discriminate].
  destruct (truthy h'); [|discriminate]. now intros [= ->].
Qed.

Lemma pageOfReply_ext (n : nat) (c : string) :
  let h1 := pageOfReply (reply net1 n (GetExam c)) in
  let h2 := pageOfReply (reply net2 n (GetExam c)) in
  falsy h1 = falsy h2 /\
  (falsy h2 = false -> default EmptyString h1 = default EmptyString h2).
Proof.
  cbv zeta. rewrite !usablePage_falsy.
  pose proof (Hpage n (GetExam c) eq_refl) as Hu.
  destruct (usablePage (reply net2 _ _)) as [h|] eqn:E2; rewrite Hu.
  - split; [reflexivity|]. intros _.
    now rewrite (usablePage_default _ _ E2), (usablePage_default _ _ Hu).
  - split; [reflexivity|discriminate].
Qed.
End Conflation.

(** X2. [fetchExamListForUser] tells apart only whether a fetch of the
    exam page gave a body that is not empty and was no redirect to the
    login page.  Two servers that answer alike but for the way their exam
    pages are unusable (an empty body, a redirect to the login page, a
    failed request) give the same result and the same state. *)
Theorem fetchExamList_conflates_page_failures (net1 net2 : ExamMonitor.Net)
    (cheerio_load : string -> Dom.Document)
    (userId email password : string) (st : ExamMonitor.State) :
  (forall n, elapsed net1 n = elapsed net2 n) ->
  (forall n q, isGetExam q = false -> reply net1 n q = reply net2 n q) ->
  (forall n q, isGetExam q = true ->
     usablePage (reply net1 n q) = usablePage (reply net2 n q)) ->
  fetchExamListForUser net1 cheerio_load userId email password st =
  fetchExamListForUser net2 cheerio_load userId email password st.
Proof.
  intros He Ho Hp. unfold fetchExamListForUser, bind.
  rewrite (getSession_ext net1 net2 He Ho).
  destruct (getSession net2 userId email password st) as [c st1].
  destruct (falsy c); [reflexivity|].
  rewrite !fetchExamPage_result. cbv beta iota zeta. rewrite He.
  destruct (pageOfReply_ext net1 net2 Hp (length (sent st1))
              (default EmptyString c)) as [-> Hd].
  destruct (falsy (pageOfReply (reply net2 _ _))); [|now rewrite Hd].
  cbn [clearSession].
  rewrite (getSession_ext net1 net2 He Ho).
  destruct (getSession net2 userId email password _) as [c' st4].
  destruct (falsy c'); [reflexivity|].
  rewrite !fetchExamPage_result. cbv beta iota zeta. rewrite He.
  destruct (pageOfReply_ext net1 net2 Hp (length (sent st4))
              (default EmptyString c')) as [-> Hd'].
  destruct (falsy (pageOfReply (reply net2 _ _))); [reflexivity|].
  now rewrite Hd'.
Qed.

Lemma usablePage_truthy (r : Reply) (h : string) :
  usablePage r = Some h -> truthy h = true.
Proof.
  unfold usablePage. destruct (pageOfReply r) as [h'|]; [|discriminate].
  destruct (truthy h') eqn:E; [|discriminate]. now intros [= <-].
Qed.

Lemma falsy_page (r : Reply) :
  falsy (pageOfReply r) = false ->
  usablePage r = Some (default EmptyString (pageOfReply r)).
Proof.
  unfold usablePage, falsy. destruct (pageOfReply r) as [h|]; [|discriminate].
  cbn. now destruct (truthy h).
Qed.

Lemma getSession_stored (net : Net) (userId email password : string)
    (st : ExamMonitor.State) :
  falsy (fst (getSession net userId email password st)) = false ->
  cookie <$> userSessions (snd (getSession net userId email password st))
               !! userId =
  fst (getSession net userId email password st).
Proof.
  rewrite getSession_result.
  destruct (isSessionValid userId st); [reflexivity|].
  rewrite login_result. cbv zeta.
  destruct (sessionOfReply _ _) as [s|]; [|discriminate].
  intros _. cbn. now rewrite lookup_insert_eq.
Qed.

(** X4. Whenever [fetchExamListForUser] returns a list, its last request
    was a fetch of the exam page whose reply was no redirect to the login
    page and had a body that is not empty; the list is the parse of that
    body, and the cookie sent with that request is the cookie of the
    session that is stored for the user when the call returns. *)
Theorem fetchExamList_result_is_last_page (net : ExamMonitor.Net)
    (cheerio_load : string -> Dom.Document)
    (userId email password : string) (st : ExamMonitor.State)
    (exams : list Exam) :
  let out := fetchExamListForUser net cheerio_load userId email password st in
  fst out = Some exams ->
  exists pre c html,
    sent (snd out) = (pre ++ [GetExam c])%list /\
    usablePage (reply net (length pre) (GetExam c)) = Some html /\
    exams = parseExamTable cheerio_load html /\
    cookie <$> userSessions (snd out) !! userId = Some c.
Proof.
  cbv zeta. unfold fetchExamListForUser, bind.
  pose proof (getSession_stored net userId email password st) as Hst.
  destruct (getSession net userId email password st) as [c st1].
  cbn [fst snd] in Hst.
  destruct (falsy c) eqn:Hc; [cbn; discriminate|]. specialize (Hst eq_refl).
  destruct c as [c|]; [|discriminate].
  change (default EmptyString (Some c)) with c.
  rewrite fetchExamPage_result. cbv beta iota zeta.
  destruct (falsy (pageOfReply (reply net (length (sent st1)) (GetExam c))))
    eqn:Hp.
  - cbv beta. destruct (clearSession userId _) as [[] st3].
    pose proof (getSession_stored net userId email password st3) as Hst'.
    destruct (getSession net userId email password st3) as [c' st4].
    cbn [fst snd] in Hst'.
    destruct (falsy c') eqn:Hc'; [cbn; discriminate|].
    specialize (Hst' eq_refl).
    destruct c' as [c'|]; [|discriminate].
    change (default EmptyString (Some c')) with c'.
    rewrite fetchExamPage_result. cbv beta iota zeta.
    destruct (falsy (pageOfReply (reply net (length (sent st4))
                                    (GetExam c')))) eqn:Hp';
      [cbn; discriminate|].
    cbn. intros [= <-].
    exists (sent st4), c', (default EmptyString (pageOfReply
      (reply net (length (sent st4)) (GetExam c')))).
    split; [reflexivity|]. split; [now apply falsy_page|].
    split; [reflexivity|exact Hst'].
  - cbn. intros [= <-].
    exists (sent st1), c, (default EmptyString (pageOfReply
      (reply net (length (sent st1)) (GetExam c)))).
    split; [reflexivity|]. split; [now apply falsy_page|].
    split; [reflexivity|exact Hst].
Qed.

Lemma fetchExamList_conflates_page_failures_witness :
  fetchExamListForUser netEmptyBody loadExamPage "42" "a@b.c" "pw" state0 =
  fetchExamListForUser netRedirecting loadExamPage "42" "a@b.c" "pw" state0
  /\ pageFetches (snd (fetchExamListForUser netEmptyBody loadExamPage
                         "42" "a@b.c" "pw" state0)) = 2%nat.
Proof.
  split; [|reflexivity].
  apply fetchExamList_conflates_page_failures;
    [reflexivity | intros n [] H; (reflexivity || discriminate) ..].
Defined.


Lemma fetchExamList_result_is_last_page_witness :
  exists pre c html,
    sent (snd (fetchExamListForUser netServing loadExamPage "42" "a@b.c"
                 "pw" state0)) = (pre ++ [GetExam c])%list /\
    usablePage (reply netServing (length pre) (GetExam c)) = Some html /\
    parseExamTable loadExamPage "exam" = parseExamTable loadExamPage html /\
    cookie <$> userSessions
                 (snd (fetchExamListForUser netServing loadExamPage "42"
                         "a@b.c" "pw" state0)) !! "42" = Some c.
Proof.
  apply (fetchExamList_result_is_last_page netServing loadExamPage "42"
           "a@b.c" "pw" state0 (parseExamTable loadExamPage "exam")).
  reflexivity.
Defined.

(** X5. [fetchExamResultPdf] issues exactly one request, for an address
    that begins with "http": the link itself when it begins so, the site's
    base address followed by the link otherwise.  It never authenticates
    and never changes the stored sessions, also when the reply is a
    redirect to the login page; the result is [null] exactly when the
    request fails or the document cannot be parsed. *)
Theorem fetchExamResultPdf_single_request (net : ExamMonitor.Net)
    (pdfParse : string -> option string) (pdfUrl c : string)
    (st : ExamMonitor.State) :
  let out := fetchExamResultPdf net pdfParse pdfUrl c st in
  let url := if startsWith pdfUrl "http" then pdfUrl
             else "https://www.aktuaris.or.id" ++ pdfUrl in
  startsWith url "http" = true /\
  sent (snd out) = (sent st ++ [GetPdf url c])%list /\
  userSessions (snd out) = userSessions st /\
  fst out =
    match reply net (length (sent st)) (GetPdf url c) with
    | Resolved response => resultOfText <$> pdfParse (data response)
    | Rejected _ => None
    end.
Proof.
  cbv zeta. split.
  { destruct (startsWith pdfUrl "http") eqn:E; [exact E|reflexivity]. }
  unfold fetchExamResultPdf, bind, axios.
  change ExamMonitor.BASE_URL with "https://www.aktuaris.or.id".
  destruct (reply net _ _) as [r|r]; [|now repeat split].
  destruct (pdfParse (data r)); now repeat split.
Qed.
(** ** The listing *)

Lemma sort_of_sorted (l : list Article) : Sorted descending l -> sort l = l.
Proof.
  induction 1 as [|a l Hs IH Hd]; [reflexivity|].
  cbn [sort fold_right]. fold (sort l). rewrite IH.
  destruct Hd as [|b l' Hab]; [reflexivity|].
  cbn [insert]. unfold descending in Hab.
  now destruct (compareFn a b).
Qed.

Lemma fold_set_fresh (l : list Article) (m : JsMap.t Article) :
  keyed m -> List.NoDup (map fst m ++ map id l) ->
  JsMap.values
    (fold_left (fun m article => JsMap.set m (id article) article) l m) =
  (JsMap.values m ++ l)%list.
Proof.
  revert m. induction l as [|a l IH]; intros m Hk Hnd; cbn [fold_left].
  - now rewrite List.app_nil_r.
  - assert (Hf : JsMap.has m (id a) = false).
    { rewrite has_keys. destruct (existsb _ _) eqn:E; [|reflexivity].
      apply seen_true in E. apply List.NoDup_remove_2 in Hnd.
      exfalso. apply Hnd. apply List.in_or_app. now left. }
    rewrite (set_new _ _ _ Hf), IH.
    + unfold JsMap.values. rewrite List.map_app. cbn [map snd].
      now rewrite <- List.app_assoc.
    + now apply keyed_snoc.
    + rewrite List.map_app. cbn [map fst]. rewrite <- List.app_assoc.
      exact Hnd.
Qed.

Lemma parseArticles_NoDup (cheerio_load : string -> Dom.Document)
    (html : string) :
  List.NoDup (map id (parseArticles cheerio_load html)).
Proof.
  rewrite parseArticles_keepFirst. apply sort_NoDup.
  exact (keepFirst_NoDup _ [] (List.NoDup_nil _)).
Qed.

Lemma parseArticles_sorted (cheerio_load : string -> Dom.Document)
    (html : string) :
  Sorted descending (parseArticles cheerio_load html).
Proof. rewrite parseArticles_keepFirst. apply sort_sorted. Qed.

(** X6. A regular check, [scrapeArticles(false)], issues exactly one
    request, for the base address of the listing.  When that request fails
    the call fails with it: no list is returned.  When the page arrives the
    result is exactly what [parseArticles] makes of it: collecting the
    entries in a map and sorting them again changes nothing. *)
Theorem scrapeArticles_incremental
    (cheerio_load : string -> Dom.Document)
    (page : nat -> string -> option string) (st : Scraper.State) :
  let out := scrapeArticles cheerio_load page false st in
  requested (snd out) =
    (requested st ++ ["https://www.aktuaris.or.id/page/news_nextpage/"])%list
  /\
  fst out =
    parseArticles cheerio_load <$>
      page (length (requested st))
           "https://www.aktuaris.or.id/page/news_nextpage/".
Proof.
  cbv zeta. unfold scrapeArticles, fetchNewsPage.
  change (pageUrl 0) with "https://www.aktuaris.or.id/page/news_nextpage/".
  destruct (page _ _) as [html|]; cbn; [|now split].
  split; [reflexivity|]. f_equal.
  rewrite fold_set_fresh.
  - cbn [JsMap.values map app].
    apply sort_of_sorted, parseArticles_sorted.
  - reflexivity.
  - apply parseArticles_NoDup.
Qed.

Lemma many_split {R} (p : ascii -> bool)
    (k : string -> string -> option R) (s acc : string) (r : R) :
  many p s acc k = Some r ->
  exists a rest, s = a ++ rest /\ every p a = true /\
                 k (acc ++ a) rest = Some r.
Proof.
  revert acc. induction s as [|c s IH]; intros acc; simpl.
  - intros H. exists EmptyString, EmptyString.
    repeat split; now rewrite app_empty_r.
  - destruct (p c) eqn:Hc.
    + destruct (many p s (snoc acc c) k) as [r'|] eqn:Hm.
      * intros [= <-]. apply IH in Hm as (a & rest & -> & Ha & Hk).
        rewrite snoc_app in Hk. exists (String c a), rest.
        cbn [every]. rewrite Hc, Ha. now repeat split.
      * intros H. exists EmptyString, (String c s).
        repeat split; now rewrite app_empty_r.
    + intros H. exists EmptyString, (String c s).
      repeat split; now rewrite app_empty_r.
Qed.

Lemma detailRe_shape (href : string) (m : list string) :
  exec detailRe href = Some m ->
  exists pre post,
    href = pre ++ "/page/news_detail/" ++ group 1 m ++ "/" ++ post.
Proof.
  intros H. apply exec_inv in H as (pre & t & -> & H).
  unfold matchAt, detailRe in H.
  apply itemsM_lit_inv in H as (t' & -> & H).
  cbn [itemsM atomsM atomM chr app] in H.
  destruct t' as [|x t']; [discriminate|].
  destruct (is_digit x) eqn:Hx; [|discriminate].
  apply many_split in H as (a & rest & -> & Ha & H).
  destruct rest as [|y rest]; [discriminate|].
  destruct (Ascii.eqb_spec "/" y) as [<-|]; [|discriminate].
  injection H as <-. cbn [group pred nth snoc String.append].
  exists pre, rest. reflexivity.
Qed.
Lemma candidate_shape (element : Dom.Anchor) (a : Article) :
  candidate element = Some a ->
  exists href pre post,
    Dom.a_href element = Some href /\
    href = pre ++ "/page/news_detail/" ++ id a ++ "/" ++ post /\
    url a = (if startsWith href "http" then href
             else "https://www.aktuaris.or.id" ++ href) /\
    startsWith (url a) "http" = true.
Proof.
  unfold candidate.
  destruct (Dom.a_href element) as [href|].
  2:{ change (default EmptyString None) with EmptyString.
      change (exec detailRe EmptyString) with (@None (list string)).
      discriminate. }
  change (default EmptyString (Some href)) with href.
  destruct (exec detailRe href) as [m|] eqn:Hm; [|discriminate].
  destruct (truthy _); [|discriminate].
  intros H.
  apply (f_equal (fun o => match o with Some x => x | None => a end))
    in H.
  subst a. cbn [id url].
  apply detailRe_shape in Hm as (pre & post & Hm).
  exists href, pre, post.
  split; [reflexivity|]. split; [exact Hm|]. split; [reflexivity|].
  destruct (startsWith href "http") eqn:E; [exact E|reflexivity].
Qed.

(** X7. Every entry that [parseArticles] returns comes from an anchor of
    the document whose target holds "/page/news_detail/", the id of the
    entry and "/" in a row; the id is a run of decimal digits that is not
    empty, the title is the trimmed text of the anchor and is not empty,
    and the address begins with "http": it is the target itself when that
    begins with "http", the target after "https://www.aktuaris.or.id"
    otherwise. *)
Theorem parseArticles_entries_wellformed
    (cheerio_load : string -> Dom.Document) (html : string) (a : Article) :
  In a (parseArticles cheerio_load html) ->
  exists element href pre post,
    In element (Dom.doc_anchors (cheerio_load html)) /\
    Dom.a_href element = Some href /\
    href = pre ++ "/page/news_detail/" ++ id a ++ "/" ++ post /\
    every is_digit (id a) = true /\ id a <> EmptyString /\
    title a = trim (Dom.a_text element) /\ title a <> EmptyString /\
    url a = (if startsWith href "http" then href
             else "https://www.aktuaris.or.id" ++ href) /\
    startsWith (url a) "http" = true.
Proof.
  rewrite parseArticles_keepFirst. intros Ha.
  apply sort_In, keepFirst_incl, omap_candidate_In in Ha as (e & He & Hc).
  apply List.filter_In in He as [He _].
  destruct (candidate_shape _ _ Hc) as (href & pre & post & H1 & H2 & H3 & H4).
  destruct (candidate_id _ _ Hc) as [H5 H6].
  destruct (candidate_text _ _ Hc) as [H7 H8].
  exists e, href, pre, post. do 8 (split; [assumption|]). assumption.
Qed.

Lemma parseArticles_entries_wellformed_witness :
  exists element href pre post,
    In element (Dom.doc_anchors (loadListing "news")) /\
    Dom.a_href element = Some href /\
    href = pre ++ "/page/news_detail/" ++ "12" ++ "/" ++ post /\
    every is_digit "12" = true /\ "12" <> EmptyString /\
    "Seminar" = trim (Dom.a_text element) /\ "Seminar" <> EmptyString /\
    "https://www.aktuaris.or.id/page/news_detail/12/seminar" =
      (if startsWith href "http" then href
       else "https://www.aktuaris.or.id" ++ href) /\
    startsWith "https://www.aktuaris.or.id/page/news_detail/12/seminar"
      "http" = true.
Proof.
  apply (parseArticles_entries_wellformed loadListing "news"
           {| id := "12"; title := "Seminar";
              url := "https://www.aktuaris.or.id/page/news_detail/12/seminar"
           |}).
  vm_compute. auto.
Defined.
(** ** The full backfill *)

Lemma concat_split {A} (ls : list (list A)) (pre post : list A) (a : A) :
  concat ls = (pre ++ a :: post)%list ->
  exists L1 pg L2 p1 p2,
    ls = (L1 ++ pg :: L2)%list /\ pg = (p1 ++ a :: p2)%list /\
    pre = (concat L1 ++ p1)%list.
Proof.
  revert pre. induction ls as [|pg ls IH]; intros pre H; cbn in H.
  - now destruct pre.
  - destruct (Nat.le_gt_cases (length pg) (length pre)) as [Hle|Hgt].
    + assert (pre = pg ++ List.skipn (length pg) pre /\
              concat ls = List.skipn (length pg) pre ++ a :: post)%list
        as [Hpre Hrest].
      { clear IH. revert pre H Hle.
        induction pg as [|x pg IHp]; intros pre H Hle; cbn in *.
        - now rewrite List.skipn_O.
        - destruct pre as [|y pre]; [cbn in Hle; lia|].
          cbn in H, Hle |- *. injection H as -> H.
          destruct (IHp pre H ltac:(lia)) as [E1 E2].
          split; [now rewrite <- E1|exact E2]. }
      destruct (IH _ Hrest) as (L1 & pg' & L2 & p1 & p2 & -> & -> & Hp).
      exists (pg :: L1), (p1 ++ a :: p2)%list, L2, p1, p2.
      split; [reflexivity|]. split; [reflexivity|].
      cbn [concat]. rewrite <- List.app_assoc, <- Hp. exact Hpre.
    + exists [], pg, ls, pre.
      assert (exists p2, pg = pre ++ a :: p2)%list as [p2 ->].
      { clear IH. revert pre H Hgt.
        induction pg as [|x pg IHp]; intros pre H Hgt; cbn in *; [lia|].
        destruct pre as [|y pre]; cbn in H |- *.
        - injection H as -> _. now exists pg.
        - injection H as -> H. cbn in Hgt.
          destruct (IHp pre H ltac:(lia)) as [p2 ->]. now exists p2. }
      exists p2. now repeat split.
Qed.

Section Pages.
Variable cheerio_load : string -> Dom.Document.
Variable page : nat -> string -> option string.

Lemma pageEntries_length (offs : list Z) (n : nat) :
  length (pageEntries cheerio_load page n offs) = length offs.
Proof.
  revert n. induction offs as [|o offs IH]; intros n; cbn; [reflexivity|].
  now rewrite IH.
Qed.

Lemma pageEntries_nth (offs : list Z) (n k : nat) (pg : list Article) :
  nth_error (pageEntries cheerio_load page n offs) k = Some pg ->
  exists o, nth_error offs k = Some o /\
    pg = match page (n + k)%nat (pageUrl o) with
         | Some html => parseArticles cheerio_load html
         | None => []
         end.
Proof.
  revert n k. induction offs as [|o offs IH]; intros n k; cbn.
  - now destruct k.
  - destruct k as [|k]; cbn.
    + intros [= <-]. exists o. now rewrite Nat.add_0_r.
    + intros H. apply IH in H as (o' & Ho & ->). exists o'.
      split; [exact Ho|]. now rewrite Nat.add_succ_r.
Qed.

Lemma pageEntries_nth_Some (offs : list Z) (n k : nat) (o : Z) :
  nth_error offs k = Some o ->
  nth_error (pageEntries cheerio_load page n offs) k =
    Some match page (n + k)%nat (pageUrl o) with
         | Some html => parseArticles cheerio_load html
         | None => []
         end.
Proof.
  revert n k. induction offs as [|o' offs IH]; intros n k; cbn.
  - now destruct k.
  - destruct k as [|k]; cbn.
    + intros [= ->]. now rewrite Nat.add_0_r.
    + intros H. rewrite (IH (S n) k H). now rewrite Nat.add_succ_r.
Qed.
End Pages.

Lemma offsets_nth (k : nat) :
  (k < 53)%nat -> nth_error offsets k = Some (5 * Z.of_nat k).
Proof.
  intros Hk. unfold offsets.
  rewrite List.nth_error_map, List.nth_error_seq.
  destruct (Nat.ltb_spec k 53); [reflexivity|lia].
Qed.

Lemma offsets_nth_inv (k : nat) (o : Z) :
  nth_error offsets k = Some o -> (k < 53)%nat /\ o = 5 * Z.of_nat k.
Proof.
  intros H.
  assert (k < 53)%nat as Hk.
  { change 53%nat with (length offsets). apply List.nth_error_Some.
    now rewrite H. }
  rewrite (offsets_nth k Hk) in H. injection H as <-. now split.
Qed.

Lemma keepFirst_covers (l : list Article) (seen : list string)
    (a : Article) :
  In a l ->
  In (id a) seen \/ exists b, In b (keepFirst seen l) /\ id b = id a.
Proof.
  revert seen. induction l as [|x l IH]; intros seen Ha; [destruct Ha|].
  cbn [keepFirst].
  destruct (existsb _ seen) eqn:E.
  - destruct Ha as [->|Ha]; [left; now apply seen_true|now apply IH].
  - destruct Ha as [->|Ha]; [right; exists a; split; [now left|reflexivity]|].
    destruct (IH (seen ++ [id x])%list Ha) as [Hin|(b & Hb & Hid)].
    + apply List.in_app_or in Hin as [Hin|[Hx|[]]]; [now left|].
      right. exists x. split; [now left|exact Hx].
    + right. exists b. split; [now right|exact Hid].
Qed.

(** X8. The initial population, [scrapeArticles(true)], always returns a
    list.  Every entry of it stands on a page that arrived, and no page
    requested before that one and arrived holds an entry with the same id:
    the lowest offset wins.  No id is lost: for every entry of every page
    that arrived the list holds an entry with the same id.  The page
    numbered [k] is the one at offset [5 * k], requested as the [k]-th
    request of the call. *)
Theorem scrapeArticles_full_complete
    (cheerio_load : string -> Dom.Document)
    (page : nat -> string -> option string) (st : Scraper.State) :
  let arrives (k : nat) (html : string) :=
    page (length (requested st) + k)%nat (pageUrl (5 * Z.of_nat k)) =
      Some html in
  exists l,
    fst (scrapeArticles cheerio_load page true st) = Some l /\
    (forall b, In b l ->
       exists k html,
         (k < 53)%nat /\ arrives k html /\
         In b (parseArticles cheerio_load html) /\
         forall k' html' a,
           (k' < k)%nat -> arrives k' html' ->
           In a (parseArticles cheerio_load html') -> id a <> id b) /\
    (forall k html a,
       (k < 53)%nat -> arrives k html ->
       In a (parseArticles cheerio_load html) ->
       exists b, In b l /\ id b = id a).
Proof.
  cbv zeta. rewrite scrapeArticles_all. cbv zeta.
  destruct (fold_addPage cheerio_load page offsets [] st eq_refl)
    as (_ & _ & Hv).
  cbn [fst snd]. rewrite Hv. cbn [JsMap.values map app].
  set (n := length (requested st)).
  set (pages := pageEntries cheerio_load page n offsets).
  eexists. split; [reflexivity|]. split.
  - intros b Hb. apply (proj1 (sort_In _ _)) in Hb.
    apply (proj1 (keepFirst_In _ _ _)) in Hb
      as (_ & pre & post & Hsplit & Hpre).
    apply concat_split in Hsplit
      as (L1 & pg & L2 & p1 & p2 & HL & -> & ->).
    assert (Hk : nth_error pages (length L1) = Some (p1 ++ b :: p2)%list).
    { rewrite HL, List.nth_error_app2, Nat.sub_diag by lia. reflexivity. }
    apply pageEntries_nth in Hk as (o & Ho & Hpg).
    apply offsets_nth_inv in Ho as [Hlt ->].
    destruct (page (n + length L1)%nat _) as [html|] eqn:Hpage;
      [|now destruct p1].
    exists (length L1), html. split; [exact Hlt|]. split; [exact Hpage|].
    split; [rewrite <- Hpg; apply List.in_elt|].
    intros k' html' a Hk' Harr Ha.
    apply Hpre, List.in_or_app. left.
    apply List.in_concat. exists (parseArticles cheerio_load html').
    split; [|exact Ha].
    apply (List.nth_error_In _ k').
    rewrite <- (List.nth_error_app1 L1 ((p1 ++ b :: p2)%list :: L2) Hk'),
      <- HL.
    unfold pages.
    rewrite (pageEntries_nth_Some cheerio_load page offsets n k'
               (5 * Z.of_nat k')) by (apply offsets_nth; lia).
    now rewrite Harr.
  - intros k html a Hk Harr Ha.
    assert (Hin : In a (concat pages)).
    { apply List.in_concat. exists (parseArticles cheerio_load html).
      split; [|exact Ha].
      apply (List.nth_error_In _ k). unfold pages.
      rewrite (pageEntries_nth_Some cheerio_load page offsets n k
                 (5 * Z.of_nat k)) by (apply offsets_nth; lia).
      now rewrite Harr. }
    destruct (keepFirst_covers _ [] _ Hin) as [[]|(b & Hb & Hid)].
    exists b. split; [now apply (proj2 (sort_In _ _))|exact Hid].
Qed.
(** ** The files of the data directory *)

Import Control Storage.Disk Disks.

Lemma JsSet_has_In (s : list string) (k : string) :
  JsSet.has s k = true <-> In k s.
Proof.
  unfold JsSet.has. rewrite List.existsb_exists. split.
  - intros (x & Hx & E). apply String.eqb_eq in E. now subst.
  - intros H. exists k. split; [exact H|apply String.eqb_refl].
Qed.

Lemma JsSet_has_app (s t : list string) (k : string) :
  JsSet.has (s ++ t) k = JsSet.has s k || JsSet.has t k.
Proof. unfold JsSet.has. apply List.existsb_app. Qed.

Lemma JsSet_has_add (s : list string) (u v : string) :
  JsSet.has (JsSet.add s u) v = String.eqb v u || JsSet.has s v.
Proof.
  unfold JsSet.add. destruct (JsSet.has s u) eqn:E.
  - destruct (String.eqb_spec v u) as [->|]; [now rewrite E|reflexivity].
  - rewrite JsSet_has_app. cbn. rewrite orb_false_r. apply orb_comm.
Qed.

Lemma JsSet_has_delete (s : list string) (u v : string) :
  JsSet.has (JsSet.delete s u) v = negb (String.eqb v u) && JsSet.has s v.
Proof.
  unfold JsSet.delete, JsSet.has. induction s as [|x s IH]; cbn.
  - now rewrite andb_false_r.
  - destruct (String.eqb x u) eqn:Exu; cbn; rewrite IH.
    + apply String.eqb_eq in Exu. subst x.
      now destruct (String.eqb v u).
    + destruct (String.eqb v x) eqn:Evx; cbn; [|reflexivity].
      apply String.eqb_eq in Evx. subst x. now rewrite Exu.
Qed.

Lemma JsSet_fold_add_has (l s : list string) (v : string) :
  JsSet.has (fold_left JsSet.add l s) v = JsSet.has s v || JsSet.has l v.
Proof.
  revert s. induction l as [|x l IH]; intros s; cbn [fold_left].
  - unfold JsSet.has at 3. cbn. now rewrite orb_false_r.
  - rewrite IH, JsSet_has_add.
    change (JsSet.has (x :: l) v) with (String.eqb v x || JsSet.has l v).
    destruct (String.eqb v x), (JsSet.has s v); reflexivity.
Qed.

Lemma JsSet_has_of_array (l : list string) (v : string) :
  JsSet.has (JsSet.of_array l) v = JsSet.has l v.
Proof. unfold JsSet.of_array. now rewrite JsSet_fold_add_has. Qed.

Lemma JsSet_add_NoDup (s : list string) (u : string) :
  List.NoDup s -> List.NoDup (JsSet.add s u).
Proof.
  intros H. unfold JsSet.add. destruct (JsSet.has s u) eqn:E; [exact H|].
  apply List.NoDup_app; [exact H|repeat constructor; intros []|].
  intros x Hx [<-|[]]. apply JsSet_has_In in Hx. congruence.
Qed.

Lemma JsSet_fold_add_NoDup (l s : list string) :
  List.NoDup s -> List.NoDup (fold_left JsSet.add l s).
Proof.
  revert s. induction l as [|x l IH]; intros s H; cbn [fold_left]; [exact H|].
  now apply IH, JsSet_add_NoDup.
Qed.

(** A set read from an array of distinct elements is the array. *)
Lemma JsSet_of_array_NoDup (l : list string) :
  List.NoDup l -> JsSet.of_array l = l.
Proof.
  unfold JsSet.of_array.
  assert (G : forall s, List.NoDup (s ++ l) ->
                        fold_left JsSet.add l s = (s ++ l)%list).
  { induction l as [|x l IH]; intros s H; cbn [fold_left].
    - now rewrite List.app_nil_r.
    - assert (JsSet.has s x = false) as E.
      { destruct (JsSet.has s x) eqn:E; [|reflexivity].
        apply JsSet_has_In in E. apply List.NoDup_remove_2 in H.
        exfalso. apply H, List.in_or_app. now left. }
      unfold JsSet.add at 2. rewrite E, IH; cbn [app].
      + now rewrite <- List.app_assoc.
      + now rewrite <- List.app_assoc. }
  intros H. exact (G [] H).
Qed.


(** X9. [isUserAllowed] after [addAllowedUser] and after
    [removeAllowedUser], when the write succeeds: the user added is
    allowed, the user removed is not, and every other user is allowed
    exactly when they were before.  A file that is missing or cannot be
    read counts as an empty list. *)
Theorem allowed_users_round_trip (mkdirSync : bool)
    (writeFileSync : nat -> Written) (st : Storage.Disk.State)
    (userId other : string) (b : bool) :
  fst (isUserAllowed mkdirSync other st) = Returned b ->
  writeFileSync (writes st) = WriteOk ->
  fst (isUserAllowed mkdirSync other
         (snd (addAllowedUser mkdirSync writeFileSync userId st))) =
    Returned (String.eqb other userId || b) /\
  fst (isUserAllowed mkdirSync other
         (snd (removeAllowedUser mkdirSync writeFileSync userId st))) =
    Returned (negb (String.eqb other userId) && b).
Proof.
  storage_cases st; storage_run.
  - intros Hb Hw. destruct (ALLOWED_USERS_FILE fs) as [| |l] eqn:E;
      storage_run; rewrite Hw; storage_run.
    all: injection Hb as <-.
    all: rewrite ?JsSet_has_of_array, ?JsSet_has_add, ?JsSet_has_delete,
           ?JsSet_has_of_array; split; reflexivity.
  - destruct mkdirSync; storage_run; [|discriminate].
    intros Hb Hw. rewrite Hw. storage_run. injection Hb as <-.
    rewrite ?JsSet_has_of_array, ?JsSet_has_add, ?JsSet_has_delete.
    split; reflexivity.
Qed.

Lemma allowed_users_round_trip_witness :
  fst (isUserAllowed false "42" disk1) = Returned false /\
  fst (isUserAllowed false "42"
         (snd (addAllowedUser false written "42" disk1))) = Returned true /\
  fst (isUserAllowed false "7"
         (snd (removeAllowedUser false written "7" disk1))) = Returned false.
Proof.
  split; [reflexivity|]. split.
  - exact (proj1 (allowed_users_round_trip false written disk1 "42" "42"
                    false eq_refl eq_refl)).
  - exact (proj2 (allowed_users_round_trip false written disk1 "7" "7"
                    true eq_refl eq_refl)).
Defined.






Lemma JsObject_get_replace {V} (o : list (string * V)) (k k' : string)
    (v : V) (x : V) :
  JsObject.get o k = Some x ->
  JsObject.get (JsObject.replace o k v) k' =
  if String.eqb k' k then Some v else JsObject.get o k'.
Proof.
  induction o as [|[a y] o IH]; cbn; [discriminate|].
  destruct (String.eqb a k) eqn:Ea; cbn.
  - intros _. apply String.eqb_eq in Ea. subst a.
    destruct (String.eqb_spec k k'), (String.eqb_spec k' k); congruence.
  - intros H. rewrite (IH H).
    destruct (String.eqb a k') eqn:Ea'; [|reflexivity].
    apply String.eqb_eq in Ea'. subst a.
    now rewrite Ea.
Qed.

Lemma JsObject_get_app {V} (o o' : list (string * V)) (k : string) :
  JsObject.get (o ++ o') k =
  match JsObject.get o k with
  | Some x => Some x
  | None => JsObject.get o' k
  end.
Proof.
  induction o as [|[a y] o IH]; cbn; [reflexivity|].
  now destruct (String.eqb a k).
Qed.

Lemma JsObject_get_insertIndex {V} (o : list (string * V)) (i : Z)
    (k k' : string) (v : V) :
  JsObject.get o k = None ->
  JsObject.get (JsObject.insertIndex o i k v) k' =
  if String.eqb k' k then Some v else JsObject.get o k'.
Proof.
  induction o as [|[a y] o IH]; cbn [JsObject.insertIndex JsObject.get fst snd].
  - intros _.
    destruct (String.eqb_spec k k'), (String.eqb_spec k' k); congruence.
  - destruct (String.eqb a k) eqn:Ea; [discriminate|]. intros H.
    assert (G : JsObject.get ((k, v) :: (a, y) :: o) k' =
                if String.eqb k' k then Some v
                else if String.eqb a k' then Some y else JsObject.get o k').
    { cbn [JsObject.get fst snd].
      destruct (String.eqb_spec k k'), (String.eqb_spec k' k); congruence. }
    destruct (JsObject.arrayIndex a) as [j|]; [|exact G].
    destruct (j <? i); [|exact G].
    cbn [JsObject.get fst snd]. rewrite (IH H).
    destruct (String.eqb a k') eqn:Ea'; [|reflexivity].
    apply String.eqb_eq in Ea'. subst a.
    now rewrite Ea.
Qed.

(** Reading a property after an assignment. *)
Lemma JsObject_get_set {V} (o : list (string * V)) (k k' : string) (v : V) :
  JsObject.get (JsObject.set o k v) k' =
  if String.eqb k' k then Some v else JsObject.get o k'.
Proof.
  unfold JsObject.set. destruct (JsObject.get o k) as [x|] eqn:E.
  - now apply JsObject_get_replace with x.
  - destruct (JsObject.arrayIndex k) as [i|].
    + now apply JsObject_get_insertIndex.
    + rewrite JsObject_get_app. cbn [JsObject.get fst snd].
      destruct (String.eqb_spec k' k) as [->|Ek].
      * now rewrite E, String.eqb_refl.
      * destruct (String.eqb_spec k k'); [congruence|].
        now destruct (JsObject.get o k').
Qed.

(** X11. A preference that [setUserPreference] stored is what
    [getUserPreference] gives back for that user and key; every other
    preference reads as before, with one exception: the key "lastUpdated"
    of the user then reads as the time of the call, also when it was the
    key that was set. *)
Theorem setUserPreference_then_get (mkdirSync : bool)
    (writeFileSync : nat -> Written) (toISOString : Z -> string)
    (st : Storage.Disk.State) (userId key : string) (value : Value)
    (userId' key' : string) (defaultValue before : Value) :
  fst (getUserPreference mkdirSync userId' key' defaultValue st) =
    Returned before ->
  writeFileSync (writes st) = WriteOk ->
  fst (getUserPreference mkdirSync userId' key' defaultValue
         (snd (setUserPreference mkdirSync writeFileSync toISOString
                 userId key value st))) =
  Returned
    (if String.eqb userId' userId then
       if String.eqb key' "lastUpdated" then VStr (toISOString (clock st))
       else if String.eqb key' key then value
       else before
     else before).
Proof.
  assert (G : forall prefs : list (string * list (string * Value)),
    let prefs1 :=
      match JsObject.get prefs userId with
      | Some _ => prefs
      | None => JsObject.set prefs userId []
      end in
    let userPrefs2 :=
      JsObject.set
        (JsObject.set (default [] (JsObject.get prefs1 userId)) key value)
        "lastUpdated" (VStr (toISOString (clock st))) in
    match JsObject.get
            (default [] (JsObject.get
                           (JsObject.set prefs1 userId userPrefs2) userId'))
            key' with
    | Some v => v
    | None => defaultValue
    end =
    if String.eqb userId' userId then
      if String.eqb key' "lastUpdated" then VStr (toISOString (clock st))
      else if String.eqb key' key then value
      else match JsObject.get (default [] (JsObject.get prefs userId')) key'
           with Some v => v | None => defaultValue end
    else match JsObject.get (default [] (JsObject.get prefs userId')) key'
         with Some v => v | None => defaultValue end).
  { intros prefs prefs1 userPrefs2. rewrite JsObject_get_set.
    destruct (String.eqb userId' userId) eqn:Eu.
    - apply String.eqb_eq in Eu. subst userId'.
      cbn [default from_option Datatypes.id].
      subst userPrefs2. rewrite !JsObject_get_set.
      destruct (String.eqb key' "lastUpdated"); [reflexivity|].
      destruct (String.eqb key' key); [reflexivity|].
      subst prefs1. destruct (JsObject.get prefs userId) eqn:E;
        [now rewrite ?E|].
      rewrite JsObject_get_set, String.eqb_refl, ?E. reflexivity.
    - subst prefs1. destruct (JsObject.get prefs userId) eqn:E;
        [reflexivity|].
      now rewrite JsObject_get_set, Eu. }
  storage_cases st; storage_run.
  - intros Hb Hw. destruct (USER_PREFS_FILE fs) as [| |prefs] eqn:E;
      storage_run; rewrite Hw; storage_run; injection Hb as <-;
      f_equal; apply G.
  - destruct mkdirSync; storage_run; [|discriminate].
    intros Hb Hw. rewrite Hw. storage_run. injection Hb as <-.
    f_equal. apply (G []).
Qed.

Lemma setUserPreference_then_get_witness :
  fst (getUserPreference false "7" "reminderInterval" VNull
         (snd (setUserPreference false written stamp "7" "reminderInterval"
                 (VNum 45) disk1))) = Returned (VNum 45) /\
  fst (getUserPreference false "7" "lastUpdated" VNull
         (snd (setUserPreference false written stamp "7" "lastUpdated"
                 (VStr "never") disk1))) = Returned (VStr "1700000000000").
Proof.
  split.
  - exact (setUserPreference_then_get false written stamp disk1 "7"
             "reminderInterval" (VNum 45) "7" "reminderInterval" VNull
             (VNum 30) eq_refl eq_refl).
  - exact (setUserPreference_then_get false written stamp disk1 "7"
             "lastUpdated" (VStr "never") "7" "lastUpdated" VNull
             VNull eq_refl eq_refl).
Defined.

Lemma getNewArticles_nil (current : list Article) (seen : list string) :
  (forall a, In a current -> In (id a) seen) ->
  getNewArticles current (list_to_set seen) = [].
Proof.
  intros H. unfold getNewArticles.
  induction current as [|a current IH]; [reflexivity|].
  rewrite filter_cons. destruct (decide _) as [Hn|_].
  - exfalso. apply Hn. apply elem_of_list_to_set, list_elem_of_In, H.
    now left.
  - apply IH. intros b Hb. apply H. now right.
Qed.

Lemma getNewArticles_In (current : list Article) (seen : list string)
    (a : Article) :
  In a (getNewArticles current (list_to_set seen)) <->
  In a current /\ ~ In (id a) seen.
Proof.
  unfold getNewArticles. rewrite <- !list_elem_of_In, list_elem_of_filter.
  rewrite elem_of_list_to_set. tauto.
Qed.

Lemma fold_add_ids_has (articles : list Article) (s : list string)
    (k : string) :
  JsSet.has (fold_left (fun s article => JsSet.add s (id article))
               articles s) k =
  JsSet.has s k || JsSet.has (map id articles) k.
Proof.
  revert s. induction articles as [|a l IH]; intros s; cbn [fold_left map].
  - unfold JsSet.has at 3. cbn. now rewrite orb_false_r.
  - rewrite IH, JsSet_has_add.
    change (JsSet.has (id a :: map id l) k)
      with (String.eqb k (id a) || JsSet.has (map id l) k).
    destruct (String.eqb k (id a)), (JsSet.has s k); reflexivity.
Qed.

Lemma fold_add_ids_NoDup (articles : list Article) (s : list string) :
  List.NoDup s ->
  List.NoDup (fold_left (fun s article => JsSet.add s (id article))
                articles s).
Proof.
  revert s. induction articles as [|a l IH]; intros s H; cbn [fold_left];
    [exact H|].
  now apply IH, JsSet_add_NoDup.
Qed.


(** X12. When the articles that [getNewArticles] finds new are given to
    [markArticlesAsSeen], none of the current articles is new any more:
    not for the set in memory, which keeps all it held, and, when the
    write succeeded, not for the set that the next [loadSeenArticles]
    reads, which is that set. *)
Theorem markArticlesAsSeen_nothing_new (mkdirSync : bool)
    (writeFileSync : nat -> Written) (st : Storage.Disk.State)
    (current : list Article) (seenIds seenIds' : list string) :
  let newArticles := getNewArticles current (list_to_set seenIds) in
  let out := markArticlesAsSeen mkdirSync writeFileSync newArticles seenIds
               st in
  List.NoDup seenIds ->
  fst out = Returned seenIds' ->
  getNewArticles current (list_to_set seenIds') = [] /\
  (forall k, In k seenIds' <->
             In k seenIds \/ exists a, In a current /\ id a = k) /\
  (writeFileSync (writes st) = WriteOk ->
   fst (loadSeenArticles mkdirSync (snd out)) = Returned seenIds').
Proof.
  intros newArticles out Hnd Hout.
  set (marked := fold_left (fun s article => JsSet.add s (id article))
                   newArticles seenIds).
  assert (Hin : forall k, In k marked <->
                  In k seenIds \/ exists a, In a current /\ id a = k).
  { intros k. subst marked. rewrite <- !JsSet_has_In, fold_add_ids_has.
    rewrite orb_true_iff, !JsSet_has_In, List.in_map_iff.
    split.
    - intros [H|(a & <- & Ha)]; [now left|].
      apply getNewArticles_In in Ha as [Ha _]. right. now exists a.
    - intros [H|(a & Ha & <-)]; [now left|].
      destruct (List.in_dec String.string_dec (id a) seenIds) as [Hs|Hs];
        [now left|].
      right. exists a. split; [reflexivity|].
      now apply getNewArticles_In. }
  assert (Hm : seenIds' = marked /\
               (writeFileSync (writes st) = WriteOk ->
                fst (loadSeenArticles mkdirSync (snd out)) =
                  Returned (JsSet.of_array marked))).
  { subst out. revert Hout. fold marked.
    storage_cases st; storage_run.
    - intros [= <-]. split; [reflexivity|]. intros ->. now storage_run.
    - destruct mkdirSync; storage_run; [|discriminate].
      intros [= <-]. split; [reflexivity|]. intros ->. now storage_run. }
  destruct Hm as [-> Hload]. split; [|split; [exact Hin|]].
  - apply getNewArticles_nil. intros a Ha. apply Hin. right. now exists a.
  - intros Hw. rewrite (Hload Hw). f_equal.
    apply JsSet_of_array_NoDup, fold_add_ids_NoDup, Hnd.
Qed.

Lemma markArticlesAsSeen_nothing_new_witness :
  getNewArticles (parseArticles loadListing "news") (list_to_set ["9"; "7"])
  <> [] /\
  getNewArticles (parseArticles loadListing "news")
    (list_to_set ["9"; "7"; "12"]) = [] /\
  fst (loadSeenArticles false
         (snd (markArticlesAsSeen false written
                 (getNewArticles (parseArticles loadListing "news")
                    (list_to_set ["9"; "7"]))
                 ["9"; "7"] disk1))) = Returned ["9"; "7"; "12"].
Proof.
  split; [vm_compute; discriminate|].
  assert (Hnd : List.NoDup ["9"; "7"]).
  { repeat constructor; cbn; intuition discriminate. }
  destruct (markArticlesAsSeen_nothing_new false written disk1
              (parseArticles loadListing "news") ["9"; "7"]
              ["9"; "7"; "12"] Hnd) as (H1 & _ & H3).
  - vm_compute. reflexivity.
  - split; [exact H1|]. exact (H3 eq_refl).
Defined.

(** ** Runs of the storage functions in a directory that exists *)

Section Runs.
Variable mkdirSync : bool.
Variable writeFileSync : nat -> Written.
Variable toISOString : Z -> string.
Variable fs : Files.
Variable c : Z.
Variable n : nat.

Let st : Storage.Disk.State :=
  {| dataDir := Some fs; clock := c; writes := n |}.

Let wrote (fs' : Files) : Storage.Disk.State :=
  {| dataDir := Some fs'; clock := c; writes := S n |}.

Lemma loadAllowedUsers_run :
  loadAllowedUsers mkdirSync st =
  (Returned (JsSet.of_array (listOf (ALLOWED_USERS_FILE fs))), st).
Proof.
  subst st. storage_run. now destruct (ALLOWED_USERS_FILE fs).
Qed.

Lemma isUserAllowed_run (userId : string) :
  isUserAllowed mkdirSync userId st =
  (Returned (JsSet.has (listOf (ALLOWED_USERS_FILE fs)) userId), st).
Proof.
  subst st. storage_run.
  destruct (ALLOWED_USERS_FILE fs); storage_run;
    now rewrite ?JsSet_has_of_array.
Qed.

Lemma addAllowedUser_run (userId : string) :
  writeFileSync n = WriteOk ->
  addAllowedUser mkdirSync writeFileSync userId st =
  (Returned tt,
   wrote (with_file allowed_users_json
            (Holds (JsSet.add
                      (JsSet.of_array (listOf (ALLOWED_USERS_FILE fs)))
                      userId)) fs)).
Proof.
  intros Hw. subst st wrote. storage_run.
  destruct (ALLOWED_USERS_FILE fs); storage_run; now rewrite Hw.
Qed.

Lemma removeAllowedUser_run (userId : string) :
  writeFileSync n = WriteOk ->
  removeAllowedUser mkdirSync writeFileSync userId st =
  (Returned tt,
   wrote (with_file allowed_users_json
            (Holds (JsSet.delete
                      (JsSet.of_array (listOf (ALLOWED_USERS_FILE fs)))
                      userId)) fs)).
Proof.
  intros Hw. subst st wrote. storage_run.
  destruct (ALLOWED_USERS_FILE fs); storage_run; now rewrite Hw.
Qed.

Lemma getAccessRequests_run :
  getAccessRequests mkdirSync st =
  (Returned (listOf (ACCESS_REQUESTS_FILE fs)), st).
Proof.
  subst st. storage_run. now destruct (ACCESS_REQUESTS_FILE fs).
Qed.

Lemma addAccessRequest_run (userId : string) (username : option string)
    (name : string) :
  writeFileSync n = WriteOk ->
  addAccessRequest mkdirSync writeFileSync toISOString userId username name
    st =
  let requests := listOf (ACCESS_REQUESTS_FILE fs) in
  let request :=
    {| Disk.userId := userId;
       Disk.username :=
         match username with
         | Some u => if Js.truthy u then Some u else None
         | None => None
         end;
       Disk.name := if Js.truthy name then name else "Unknown";
       requestedAt := toISOString c |} in
  (Returned tt,
   wrote (with_file access_requests_json
            (Holds match findIndex
                           (fun r => String.eqb (Disk.userId r) userId)
                           requests with
                   | Some i => <[i := request]> requests
                   | None => (requests ++ [request])%list
                   end) fs)).
Proof.
  intros Hw. subst st wrote. cbv zeta. storage_run.
  destruct (ACCESS_REQUESTS_FILE fs) as [| |l]; cbn [listOf findIndex];
    storage_run; try (now rewrite Hw).
  destruct (findIndex _ l); storage_run; now rewrite Hw.
Qed.

Lemma removeAccessRequest_run (userId : string) :
  writeFileSync n = WriteOk ->
  removeAccessRequest mkdirSync writeFileSync userId st =
  (Returned tt,
   wrote (with_file access_requests_json
            (Holds (List.filter
                      (fun r => negb (String.eqb (Disk.userId r) userId))
                      (listOf (ACCESS_REQUESTS_FILE fs)))) fs)).
Proof.
  intros Hw. subst st wrote. storage_run.
  destruct (ACCESS_REQUESTS_FILE fs); storage_run; now rewrite Hw.
Qed.

Lemma loadSeenArticles_run :
  loadSeenArticles mkdirSync st =
  (Returned (JsSet.of_array (listOf (SEEN_ARTICLES_FILE fs))), st).
Proof.
  subst st. storage_run. now destruct (SEEN_ARTICLES_FILE fs).
Qed.

Lemma markArticlesAsSeen_run (articles : list Article)
    (seenIds : list string) :
  markArticlesAsSeen mkdirSync writeFileSync articles seenIds st =
  let seenIds' :=
    fold_left (fun s article => JsSet.add s (id article)) articles seenIds in
  (Returned seenIds',
   wrote (with_file seen_articles_json
            match writeFileSync n with
            | WriteOk => Holds seenIds'
            | WriteFailed true => SEEN_ARTICLES_FILE fs
            | WriteFailed false => Unreadable
            end fs)).
Proof. subst st wrote. cbv zeta. now storage_run. Qed.

Lemma loadUserPreferences_run :
  loadUserPreferences mkdirSync st =
  (Returned (listOf (USER_PREFS_FILE fs)), st).
Proof.
  subst st. storage_run. now destruct (USER_PREFS_FILE fs).
Qed.

Lemma getUserPreference_run (userId key : string) (defaultValue : Value) :
  getUserPreference mkdirSync userId key defaultValue st =
  (Returned
     match JsObject.get
             (default [] (JsObject.get (listOf (USER_PREFS_FILE fs)) userId))
             key with
     | Some v => v
     | None => defaultValue
     end, st).
Proof.
  subst st. storage_run. now destruct (USER_PREFS_FILE fs).
Qed.

Lemma getAllUsersWithReminders_run :
  getAllUsersWithReminders mkdirSync st =
  (Returned
     (omap (fun entry : string * list (string * Value) =>
              if Disk.truthy (JsObject.get (snd entry) "reminderEnabled") &&
                 Disk.truthy (JsObject.get (snd entry) "reminderInterval")
              then Some (fst entry,
                         default VNull
                           (JsObject.get (snd entry) "reminderInterval"))
              else None)
        (listOf (USER_PREFS_FILE fs))), st).
Proof.
  subst st. storage_run. now destruct (USER_PREFS_FILE fs).
Qed.

End Runs.

(** ** The bot *)

Import Telegram Chats.






(** X14. Only the admin changes who may use the bot.  When the sender of
    [/grant] or [/revoke] is not the admin, and nobody is when
    [ADMIN_CHAT_ID] is not set or empty, the data directory, the site and
    the allowed users stay as they are and the only call of the bot is the
    refusal sent to the chat of the sender. *)
Theorem grant_and_revoke_need_the_admin (mkdirSync : bool)
    (writeFileSync : nat -> Written) (ADMIN_CHAT_ID : option string)
    (msg : Message) (targetUserId : string) (w : World) :
  let refused :=
    (Returned tt,
     {| storage := storage w; site := site w;
        outbox := (outbox w ++
                   [SendMessage (chat_id msg)
                      "🔒 This command is for admins only." NoOptions])%list
     |}) in
  (isAdmin ADMIN_CHAT_ID (from_id msg) = true <->
   exists adminId, ADMIN_CHAT_ID = Some adminId /\ adminId <> EmptyString /\
                   from_id msg = adminId) /\
  (isAdmin ADMIN_CHAT_ID (from_id msg) = false ->
   onGrant mkdirSync writeFileSync ADMIN_CHAT_ID msg targetUserId w =
     refused /\
   onRevoke mkdirSync writeFileSync ADMIN_CHAT_ID msg targetUserId w =
     refused).
Proof.
  cbv zeta. split.
  - unfold isAdmin, getAdminChatId.
    destruct ADMIN_CHAT_ID as [[|c a]|]; cbn [Js.truthy Js.is_empty negb].
    + split; [discriminate|]. now intros (x & [= <-] & Hx & _).
    + rewrite String.eqb_eq. split.
      * intros H. exists (String c a). now repeat split.
      * now intros (x & [= <-] & _ & ->).
    + split; [discriminate|]. now intros (x & [=] & _).
  - intros Hna. unfold onGrant, onRevoke. rewrite Hna. now split.
Qed.

(** X15. When the admin sends [/grant] for a user and the writes succeed,
    that user may use the bot, the pending requests hold no request of the
    user any more and keep the others in their order, and every other
    user is allowed exactly when they were before; the admin gets a
    confirmation and the user a notice.  A later [/revoke] for the user by
    the admin ends the permission: the user may use the bot only when
    they are the admin. *)
Theorem grant_then_revoke (mkdirSync : bool)
    (writeFileSync : nat -> Written) (ADMIN_CHAT_ID : option string)
    (msg : Message) (targetUserId : string) (w : World) (fs : Files)
    (requests : list AccessRequest) :
  isAdmin ADMIN_CHAT_ID (from_id msg) = true ->
  dataDir (storage w) = Some fs ->
  (forall n, writeFileSync n = WriteOk) ->
  fst (getAccessRequests mkdirSync (storage w)) = Returned requests ->
  let w1 :=
    snd (onGrant mkdirSync writeFileSync ADMIN_CHAT_ID msg targetUserId w) in
  let w2 :=
    snd (onRevoke mkdirSync writeFileSync ADMIN_CHAT_ID msg targetUserId
           w1) in
  fst (canUseBot mkdirSync ADMIN_CHAT_ID targetUserId w1) = Returned true /\
  fst (getAccessRequests mkdirSync (storage w1)) =
    Returned (List.filter
                (fun r => negb (String.eqb (Disk.userId r) targetUserId))
                requests) /\
  (forall other, other <> targetUserId ->
     fst (isUserAllowed mkdirSync other (storage w1)) =
     fst (isUserAllowed mkdirSync other (storage w))) /\
  outbox w1 =
    (outbox w ++
     [SendMessage (chat_id msg)
        ("✅ User `" ++ targetUserId ++ "` has been granted access.")
        Markdown;
      SendMessage targetUserId
        ("🎉 Your access request has been approved! You can now use the bot."
         ++ LF ++ LF ++ "Send /start to get started.")
        NoOptions])%list /\
  fst (isUserAllowed mkdirSync targetUserId (storage w2)) =
    Returned false /\
  fst (canUseBot mkdirSync ADMIN_CHAT_ID targetUserId w2) =
    Returned (isAdmin ADMIN_CHAT_ID targetUserId).
Proof.
  intros Hadmin Hdir Hw Hreq.
  destruct w as [[d c n] s o]. cbn in Hdir. subst d.
  cbn [storage] in Hreq. rewrite getAccessRequests_run in Hreq.
  injection Hreq as <-.
  cbv zeta. unfold onGrant, onRevoke, canUseBot. rewrite Hadmin.
  cbn [negb]. bot_simpl.
  rewrite addAllowedUser_run by apply Hw. bot_simpl.
  rewrite removeAccessRequest_run by apply Hw. bot_simpl.
  rewrite removeAllowedUser_run by apply Hw. bot_simpl.
  rewrite getAccessRequests_run. bot_simpl.
  assert (Hget : forall u st,
            fst ((if isAdmin ADMIN_CHAT_ID targetUserId
                  then fun w : World => (Returned true, w)
                  else fun w : World =>
                    let '(r, st') := isUserAllowed mkdirSync u (storage w) in
                    (r, {| storage := st'; site := site w;
                           outbox := outbox w |})) st) =
            if isAdmin ADMIN_CHAT_ID targetUserId then Returned true
            else fst (isUserAllowed mkdirSync u (storage st))).
  { intros u st. destruct (isAdmin ADMIN_CHAT_ID targetUserId);
      [reflexivity|]. now destruct (isUserAllowed mkdirSync u (storage st)). }
  rewrite !Hget. bot_simpl. rewrite !isUserAllowed_run. bot_simpl.
  repeat first [rewrite JsSet_has_of_array | rewrite JsSet_has_delete
               | rewrite JsSet_has_add].
  rewrite !String.eqb_refl.
  cbn [negb andb orb].
  split; [now destruct (isAdmin ADMIN_CHAT_ID targetUserId)|].
  split; [reflexivity|]. split.
  { intros other Hne. rewrite ?isUserAllowed_run. bot_simpl.
    repeat first [rewrite JsSet_has_of_array | rewrite JsSet_has_add].
    now destruct (String.eqb_spec other targetUserId). }
  split; [now rewrite <- List.app_assoc|]. split; [reflexivity|].
  now destruct (isAdmin ADMIN_CHAT_ID targetUserId).
Qed.

Lemma grant_then_revoke_witness :
  fst (canUseBot false (Some "1") "42" world1) = Returned false /\
  fst (canUseBot false (Some "1") "42"
         (snd (onGrant false written (Some "1") (message "1" "Admin" "/grant 42")
                 "42" world1))) = Returned true /\
  fst (getAccessRequests false
         (storage (snd (onGrant false written (Some "1")
                          (message "1" "Admin" "/grant 42") "42" world1)))) =
    Returned [].
Proof.
  split; [reflexivity|].
  destruct (grant_then_revoke false written (Some "1")
              (message "1" "Admin" "/grant 42") "42" world1
              _ _ eq_refl eq_refl (fun _ => eq_refl) eq_refl)
    as (H1 & H2 & _).
  split; [exact H1|exact H2].
Defined.

(** X16. [/start] of a user who may not use the bot, when the write
    succeeds: the request of the user is stored, in place of an earlier
    request of the user if there is one, and at the end of the list
    otherwise.  Its name is the first and the last name of the sender,
    joined by a space and trimmed, and "Unknown" when that is empty.  The
    list of allowed users is not changed, and the only call of the bot is
    the refusal, which shows the id of the user.  [/start] of a user who
    may use the bot stores nothing. *)
Theorem start_logs_the_request (mkdirSync : bool)
    (writeFileSync : nat -> Written) (toISOString : Z -> string)
    (ADMIN_CHAT_ID : option string) (msg : Message) (w : World)
    (fs : Files) :
  dataDir (storage w) = Some fs ->
  writeFileSync (writes (storage w)) = WriteOk ->
  let out :=
    onStart mkdirSync writeFileSync toISOString ADMIN_CHAT_ID msg w in
  let fullName :=
    Js.trim (default EmptyString (from_first_name msg) ++ " " ++
             default EmptyString (from_last_name msg)) in
  let request :=
    {| Disk.userId := from_id msg;
       Disk.username :=
         match from_username msg with
         | Some u => if Js.truthy u then Some u else None
         | None => None
         end;
       Disk.name := if Js.truthy fullName then fullName else "Unknown";
       requestedAt := toISOString (clock (storage w)) |} in
  let requests := listOf (ACCESS_REQUESTS_FILE fs) in
  (fst (canUseBot mkdirSync ADMIN_CHAT_ID (from_id msg) w) = Returned false ->
   fst (getAccessRequests mkdirSync (storage (snd out))) =
     Returned
       match findIndex
               (fun r => String.eqb (Disk.userId r) (from_id msg))
               requests with
       | Some i => <[i := request]> requests
       | None => (requests ++ [request])%list
       end /\
   fst (loadAllowedUsers mkdirSync (storage (snd out))) =
     fst (loadAllowedUsers mkdirSync (storage w)) /\
   outbox (snd out) =
     (outbox w ++
      [SendMessage (chat_id msg)
         ("🔒 *Access Denied*" ++ LF ++ LF ++
          "Your request has been logged. An admin will review your access request."
          ++ LF ++ LF ++ "Your User ID: `" ++ from_id msg ++ "`")
         Markdown])%list) /\
  (fst (canUseBot mkdirSync ADMIN_CHAT_ID (from_id msg) w) = Returned true ->
   storage (snd out) = storage w /\
   exists text,
     outbox (snd out) =
       (outbox w ++ [SendMessage (chat_id msg) text Markdown])%list).
Proof.
  intros Hdir Hw. destruct w as [[d c n] s o]. cbn in Hdir, Hw. subst d.
  cbv zeta. unfold onStart, canUseBot.
  destruct (isAdmin ADMIN_CHAT_ID (from_id msg)) eqn:Hadmin.
  - bot_simpl. split; [discriminate|]. intros _.
    split; [reflexivity|]. now eexists.
  - bot_simpl. rewrite !isUserAllowed_run. bot_simpl.
    destruct (JsSet.has _ (from_id msg)) eqn:Hallowed; bot_simpl.
    + split; [discriminate|]. intros _. split; [reflexivity|]. now eexists.
    + split; [|discriminate]. intros _.
      rewrite addAccessRequest_run by exact Hw. bot_simpl.
      rewrite getAccessRequests_run, !loadAllowedUsers_run. bot_simpl.
      now repeat split.
Qed.

Lemma start_logs_the_request_witness :
  fst (getAccessRequests false
         (storage (snd (onStart false written stamp (Some "1")
                          (message "42" "  " "/start") world1)))) =
  Returned [ {| Disk.userId := "42"; Disk.username := None;
                Disk.name := "Unknown";
                requestedAt := "1700000000000" |} ].
Proof.
  destruct (start_logs_the_request false written stamp (Some "1")
              (message "42" "  " "/start") world1 _ eq_refl eq_refl)
    as [H _].
  destruct (H eq_refl) as (H1 & _). exact H1.
Defined.

(** ** The checks *)

Import Index.

Section CheckRuns.
Variable mkdirSync : bool.
Variable writeFileSync : nat -> Written.
Variable delivered : nat -> bool.
Variable cheerio_load : string -> Dom.Document.
Variable page : nat -> string -> option string.

Lemma notify_all (new : list Article) (users : list (string * Value))
    (w : World) :
  for_of users
    (fun user =>
       try_catch
         (sendNewArticlesNotification delivered (fst user) new)
         (ret tt)) w =
  (Returned tt,
   {| storage := storage w; site := site w;
      outbox := (outbox w ++
                 map (fun user =>
                        SendMessage (fst user) (notification new)
                          MarkdownNoPreview) users)%list |}).
Proof.
  revert w. induction users as [|u users IH]; intros w; cbn [for_of map].
  - rewrite List.app_nil_r. now destruct w.
  - unfold bind at 1. unfold try_catch, sendNewArticlesNotification, await.
    destruct (delivered (length (outbox w))); cbv [ret];
      rewrite IH; cbn [storage site outbox];
      now rewrite <- List.app_assoc.
Qed.



End CheckRuns.

Section CheckRuns2.
Variable mkdirSync : bool.
Variable writeFileSync : nat -> Written.
Variable delivered : nat -> bool.
Variable cheerio_load : string -> Dom.Document.
Variable page : nat -> string -> option string.

Lemma scrapeArticles_first_page (st : Scraper.State) :
  scrapeArticles cheerio_load page false st =
  (parseArticles cheerio_load <$>
     page (length (requested st))
          "https://www.aktuaris.or.id/page/news_nextpage/",
   {| requested :=
        (requested st ++
         ["https://www.aktuaris.or.id/page/news_nextpage/"])%list |}).
Proof.
  unfold scrapeArticles, fetchNewsPage.
  change (pageUrl 0) with "https://www.aktuaris.or.id/page/news_nextpage/".
  destruct (page _ _) as [html|]; cbn; [|reflexivity].
  f_equal. f_equal. rewrite fold_set_fresh.
  - cbn [JsMap.values map app].
    apply sort_of_sorted, parseArticles_sorted.
  - reflexivity.
  - apply parseArticles_NoDup.
Qed.

Variable fs : Files.
Variable c : Z.
Variable n : nat.
Variable s : Scraper.State.
Variable o : list Call.

Let w : World :=
  {| storage := {| dataDir := Some fs; clock := c; writes := n |};
     site := s; outbox := o |}.

Let seen : list string := JsSet.of_array (listOf (SEEN_ARTICLES_FILE fs)).

(** A check that reads the first page only. *)
Lemma checkForUpdates_regular (isFirstRun : bool)
    (userId : option string) :
  isFirstRun && (length seen =? 0)%nat = false ->
  checkForUpdates mkdirSync writeFileSync delivered cheerio_load page
    isFirstRun userId w =
  (Returned tt,
   let site' :=
     {| requested :=
          (requested s ++
           ["https://www.aktuaris.or.id/page/news_nextpage/"])%list |} in
   match page (length (requested s))
              "https://www.aktuaris.or.id/page/news_nextpage/" with
   | None => {| storage := storage w; site := site'; outbox := o |}
   | Some html =>
       let new :=
         getNewArticles (parseArticles cheerio_load html)
           (list_to_set seen) in
       match new with
       | [] => {| storage := storage w; site := site'; outbox := o |}
       | _ :: _ =>
           {| storage :=
                {| dataDir :=
                     Some (with_file seen_articles_json
                             match writeFileSync n with
                             | WriteOk =>
                                 Holds (fold_left
                                          (fun s article =>
                                             JsSet.add s (id article))
                                          new seen)
                             | WriteFailed true => SEEN_ARTICLES_FILE fs
                             | WriteFailed false => Unreadable
                             end fs);
                   clock := c; writes := S n |};
              site := site';
              outbox :=
                (o ++ announced new (reminded (listOf (USER_PREFS_FILE fs))))%list
           |}
       end
   end).
Proof.
  intros Hreg. subst w. unfold checkForUpdates.
  unfold try_catch at 1. unfold bind at 1. unfold onStorage at 1.
  cbn [storage].
  rewrite loadSeenArticles_run. fold seen. cbv beta iota zeta.
  rewrite Hreg. unfold bind at 1. unfold scrape. cbn [site storage outbox].
  rewrite scrapeArticles_first_page.
  destruct (page _ _) as [html|]; cbn [fmap option_fmap option_map];
    [|reflexivity].
  destruct (getNewArticles _ _) as [|a new] eqn:Hnew; [reflexivity|].
  change (0 <? length (a :: new))%nat with true. cbv iota.
  unfold bind at 1.
  unfold onStorage at 1. cbn [storage].
  rewrite getAllUsersWithReminders_run. cbv beta iota zeta.
  fold (reminded (listOf (USER_PREFS_FILE fs))).
  set (users := reminded _).
  assert (Hloop :
    (if (0 <? length users)%nat
     then for_of users
            (fun user =>
               try_catch
                 (sendNewArticlesNotification delivered (fst user)
                    (a :: new))
                 (ret tt))
     else ret tt)
      {| storage := {| dataDir := Some fs; clock := c; writes := n |};
         site :=
           {| requested :=
                (requested s ++
                 ["https://www.aktuaris.or.id/page/news_nextpage/"])%list |};
         outbox := o |} =
    (Returned tt,
     {| storage := {| dataDir := Some fs; clock := c; writes := n |};
        site :=
          {| requested :=
               (requested s ++
                ["https://www.aktuaris.or.id/page/news_nextpage/"])%list |};
        outbox := (o ++ announced (a :: new) users)%list |})).
  { destruct users as [|u users].
    - cbn. now rewrite List.app_nil_r.
    - cbn [length Nat.ltb Nat.leb]. now rewrite notify_all. }
  unfold bind. cbn [storage site outbox]. rewrite Hloop.
  unfold onStorage. cbn [storage site outbox].
  rewrite markArticlesAsSeen_run. reflexivity.
Qed.
End CheckRuns2.

Lemma world_eta (w : World) :
  w = {| storage := {| dataDir := dataDir (storage w);
                       clock := clock (storage w);
                       writes := writes (storage w) |};
         site := site w; outbox := outbox w |}.
Proof. now destruct w as [[d c n] s o]. Qed.





Lemma marked_covers (current : list Article) (seen : list string)
    (b : Article) :
  In b current ->
  In (id b)
     (fold_left (fun s article => JsSet.add s (id article))
        (getNewArticles current (list_to_set seen)) seen).
Proof.
  intros Hb. apply JsSet_has_In. rewrite fold_add_ids_has.
  apply orb_true_iff.
  destruct (List.in_dec String.string_dec (id b) seen) as [Hs|Hs].
  - left. now apply JsSet_has_In.
  - right. apply JsSet_has_In, List.in_map. now apply getNewArticles_In.
Qed.

(** X19. No article is announced twice by two regular checks in a row.
    When the first check read its page and its write succeeded, whatever
    page the second check reads, the articles that it announces, to the
    same users, are articles of its page with ids that did not occur on
    the page of the first check. *)
Theorem checkForUpdates_announces_once (mkdirSync : bool)
    (writeFileSync : nat -> Written) (delivered : nat -> bool)
    (cheerio_load : string -> Dom.Document)
    (page : nat -> string -> option string)
    (userId userId' : option string) (w : World) (fs : Files)
    (users : list (string * Value)) (html : string) :
  dataDir (storage w) = Some fs ->
  fst (getAllUsersWithReminders mkdirSync (storage w)) = Returned users ->
  writeFileSync (writes (storage w)) = WriteOk ->
  page (length (requested (site w)))
       "https://www.aktuaris.or.id/page/news_nextpage/" = Some html ->
  let check := checkForUpdates mkdirSync writeFileSync delivered
                 cheerio_load page false in
  let w1 := snd (check userId w) in
  let w2 := snd (check userId' w1) in
  exists new,
    outbox w2 = (outbox w1 ++ announced new users)%list /\
    forall a, In a new ->
      (exists html', In a (parseArticles cheerio_load html')) /\
      forall b, In b (parseArticles cheerio_load html) -> id a <> id b.
Proof.
  intros Hdir Husers Hw Hpage. rewrite (world_eta w) in *.
  cbn [storage dataDir writes site outbox] in *. rewrite Hdir in *.
  rewrite getAllUsersWithReminders_run in Husers.
  injection Husers as Husers.
  fold (reminded (listOf (USER_PREFS_FILE fs))) in Husers.
  cbv zeta. rewrite (checkForUpdates_regular _ _ _ _ _ fs) by reflexivity.
  rewrite Hpage, Hw. cbn [snd].
  set (seen := JsSet.of_array (listOf (SEEN_ARTICLES_FILE fs))).
  assert (Hnd : List.NoDup seen)
    by (apply JsSet_fold_add_NoDup, List.NoDup_nil).
  set (current := parseArticles cheerio_load html).
  assert (Hafter : forall seen2 html2,
    (forall b, In b current -> In (id b) seen2) ->
    forall a, In a (getNewArticles (parseArticles cheerio_load html2)
                      (list_to_set seen2)) ->
      (exists html', In a (parseArticles cheerio_load html')) /\
      forall b, In b current -> id a <> id b).
  { intros seen2 html2 Hcov a Ha. apply getNewArticles_In in Ha as [Ha Hn].
    split; [now exists html2|]. intros b Hb E. apply Hn. rewrite E.
    now apply Hcov. }
  destruct (getNewArticles current (list_to_set seen)) as [|a1 new1] eqn:Hnew.
  - cbn [snd storage].
    rewrite (checkForUpdates_regular _ _ _ _ _ fs) by reflexivity.
    cbn [snd requested outbox]. fold seen.
    match goal with
    | |- context [page (length (?l ++ ?x)%list) ?u] =>
        destruct (page (length (l ++ x)%list) u) as [html2|]
    end.
    + cbv zeta.
      remember (getNewArticles (parseArticles cheerio_load html2) _)
        as new2 eqn:E2.
      exists new2. split.
      * rewrite Husers.
        destruct new2; cbn [outbox announced]; now rewrite ?List.app_nil_r.
      * rewrite E2. apply (Hafter seen html2). intros b Hb.
        pose proof (marked_covers current seen b Hb) as Hc.
        now rewrite Hnew in Hc.
    + exists []. split; [now rewrite List.app_nil_r|]. intros a [].
  - set (seen1 := fold_left _ (a1 :: new1) seen).
    assert (Hnd1 : List.NoDup seen1) by (apply fold_add_ids_NoDup, Hnd).
    cbn [snd storage].
    rewrite (checkForUpdates_regular _ _ _ _ _
               (with_file seen_articles_json (Holds seen1) fs))
      by reflexivity.
    cbn [snd requested outbox]. bot_simpl.
    rewrite (JsSet_of_array_NoDup _ Hnd1).
    match goal with
    | |- context [page (length (?l ++ ?x)%list) ?u] =>
        destruct (page (length (l ++ x)%list) u) as [html2|]
    end.
    + cbv zeta.
      remember (getNewArticles (parseArticles cheerio_load html2) _)
        as new2 eqn:E2.
      exists new2. split.
      * rewrite Husers.
        destruct new2; cbn [outbox announced]; now rewrite ?List.app_nil_r.
      * rewrite E2. apply (Hafter seen1 html2). intros b Hb.
        subst seen1. rewrite <- Hnew. now apply marked_covers.
    + exists []. split; [now rewrite List.app_nil_r|]. intros a [].
Qed.

Lemma checkForUpdates_announces_once_witness :
  exists new,
    outbox (snd (checkForUpdates false written reached loadListing newsPage
                   false None
                   (snd (checkForUpdates false written reached loadListing
                           newsPage false None world1)))) =
    (outbox (snd (checkForUpdates false written reached loadListing newsPage
                    false None world1)) ++
     announced new [("7", VNum 30)])%list /\
    forall a, In a new ->
      (exists html', In a (parseArticles loadListing html')) /\
      forall b, In b (parseArticles loadListing "news") -> id a <> id b.
Proof.
  exact (checkForUpdates_announces_once false written reached loadListing
           newsPage None None world1 _ [("7", VNum 30)] "news"
           eq_refl eq_refl eq_refl eq_refl).
Defined.




Section Schedule.
Variable StringToNumber : string -> option Z.
Variable now : Z.

End Schedule.


(** ** The login flow and the reminders *)

Lemma assigned_pref (stamp : string)
    (prefs : list (string * list (string * Value)))
    (userId key : string) (value : Value) (userId' key' : string) :
  pref (assigned stamp prefs userId key value) userId' key' =
  if String.eqb userId' userId then
    if String.eqb key' "lastUpdated" then Some (VStr stamp)
    else if String.eqb key' key then Some value
    else pref prefs userId key'
  else pref prefs userId' key'.
Proof.
  unfold pref, assigned. rewrite JsObject_get_set.
  destruct (String.eqb userId' userId) eqn:Eu.
  - cbn [default from_option Datatypes.id]. rewrite !JsObject_get_set.
    destruct (String.eqb key' "lastUpdated"); [reflexivity|].
    destruct (String.eqb key' key); [reflexivity|].
    destruct (JsObject.get prefs userId) eqn:E; [now rewrite ?E|].
    now rewrite JsObject_get_set, String.eqb_refl, ?E.
  - destruct (JsObject.get prefs userId) eqn:E; [reflexivity|].
    now rewrite JsObject_get_set, Eu.
Qed.

Section FlowRuns.
Variable mkdirSync : bool.
Variable writeFileSync : nat -> Written.
Variable toISOString : Z -> string.
Variable ADMIN_CHAT_ID : option string.
Variable fs : Files.
Variable c : Z.
Variable n : nat.
Variable s : Scraper.State.
Variable o : list Call.

Let st : Storage.Disk.State :=
  {| dataDir := Some fs; clock := c; writes := n |}.

Let prefs : list (string * list (string * Value)) :=
  listOf (USER_PREFS_FILE fs).

Lemma setUserPreference_run (userId key : string) (value : Value) :
  writeFileSync n = WriteOk ->
  setUserPreference mkdirSync writeFileSync toISOString userId key value
    st =
  (Returned tt,
   {| dataDir :=
        Some (with_file user_preferences_json
                (Holds (assigned (toISOString c) prefs userId key value))
                fs);
      clock := c; writes := S n |}).
Proof.
  intros Hw. subst st prefs. unfold assigned. storage_run.
  destruct (USER_PREFS_FILE fs); storage_run; now rewrite Hw.
Qed.

Lemma getUserPreference_pref (userId key : string) (defaultValue : Value) :
  getUserPreference mkdirSync userId key defaultValue st =
  (Returned (default defaultValue (pref prefs userId key)), st).
Proof.
  subst st prefs. rewrite getUserPreference_run. unfold pref.
  now destruct (JsObject.get _ key).
Qed.

Lemma canUseBot_run (userId : string) :
  canUseBot mkdirSync ADMIN_CHAT_ID userId
    {| storage := st; site := s; outbox := o |} =
  (Returned (isAdmin ADMIN_CHAT_ID userId ||
             JsSet.has (listOf (ALLOWED_USERS_FILE fs)) userId),
   {| storage := st; site := s; outbox := o |}).
Proof.
  subst st. unfold canUseBot.
  destruct (isAdmin ADMIN_CHAT_ID userId); [reflexivity|].
  unfold onStorage. cbn [storage]. now rewrite isUserAllowed_run.
Qed.
End FlowRuns.
Section Flow.
Variable mkdirSync : bool.
Variable writeFileSync : nat -> Written.
Variable toISOString : Z -> string.
Variable ADMIN_CHAT_ID : option string.
Variable delivered : nat -> bool.
Hypothesis Hw : forall n, writeFileSync n = WriteOk.
Variable fs : Files.
Variable c : Z.
Variable n : nat.
Variable s : Scraper.State.
Variable o : list Call.
Variable msg : Message.

Let w : World :=
  {| storage := {| dataDir := Some fs; clock := c; writes := n |};
     site := s; outbox := o |}.

Let prefs : list (string * list (string * Value)) :=
  listOf (USER_PREFS_FILE fs).

Let u : string := from_id msg.

(** The world after [k] writes that left the preferences [prefs'] and
    after the calls [calls] of the bot. *)
Let after (k : nat) (prefs' : list (string * list (string * Value)))
    (calls : list Call) : World :=
  {| storage :=
       {| dataDir :=
            Some (with_file user_preferences_json (Holds prefs') fs);
          clock := c; writes := (k + n)%nat |};
     site := s; outbox := (o ++ calls)%list |}.

Lemma onSetpai_starts :
  isAdmin ADMIN_CHAT_ID u || JsSet.has (listOf (ALLOWED_USERS_FILE fs)) u =
    true ->
  truthy (pref prefs u "paiEmail") = false ->
  onSetpai mkdirSync writeFileSync toISOString ADMIN_CHAT_ID msg None w =
  (Returned tt,
   after 1 (assigned (toISOString c) prefs u "paiLoginStep" (VStr "email"))
     [SendMessage (chat_id msg)
        ("📧 *PAI Login Setup*" ++ LF ++ LF ++ "Please enter your *email*:")
        Markdown]).
Proof.
  intros Hcan Hnone. subst w after. unfold onSetpai. fold u.
  cbn [trimmed given andb negb]. bot_simpl.
  rewrite canUseBot_run, Hcan. flow_simpl.
  rewrite getUserPreference_pref. fold prefs.
  assert (Hd : truthy (Some (default VNull (pref prefs u "paiEmail"))) =
               false).
  { now destruct (pref prefs u "paiEmail") as [v|]. }
  flow_simpl. rewrite Hd. flow_simpl.
  rewrite setUserPreference_run by apply Hw. flow_simpl. reflexivity.
Qed.

Lemma onMessage_email (text : string) :
  msg_text msg = Some text -> text <> EmptyString ->
  Js.startsWith text "/" = false ->
  pref prefs u "paiLoginStep" = Some (VStr "email") ->
  onMessage mkdirSync writeFileSync toISOString delivered msg w =
  (Returned tt,
   after 2
     (assigned (toISOString c)
        (assigned (toISOString c) prefs u "paiTempEmail"
           (VStr (Js.trim text)))
        u "paiLoginStep" (VStr "password"))
     [SendMessage (chat_id msg)
        ("🔐 Email: `" ++ Js.trim text ++ "`" ++ LF ++ LF ++
         "Now enter your *password*:" ++ LF ++ LF ++
         "_⚠️ Your message will be deleted for security_")
        Markdown]).
Proof.
  intros Ht He Hs Hstep. subst w after. unfold onMessage. fold u.
  rewrite Ht. assert (Hg : given (Some text) = true) by now destruct text.
  rewrite Hg. flow_simpl. rewrite Hs. flow_simpl.
  rewrite getUserPreference_pref. fold prefs. rewrite Hstep. flow.
  repeat (rewrite setUserPreference_run by apply Hw; flow_simpl).
  reflexivity.
Qed.

Lemma onMessage_password (text : string) (email : Value) :
  msg_text msg = Some text -> text <> EmptyString ->
  Js.startsWith text "/" = false ->
  pref prefs u "paiLoginStep" = Some (VStr "password") ->
  default VNull (pref prefs u "paiTempEmail") = email ->
  onMessage mkdirSync writeFileSync toISOString delivered msg w =
  (Returned tt,
   let delete := DeleteMessage (chat_id msg) (message_id msg) in
   let save := assigned (toISOString c) in
   if truthy (Some email) then
     after 4
       (save (save (save (save prefs u "paiEmail" email)
                      u "paiPassword" (VStr (Js.trim text)))
                u "paiTempEmail" VNull)
          u "paiLoginStep" VNull)
       [delete;
        SendMessage (chat_id msg)
          ("✅ *PAI Credentials Saved*" ++ LF ++ LF ++
           "Email: `" ++ toString email ++ "`" ++ LF ++ LF ++
           "Use /examstatus to check your exams.")
          Markdown]
   else
     after 1 (save prefs u "paiLoginStep" VNull)
       [delete;
        SendMessage (chat_id msg)
          "❌ Something went wrong. Please start again with /setpai"
          NoOptions]).
Proof.
  intros Ht He Hs Hstep Hmail. subst w after. unfold onMessage. fold u.
  rewrite Ht. assert (Hg : given (Some text) = true) by now destruct text.
  rewrite Hg. flow_simpl. rewrite Hs. flow_simpl.
  rewrite getUserPreference_pref. fold prefs. rewrite Hstep. flow.
  destruct (delivered _); flow_simpl;
    rewrite getUserPreference_pref; fold prefs; rewrite Hmail;
    flow_simpl; cbv zeta;
    (destruct email as [|[|]|z|[|x e]]; flow;
     try (destruct (z =? 0); flow);
     repeat (rewrite setUserPreference_run by apply Hw; flow_simpl);
     now rewrite <- ?List.app_assoc).
Qed.
End Flow.
(** X21. The login flow.  A user who may use the bot and has no stored
    email sends [/setpai], then a message with the email, then a message
    with the password; the messages are no commands and all writes
    succeed.  Afterwards the stored email and password are the trimmed
    texts of the two messages, the step and the temporary email are
    cleared, and the bot was asked to delete the message with the
    password.  When the message with the email is white space only, the
    flow ends at the third message without storing credentials. *)
Theorem login_flow_stores_credentials (mkdirSync : bool)
    (writeFileSync : nat -> Written) (toISOString : Z -> string)
    (ADMIN_CHAT_ID : option string) (delivered : nat -> bool)
    (setpai emailMsg passwordMsg : Message) (email password : string)
    (w : World) (fs : Files) :
  dataDir (storage w) = Some fs ->
  (forall n, writeFileSync n = WriteOk) ->
  fst (canUseBot mkdirSync ADMIN_CHAT_ID (from_id setpai) w) =
    Returned true ->
  fst (getUserPreference mkdirSync (from_id setpai) "paiEmail" VNull
         (storage w)) = Returned VNull ->
  from_id emailMsg = from_id setpai ->
  from_id passwordMsg = from_id setpai ->
  msg_text emailMsg = Some email -> email <> EmptyString ->
  Js.startsWith email "/" = false ->
  msg_text passwordMsg = Some password -> password <> EmptyString ->
  Js.startsWith password "/" = false ->
  let w1 :=
    snd (onSetpai mkdirSync writeFileSync toISOString ADMIN_CHAT_ID setpai
           None w) in
  let w2 :=
    snd (onMessage mkdirSync writeFileSync toISOString delivered emailMsg
           w1) in
  let w3 :=
    snd (onMessage mkdirSync writeFileSync toISOString delivered
           passwordMsg w2) in
  let read key :=
    fst (getUserPreference mkdirSync (from_id setpai) key VNull
           (storage w3)) in
  read "paiLoginStep" = Returned VNull /\
  if Js.truthy (Js.trim email) then
    read "paiEmail" = Returned (VStr (Js.trim email)) /\
    read "paiPassword" = Returned (VStr (Js.trim password)) /\
    read "paiTempEmail" = Returned VNull /\
    In (DeleteMessage (chat_id passwordMsg) (message_id passwordMsg))
       (outbox w3)
  else
    read "paiEmail" = Returned VNull /\
    read "paiPassword" =
      fst (getUserPreference mkdirSync (from_id setpai) "paiPassword" VNull
             (storage w)).
Proof.
  intros Hdir Hw Hcan Hnone Hu1 Hu2 Ht1 He1 Hs1 Ht2 He2 Hs2.
  rewrite (world_eta w) in *.
  cbn [storage dataDir writes site outbox clock] in *. rewrite Hdir in *.
  rewrite canUseBot_run in Hcan. injection Hcan as Hcan.
  rewrite getUserPreference_pref in Hnone. injection Hnone as Hnone.
  set (u := from_id setpai) in *.
  set (prefs := listOf (USER_PREFS_FILE fs)) in *.
  set (stamp := toISOString (clock (storage w))).
  assert (Hfalsy : truthy (pref prefs u "paiEmail") = false).
  { destruct (pref prefs u "paiEmail") as [v|]; [|reflexivity].
    cbn in Hnone. now subst v. }
  cbv zeta.
  rewrite (onSetpai_starts mkdirSync writeFileSync toISOString
             ADMIN_CHAT_ID Hw fs _ _ _ _ setpai Hcan Hfalsy).
  cbn [snd]. fold u prefs stamp.
  rewrite (onMessage_email mkdirSync writeFileSync toISOString delivered
             Hw _ _ _ _ _ emailMsg email Ht1 He1 Hs1).
  2:{ cbn [listOf USER_PREFS_FILE with_file user_preferences_json].
      rewrite Hu1. fold u. rewrite assigned_pref, String.eqb_refl.
      reflexivity. }
  cbn [snd listOf USER_PREFS_FILE with_file user_preferences_json clock].
  rewrite Hu1. fold u stamp.
  set (prefs2 := assigned stamp (assigned stamp _ u "paiTempEmail" _) _ _ _).
  rewrite (onMessage_password mkdirSync writeFileSync toISOString delivered
             Hw _ _ _ _ _ passwordMsg password (VStr (Js.trim email))
             Ht2 He2 Hs2).
  2:{ cbn [listOf USER_PREFS_FILE with_file user_preferences_json].
      rewrite Hu2. fold u. subst prefs2.
      rewrite assigned_pref, String.eqb_refl. reflexivity. }
  2:{ cbn [listOf USER_PREFS_FILE with_file user_preferences_json].
      rewrite Hu2. fold u. subst prefs2.
      rewrite !assigned_pref, !String.eqb_refl. reflexivity. }
  cbn [snd listOf USER_PREFS_FILE with_file user_preferences_json clock
       truthy]. rewrite Hu2. fold u stamp. cbv zeta.
  destruct (Js.truthy (Js.trim email)); cbn [storage outbox];
    rewrite !getUserPreference_pref;
    cbn [fst listOf USER_PREFS_FILE with_file user_preferences_json];
    fold prefs; subst prefs2;
    rewrite !assigned_pref, !String.eqb_refl; flow_keys;
    rewrite ?Hnone; repeat split; try reflexivity.
  apply List.in_or_app. right. now left.
Qed.

Lemma login_flow_stores_credentials_witness :
  let w1 :=
    snd (onSetpai false written stamp (Some "1") (message "7" "Sari" "/setpai")
           None world1) in
  let w2 :=
    snd (onMessage false written stamp reached
           (message "7" "Sari" " sari@example.org ") w1) in
  let w3 :=
    snd (onMessage false written stamp reached
           (message "7" "Sari" "rahasia") w2) in
  fst (getUserPreference false "7" "paiEmail" VNull (storage w3)) =
    Returned (VStr "sari@example.org") /\
  fst (getUserPreference false "7" "paiPassword" VNull (storage w3)) =
    Returned (VStr "rahasia").
Proof.
  destruct (login_flow_stores_credentials false written stamp (Some "1")
              reached (message "7" "Sari" "/setpai")
              (message "7" "Sari" " sari@example.org ")
              (message "7" "Sari" "rahasia") " sari@example.org " "rahasia"
              world1 _ eq_refl (fun _ => eq_refl) eq_refl eq_refl eq_refl
              eq_refl eq_refl ltac:(discriminate) eq_refl eq_refl
              ltac:(discriminate) eq_refl)
    as (_ & H).
  change (Js.truthy (Js.trim " sari@example.org ")) with true in H.
  cbv iota in H. destruct H as (H1 & H2 & _).
  change (Js.trim " sari@example.org ") with "sari@example.org" in H1.
  change (Js.trim "rahasia") with "rahasia" in H2.
  split; [exact H1 | exact H2].
Defined.
(** ** The interval of the reminders *)

Lemma toLowerCase_digits (s : string) :
  every is_digit s = true -> Js.toLowerCase s = s.
Proof.
  induction s as [|c s IH]; [reflexivity|]. cbn [every Js.toLowerCase].
  intros H. apply andb_prop in H as [Hc Hs]. rewrite (IH Hs). f_equal.
  destruct c as [[] [] [] [] [] [] [] []]; try discriminate; reflexivity.
Qed.

Lemma digits_not_off (s : string) :
  every is_digit s = true -> String.eqb (Js.toLowerCase s) "off" = false.
Proof.
  intros H. rewrite (toLowerCase_digits s H).
  destruct s as [|c s]; [reflexivity|]. cbn [every] in H.
  apply andb_prop in H as [Hc _].
  destruct c as [[] [] [] [] [] [] [] []]; try discriminate; reflexivity.
Qed.

(** The integer of the Number of an integer below 2^53 is that integer. *)
Lemma toInteger_decimal (v : Z) :
  0 <= v < 2 ^ 53 -> toInteger (Number.decimal false v 0) = v.
Proof.
  intros Hv. unfold Number.decimal. cbn [Z.leb Z.compare].
  rewrite Z.pow_0_r, Z.mul_1_r.
  destruct v as [|p|p]; [reflexivity| |lia]. cbn [Z.leb Z.compare Z.to_pos].
  destruct (binary_round_small p) as (Hd & m & -> & Hm); [lia|].
  cbn [toInteger]. rewrite Hm.
  destruct (0 <=? Z.pos (digits2_pos p) - 53) eqn:E.
  - apply Z.leb_le in E.
    replace (Z.pos (digits2_pos p) - 53) with 0 by lia.
    replace (53 - Z.pos (digits2_pos p)) with 0 by lia. cbn. lia.
  - replace (- (Z.pos (digits2_pos p) - 53))
      with (53 - Z.pos (digits2_pos p)) by lia.
    apply Z.div_mul. apply Z.pow_nonzero; lia.
Qed.

Lemma isNaN_decimal (v : Z) :
  0 <= v < 2 ^ 53 -> isNaN (Number.decimal false v 0) = false.
Proof.
  intros Hv. unfold Number.decimal. cbn [Z.leb Z.compare].
  rewrite Z.pow_0_r, Z.mul_1_r.
  destruct v as [|p|p]; [reflexivity| |lia]. cbn [Z.leb Z.compare Z.to_pos].
  destruct (binary_round_small p) as (_ & m & -> & _); [lia|]. reflexivity.
Qed.

Lemma ltb_decimal (a b : Z) :
  0 <= a < 2 ^ 53 -> 0 <= b < 2 ^ 53 ->
  SFltb (Number.decimal false a 0) (Number.decimal false b 0) = (a <? b).
Proof.
  intros Ha Hb. unfold SFltb. rewrite compare_decimal by assumption.
  unfold Z.ltb. now destruct (a ?= b).
Qed.

(** What [/reminder] makes of an argument that is a run of at most 15
    digits: the value of the digits, which it rejects outside of 10 to
    1440. *)
Lemma reminder_minutes (arg : string) :
  every is_digit arg = true -> arg <> EmptyString ->
  (String.length arg <= 15)%nat ->
  let minutes := parseInt arg in
  let v := digits_value 0 arg in
  isNaN minutes || SFltb minutes (Number.of_Z 10) ||
    SFltb (Number.of_Z 1440) minutes = negb ((10 <=? v) && (v <=? 1440)) /\
  toInteger minutes = v.
Proof.
  intros Hd Hne Hlen. cbv zeta. rewrite (parseInt_digits arg Hd Hne).
  pose proof (digits_value_bound arg 0 Hd ltac:(lia)) as Hb.
  assert (10 ^ Z.of_nat (String.length arg) <= 10 ^ 15)
    by (apply Z.pow_le_mono_r; lia).
  assert (Hv : 0 <= digits_value 0 arg < 2 ^ 53) by lia.
  change (Number.of_Z 10) with (Number.decimal false 10 0).
  change (Number.of_Z 1440) with (Number.decimal false 1440 0).
  rewrite isNaN_decimal, !ltb_decimal, toInteger_decimal by lia.
  split; [|reflexivity]. cbn [orb]. rewrite negb_andb.
  f_equal; [rewrite Z.leb_antisym | rewrite Z.leb_antisym];
    now rewrite negb_involutive.
Qed.

Section Reminders.
Variable mkdirSync : bool.
Variable writeFileSync : nat -> Written.
Variable toISOString : Z -> string.
Variable ADMIN_CHAT_ID : option string.
Hypothesis Hw : forall n, writeFileSync n = WriteOk.
Variable fs : Files.
Variable c : Z.
Variable n : nat.
Variable s : Scraper.State.
Variable o : list Call.
Variable msg : Message.

Let w : World :=
  {| storage := {| dataDir := Some fs; clock := c; writes := n |};
     site := s; outbox := o |}.

Let prefs : list (string * list (string * Value)) :=
  listOf (USER_PREFS_FILE fs).

Let u : string := from_id msg.

Let stamp : string := toISOString c.

Lemma onReminder_off (capture : option string) (arg : string) :
  isAdmin ADMIN_CHAT_ID u || JsSet.has (listOf (ALLOWED_USERS_FILE fs)) u =
    true ->
  trimmed capture = Some arg -> arg <> EmptyString ->
  String.eqb (Js.toLowerCase arg) "off" = true ->
  storage (snd (onReminder mkdirSync writeFileSync toISOString
                  ADMIN_CHAT_ID msg capture w)) =
  {| dataDir :=
       Some (with_file user_preferences_json
               (Holds (assigned stamp prefs u "reminderEnabled"
                         (VBool false))) fs);
     clock := c; writes := S n |}.
Proof.
  intros Hcan Harg Hne Hoff. subst w stamp. unfold onReminder. fold u.
  rewrite Harg. bot_simpl. rewrite canUseBot_run, Hcan. flow_simpl.
  rewrite getUserPreference_pref. flow_simpl.
  rewrite getUserPreference_pref. flow_simpl.
  assert (Hg : Js.truthy arg = true) by (now destruct arg).
  rewrite Hg, Hoff. flow_simpl.
  rewrite setUserPreference_run by apply Hw. flow_simpl. reflexivity.
Qed.

Lemma onReminder_minutes (capture : option string) (arg : string) :
  isAdmin ADMIN_CHAT_ID u || JsSet.has (listOf (ALLOWED_USERS_FILE fs)) u =
    true ->
  trimmed capture = Some arg ->
  every is_digit arg = true -> arg <> EmptyString ->
  (String.length arg <= 15)%nat ->
  let v := digits_value 0 arg in
  storage (snd (onReminder mkdirSync writeFileSync toISOString
                  ADMIN_CHAT_ID msg capture w)) =
  if (10 <=? v) && (v <=? 1440) then
    {| dataDir :=
         Some (with_file user_preferences_json
                 (Holds (assigned stamp
                           (assigned stamp prefs u "reminderInterval"
                              (VNum v))
                           u "reminderEnabled" (VBool true))) fs);
       clock := c; writes := S (S n) |}
  else storage w.
Proof.
  intros Hcan Harg Hd Hne Hlen v. subst w stamp. unfold onReminder. fold u.
  rewrite Harg. bot_simpl. rewrite canUseBot_run, Hcan. flow_simpl.
  rewrite getUserPreference_pref. flow_simpl.
  rewrite getUserPreference_pref. flow_simpl.
  assert (Hg : Js.truthy arg = true) by (now destruct arg).
  rewrite Hg, (digits_not_off arg Hd). flow_simpl.
  destruct (reminder_minutes arg Hd Hne Hlen) as [-> ->]. fold v.
  destruct ((10 <=? v) && (v <=? 1440)); cbn [negb]; flow_simpl;
    [|reflexivity].
  rewrite setUserPreference_run by apply Hw. flow_simpl.
  rewrite setUserPreference_run by apply Hw. flow_simpl. reflexivity.
Qed.

End Reminders.

(** The keys of an object. *)
Lemma JsObject_get_None {V} (o : list (string * V)) (k : string) :
  JsObject.get o k = None <-> ~ In k (map fst o).
Proof.
  induction o as [|[a y] o IH]; cbn [JsObject.get map fst snd In].
  - tauto.
  - destruct (String.eqb_spec a k) as [->|E].
    + split; [discriminate|]. intros H. exfalso. apply H. now left.
    + rewrite IH. tauto.
Qed.

Lemma JsObject_get_In {V} (o : list (string * V)) (k : string) (v : V) :
  JsObject.get o k = Some v -> In (k, v) o.
Proof.
  induction o as [|[a y] o IH]; cbn [JsObject.get fst snd In];
    [discriminate|].
  destruct (String.eqb_spec a k) as [->|E].
  - intros [= ->]. now left.
  - intros H. right. now apply IH.
Qed.

Lemma JsObject_In_get {V} (o : list (string * V)) (k : string) (v : V) :
  List.NoDup (map fst o) -> In (k, v) o -> JsObject.get o k = Some v.
Proof.
  induction o as [|[a y] o IH]; cbn [JsObject.get map fst snd In];
    [tauto|].
  intros Hn. apply List.NoDup_cons_iff in Hn as [Ha Hn].
  intros [[= -> ->]|H].
  - now rewrite String.eqb_refl.
  - destruct (String.eqb_spec a k) as [->|E]; [|now apply IH].
    exfalso. apply Ha. change k with (fst (k, v)). now apply in_map.
Qed.

Lemma JsObject_replace_keys {V} (o : list (string * V)) (k : string)
    (v : V) :
  map fst (JsObject.replace o k v) = map fst o.
Proof.
  induction o as [|[a y] o IH]; cbn [JsObject.replace map fst snd];
    [reflexivity|].
  destruct (String.eqb_spec a k) as [->|E]; [reflexivity|].
  cbn [map fst]. now rewrite IH.
Qed.

Lemma JsObject_insertIndex_keys {V} (o : list (string * V)) (i : Z)
    (k : string) (v : V) :
  exists l r, map fst o = (l ++ r)%list /\
    map fst (JsObject.insertIndex o i k v) = (l ++ k :: r)%list.
Proof.
  induction o as [|[a y] o IH]; cbn [JsObject.insertIndex map fst snd].
  - now exists [], [].
  - destruct (JsObject.arrayIndex a) as [j|].
    + destruct (j <? i).
      * destruct IH as (l & r & E1 & E2). exists (a :: l), r.
        cbn [map fst]. rewrite E1, E2. now split.
      * now exists [], (a :: map fst o).
    + now exists [], (a :: map fst o).
Qed.

(** An assignment keeps the keys of an object distinct. *)
Lemma JsObject_set_NoDup {V} (o : list (string * V)) (k : string) (v : V) :
  List.NoDup (map fst o) -> List.NoDup (map fst (JsObject.set o k v)).
Proof.
  intros Hn. unfold JsObject.set.
  destruct (JsObject.get o k) as [x|] eqn:E.
  - now rewrite JsObject_replace_keys.
  - apply JsObject_get_None in E.
    destruct (JsObject.arrayIndex k) as [i|].
    + destruct (JsObject_insertIndex_keys o i k v) as (l & r & E1 & ->).
      rewrite E1 in Hn, E.
      now apply (List.NoDup_Add (List.Add_app k l r)).
    + rewrite map_app. cbn [map fst].
      apply (List.NoDup_Add (List.Add_app k (map fst o) [])).
      now rewrite app_nil_r.
Qed.

Lemma assigned_NoDup (stamp : string)
    (prefs : list (string * list (string * Value)))
    (userId key : string) (value : Value) :
  List.NoDup (map fst prefs) ->
  List.NoDup (map fst (assigned stamp prefs userId key value)).
Proof.
  intros Hn. unfold assigned. apply JsObject_set_NoDup.
  destruct (JsObject.get prefs userId); [exact Hn|].
  now apply JsObject_set_NoDup.
Qed.

(** The users with reminders are the users whose preferences have both
    properties truthy. *)
Lemma reminded_intro (prefs : list (string * list (string * Value)))
    (userId : string) (obj : list (string * Value)) :
  JsObject.get prefs userId = Some obj ->
  truthy (pref prefs userId "reminderEnabled") &&
    truthy (pref prefs userId "reminderInterval") = true ->
  In (userId, default VNull (pref prefs userId "reminderInterval"))
     (reminded prefs).
Proof.
  unfold reminded, pref. intros Hg Hf. rewrite Hg in *.
  cbn [default from_option Datatypes.id] in *.
  rewrite <- list_elem_of_In, list_elem_of_omap.
  exists (userId, obj). split.
  - apply list_elem_of_In. now apply JsObject_get_In.
  - cbn [fst snd]. now rewrite Hf.
Qed.

Lemma reminded_In (prefs : list (string * list (string * Value)))
    (userId : string) (interval : Value) :
  List.NoDup (map fst prefs) ->
  In (userId, interval) (reminded prefs) <->
  (exists obj, JsObject.get prefs userId = Some obj) /\
  truthy (pref prefs userId "reminderEnabled") &&
    truthy (pref prefs userId "reminderInterval") = true /\
  interval = default VNull (pref prefs userId "reminderInterval").
Proof.
  intros Hn. split.
  - unfold reminded, pref.
    rewrite <- list_elem_of_In, list_elem_of_omap.
    intros ([k obj] & Hin & H). cbn [fst snd] in H.
    destruct (truthy (JsObject.get obj "reminderEnabled") &&
              truthy (JsObject.get obj "reminderInterval")) eqn:E;
      [|discriminate].
    injection H as -> <-. apply list_elem_of_In in Hin.
    rewrite (JsObject_In_get prefs userId obj Hn Hin).
    cbn [default from_option Datatypes.id]. eauto.
  - intros ((obj & Hg) & Hf & ->). now apply reminded_intro with obj.
Qed.

Lemma assigned_get (stamp : string)
    (prefs : list (string * list (string * Value)))
    (userId key : string) (value : Value) (userId' : string) :
  userId' <> userId ->
  JsObject.get (assigned stamp prefs userId key value) userId' =
  JsObject.get prefs userId'.
Proof.
  intros E. unfold assigned. rewrite JsObject_get_set.
  destruct (String.eqb_spec userId' userId) as [|_]; [congruence|].
  destruct (JsObject.get prefs userId); [reflexivity|].
  rewrite JsObject_get_set.
  now destruct (String.eqb_spec userId' userId).
Qed.

Lemma assigned_get_same (stamp : string)
    (prefs : list (string * list (string * Value)))
    (userId key : string) (value : Value) :
  exists obj,
    JsObject.get (assigned stamp prefs userId key value) userId = Some obj.
Proof.
  unfold assigned. rewrite JsObject_get_set, String.eqb_refl. eauto.
Qed.

(** X22. The bounds of the interval.  A user who may use the bot sends
    [/reminder] with an argument that is a run of at most 15 digits, and
    all writes succeed.  When the value of the digits is from 10 to 1440,
    that value is stored as the interval of the user, the reminders of
    the user are enabled, and the user is among the users with reminders,
    with that interval.  Otherwise nothing is stored. *)
Theorem reminder_interval_bounds (mkdirSync : bool)
    (writeFileSync : nat -> Written) (toISOString : Z -> string)
    (ADMIN_CHAT_ID : option string) (msg : Message)
    (capture : option string) (arg : string) (w : World) (fs : Files) :
  dataDir (storage w) = Some fs ->
  (forall n, writeFileSync n = WriteOk) ->
  fst (canUseBot mkdirSync ADMIN_CHAT_ID (from_id msg) w) = Returned true ->
  trimmed capture = Some arg ->
  every is_digit arg = true -> arg <> EmptyString ->
  (String.length arg <= 15)%nat ->
  let minutes := digits_value 0 arg in
  let w' :=
    snd (onReminder mkdirSync writeFileSync toISOString ADMIN_CHAT_ID msg
           capture w) in
  let read key defaultValue :=
    fst (getUserPreference mkdirSync (from_id msg) key defaultValue
           (storage w')) in
  if (10 <=? minutes) && (minutes <=? 1440) then
    read "reminderInterval" VNull = Returned (VNum minutes) /\
    read "reminderEnabled" (VBool false) = Returned (VBool true) /\
    exists users,
      fst (getAllUsersWithReminders mkdirSync (storage w')) =
        Returned users /\
      In (from_id msg, VNum minutes) users
  else storage w' = storage w.
Proof.
  intros Hdir Hw Hcan Harg Hd Hne Hlen.
  rewrite (world_eta w) in *.
  cbn [storage dataDir writes site outbox clock] in *. rewrite Hdir in *.
  rewrite canUseBot_run in Hcan. injection Hcan as Hcan.
  cbv zeta.
  rewrite (onReminder_minutes mkdirSync writeFileSync toISOString
             ADMIN_CHAT_ID Hw fs _ _ _ _ msg capture arg Hcan Harg Hd Hne
             Hlen).
  set (v := digits_value 0 arg).
  destruct (10 <=? v) eqn:Elo; [|reflexivity].
  destruct (v <=? 1440) eqn:Ehi; [|reflexivity]. cbn [andb].
  apply Z.leb_le in Elo.
  assert (Hz : (v =? 0) = false) by (apply Z.eqb_neq; lia).
  set (stamp := toISOString (clock (storage w))).
  set (prefs := listOf (USER_PREFS_FILE fs)).
  set (u := from_id msg).
  set (prefs' := assigned stamp (assigned stamp prefs u _ _) u _ _).
  assert (Hi : pref prefs' u "reminderInterval" = Some (VNum v)).
  { subst prefs'. rewrite !assigned_pref, String.eqb_refl. reflexivity. }
  assert (He : pref prefs' u "reminderEnabled" = Some (VBool true)).
  { subst prefs'. rewrite !assigned_pref, String.eqb_refl. reflexivity. }
  rewrite !getUserPreference_pref, getAllUsersWithReminders_run.
  cbn [fst listOf USER_PREFS_FILE with_file user_preferences_json].
  fold prefs'. rewrite Hi, He. repeat split.
  eexists. split; [reflexivity|].
  destruct (assigned_get_same stamp (assigned stamp prefs u
              "reminderInterval" (VNum v)) u "reminderEnabled"
              (VBool true)) as [obj Hobj].
  fold prefs' in Hobj.
  change (VNum v) with (default VNull (Some (VNum v))). rewrite <- Hi.
  apply (reminded_intro prefs' u obj Hobj). rewrite Hi, He.
  cbn [truthy andb]. now rewrite Hz.
Qed.

Lemma reminder_interval_bounds_witness :
  let w' :=
    snd (onReminder false written stamp (Some "1")
           (message "7" "Sari" "/reminder 45") (Some "45") world1) in
  fst (getUserPreference false "7" "reminderInterval" VNull (storage w')) =
    Returned (VNum 45) /\
  fst (getAllUsersWithReminders false (storage w')) =
    Returned [("7", VNum 45)].
Proof.
  destruct (reminder_interval_bounds false written stamp (Some "1")
              (message "7" "Sari" "/reminder 45") (Some "45") "45" world1 _
              eq_refl (fun _ => eq_refl) eq_refl eq_refl eq_refl
              ltac:(discriminate) ltac:(cbn; lia))
    as (H1 & _ & _).
  split; [exact H1 | reflexivity].
Defined.

(** X23. Switching the reminders off.  A user who may use the bot sends
    [/reminder off], in any case of the letters; the keys of the stored
    preferences are distinct and the write succeeds.  Afterwards the users
    with reminders are those of before without this user, each with the
    interval of before. *)
Theorem reminder_off_unschedules (mkdirSync : bool)
    (writeFileSync : nat -> Written) (toISOString : Z -> string)
    (ADMIN_CHAT_ID : option string) (msg : Message)
    (capture : option string) (arg : string) (w : World) (fs : Files) :
  dataDir (storage w) = Some fs ->
  (forall n, writeFileSync n = WriteOk) ->
  List.NoDup (map fst (listOf (USER_PREFS_FILE fs))) ->
  fst (canUseBot mkdirSync ADMIN_CHAT_ID (from_id msg) w) = Returned true ->
  trimmed capture = Some arg ->
  Js.toLowerCase arg = "off" ->
  let w' :=
    snd (onReminder mkdirSync writeFileSync toISOString ADMIN_CHAT_ID msg
           capture w) in
  exists before after,
    fst (getAllUsersWithReminders mkdirSync (storage w)) =
      Returned before /\
    fst (getAllUsersWithReminders mkdirSync (storage w')) =
      Returned after /\
    forall (userId : string) (interval : Value),
      In (userId, interval) after <->
      In (userId, interval) before /\ userId <> from_id msg.
Proof.
  intros Hdir Hw Hn Hcan Harg Hoff.
  rewrite (world_eta w) in *.
  cbn [storage dataDir writes site outbox clock] in *. rewrite Hdir in *.
  rewrite canUseBot_run in Hcan. injection Hcan as Hcan.
  cbv zeta.
  assert (Hne : arg <> EmptyString) by (intros ->; discriminate).
  rewrite (onReminder_off mkdirSync writeFileSync toISOString
             ADMIN_CHAT_ID Hw fs _ _ _ _ msg capture arg Hcan Harg Hne)
    by (now rewrite Hoff).
  rewrite !getAllUsersWithReminders_run.
  cbn [fst listOf USER_PREFS_FILE with_file user_preferences_json].
  set (stamp := toISOString (clock (storage w))).
  set (prefs := listOf (USER_PREFS_FILE fs)) in *.
  set (u := from_id msg).
  exists (reminded prefs),
         (reminded (assigned stamp prefs u "reminderEnabled" (VBool false))).
  split; [reflexivity|]. split; [reflexivity|].
  intros userId interval.
  rewrite (reminded_In prefs) by exact Hn.
  rewrite reminded_In by (apply assigned_NoDup, Hn).
  rewrite !assigned_pref.
  destruct (String.eqb_spec userId u) as [->|E].
  - cbn [String.eqb Ascii.eqb Bool.eqb truthy andb]. split.
    + intros (_ & H & _). discriminate.
    + intros (_ & H). congruence.
  - rewrite assigned_get by exact E. tauto.
Qed.

Lemma reminder_off_unschedules_witness :
  let w' :=
    snd (onReminder false written stamp (Some "1")
           (message "7" "Sari" "/reminder OFF ") (Some "OFF ") world1) in
  exists before after,
    fst (getAllUsersWithReminders false (storage world1)) =
      Returned before /\
    fst (getAllUsersWithReminders false (storage w')) = Returned after /\
    forall (userId : string) (interval : Value),
      In (userId, interval) after <->
      In (userId, interval) before /\ userId <> "7".
Proof.
  exact (reminder_off_unschedules false written stamp (Some "1")
           (message "7" "Sari" "/reminder OFF ") (Some "OFF ") "OFF"
           world1 _ eq_refl (fun _ => eq_refl)
           ltac:(repeat constructor; cbn; intuition discriminate)
           eq_refl eq_refl eq_refl).
Defined.
(** ** The manual check *)

Section ManualCheck.
Variable mkdirSync : bool.
Variable writeFileSync : nat -> Written.
Variable ADMIN_CHAT_ID : option string.
Variable delivered : nat -> bool.
Variable cheerio_load : string -> Dom.Document.
Variable page : nat -> string -> option string.
Variable errorMessage : nat -> string.
Variable fs : Files.
Variable c : Z.
Variable n : nat.
Variable s : Scraper.State.
Variable o : list Call.
Variable msg : Message.

Let w : World :=
  {| storage := {| dataDir := Some fs; clock := c; writes := n |};
     site := s; outbox := o |}.

Let seen : list string := JsSet.of_array (listOf (SEEN_ARTICLES_FILE fs)).

Let checking : Call :=
  SendMessage (chat_id msg) "🔍 Checking for new articles..." NoOptions.

Let failed (calls : list Call) : Call :=
  SendMessage (chat_id msg)
    ("❌ Error checking for updates: " ++ errorMessage (length calls))
    NoOptions.

(** A manual check of a user who may use the bot. *)
Lemma onCheck_run :
  isAdmin ADMIN_CHAT_ID (from_id msg) ||
    JsSet.has (listOf (ALLOWED_USERS_FILE fs)) (from_id msg) = true ->
  onCheck mkdirSync writeFileSync ADMIN_CHAT_ID delivered cheerio_load page
    errorMessage msg w =
  (Returned tt,
   let site' :=
     {| requested :=
          (requested s ++
           ["https://www.aktuaris.or.id/page/news_nextpage/"])%list |} in
   match page (length (requested s))
              "https://www.aktuaris.or.id/page/news_nextpage/" with
   | None =>
       {| storage := storage w; site := site';
          outbox := ((o ++ [checking]) ++ [failed (o ++ [checking])])%list |}
   | Some html =>
       let new :=
         getNewArticles (parseArticles cheerio_load html)
           (list_to_set seen) in
       match new with
       | [] =>
           {| storage := storage w; site := site';
              outbox :=
                ((o ++ [checking]) ++
                 [SendMessage (chat_id msg)
                    "✅ No new articles found. You're all caught up!"
                    NoOptions])%list |}
       | _ :: _ =>
           let sent :=
             ((o ++ [checking]) ++
              [SendMessage (chat_id msg) (notification new)
                 MarkdownNoPreview])%list in
           if delivered (length (o ++ [checking])%list) then
             {| storage :=
                  {| dataDir :=
                       Some (with_file seen_articles_json
                               match writeFileSync n with
                               | WriteOk =>
                                   Holds (fold_left
                                            (fun s article =>
                                               JsSet.add s (id article))
                                            new seen)
                               | WriteFailed true => SEEN_ARTICLES_FILE fs
                               | WriteFailed false => Unreadable
                               end fs);
                     clock := c; writes := S n |};
                site := site'; outbox := sent |}
           else
             {| storage := storage w; site := site';
                outbox := (sent ++ [failed sent])%list |}
       end
   end).
Proof.
  intros Hcan. subst w checking failed. unfold onCheck.
  unfold bind at 1. rewrite canUseBot_run, Hcan. cbv beta iota zeta.
  cbn [negb]. unfold try_catch, bind at 1, call at 1.
  cbn [storage site outbox]. unfold bind at 1, scrape.
  cbn [site storage outbox]. rewrite scrapeArticles_first_page.
  destruct (page _ _) as [html|]; cbn [fmap option_fmap option_map];
    [|reflexivity].
  unfold bind at 1, onStorage at 1. cbn [storage site outbox].
  rewrite loadSeenArticles_run. fold seen. cbv beta iota zeta.
  destruct (getNewArticles _ _) as [|a new] eqn:Hnew; [reflexivity|].
  change (0 <? length (a :: new))%nat with true. cbv iota.
  unfold bind at 1, sendNewArticlesNotification, await.
  cbn [storage site outbox].
  destruct (delivered _); [|reflexivity].
  unfold bind, onStorage. cbn [storage site outbox].
  rewrite markArticlesAsSeen_run. reflexivity.
Qed.

End ManualCheck.

(** X24. A manual check uses up the new articles.  A user who may use the
    bot sends [/check]; the first page arrives, the notification is
    delivered and the write succeeds.  The calls of the bot that the
    handler makes all go to the chat of the message.  Whatever page a
    following regular check reads, the articles that it announces to the
    users with reminders are articles of its page with ids that did not
    occur on the page of the manual check. *)
Theorem manual_check_uses_up_new_articles (mkdirSync : bool)
    (writeFileSync : nat -> Written) (ADMIN_CHAT_ID : option string)
    (delivered : nat -> bool) (cheerio_load : string -> Dom.Document)
    (page : nat -> string -> option string) (errorMessage : nat -> string)
    (msg : Message) (userId : option string) (w : World) (fs : Files)
    (users : list (string * Value)) (html : string) :
  dataDir (storage w) = Some fs ->
  fst (canUseBot mkdirSync ADMIN_CHAT_ID (from_id msg) w) = Returned true ->
  fst (getAllUsersWithReminders mkdirSync (storage w)) = Returned users ->
  writeFileSync (writes (storage w)) = WriteOk ->
  page (length (requested (site w)))
       "https://www.aktuaris.or.id/page/news_nextpage/" = Some html ->
  delivered (S (length (outbox w))) = true ->
  let w1 :=
    snd (onCheck mkdirSync writeFileSync ADMIN_CHAT_ID delivered
           cheerio_load page errorMessage msg w) in
  let w2 :=
    snd (checkForUpdates mkdirSync writeFileSync delivered cheerio_load
           page false userId w1) in
  (exists text options,
     outbox w1 =
     (outbox w ++
      [SendMessage (chat_id msg) "🔍 Checking for new articles..."
         NoOptions;
       SendMessage (chat_id msg) text options])%list) /\
  exists new,
    outbox w2 = (outbox w1 ++ announced new users)%list /\
    forall a, In a new ->
      (exists html', In a (parseArticles cheerio_load html')) /\
      forall b, In b (parseArticles cheerio_load html) -> id a <> id b.
Proof.
  intros Hdir Hcan Husers Hw Hpage Hsent. rewrite (world_eta w) in *.
  cbn [storage dataDir writes site outbox] in *. rewrite Hdir in *.
  rewrite canUseBot_run in Hcan. injection Hcan as Hcan.
  rewrite getAllUsersWithReminders_run in Husers.
  injection Husers as Husers.
  fold (reminded (listOf (USER_PREFS_FILE fs))) in Husers.
  cbv zeta. rewrite (onCheck_run _ _ _ _ _ _ _ fs) by exact Hcan.
  rewrite Hpage, Hw.
  replace (length (outbox w ++ [SendMessage (chat_id msg)
             "🔍 Checking for new articles..." NoOptions])%list)
    with (S (length (outbox w)))
    by (rewrite List.length_app, Nat.add_comm; reflexivity).
  rewrite Hsent. cbn [snd].
  set (seen := JsSet.of_array (listOf (SEEN_ARTICLES_FILE fs))).
  assert (Hnd : List.NoDup seen)
    by (apply JsSet_fold_add_NoDup, List.NoDup_nil).
  set (current := parseArticles cheerio_load html).
  assert (Hafter : forall seen2 html2,
    (forall b, In b current -> In (id b) seen2) ->
    forall a, In a (getNewArticles (parseArticles cheerio_load html2)
                      (list_to_set seen2)) ->
      (exists html', In a (parseArticles cheerio_load html')) /\
      forall b, In b current -> id a <> id b).
  { intros seen2 html2 Hcov a Ha. apply getNewArticles_In in Ha as [Ha Hn].
    split; [now exists html2|]. intros b Hb E. apply Hn. rewrite E.
    now apply Hcov. }
  destruct (getNewArticles current (list_to_set seen)) as [|a1 new1] eqn:Hnew.
  - cbn [snd storage outbox]. split.
    { eexists _, _. now rewrite <- List.app_assoc. }
    rewrite (checkForUpdates_regular _ _ _ _ _ fs) by reflexivity.
    cbn [snd requested outbox]. fold seen.
    match goal with
    | |- context [page (length (?l ++ ?x)%list) ?u] =>
        destruct (page (length (l ++ x)%list) u) as [html2|]
    end.
    + cbv zeta.
      remember (getNewArticles (parseArticles cheerio_load html2) _)
        as new2 eqn:E2.
      exists new2. split.
      * rewrite Husers.
        destruct new2; cbn [outbox announced]; now rewrite ?List.app_nil_r.
      * rewrite E2. apply (Hafter seen html2). intros b Hb.
        pose proof (marked_covers current seen b Hb) as Hc.
        now rewrite Hnew in Hc.
    + exists []. split; [now rewrite List.app_nil_r|]. intros a [].
  - set (seen1 := fold_left _ (a1 :: new1) seen).
    assert (Hnd1 : List.NoDup seen1) by (apply fold_add_ids_NoDup, Hnd).
    cbv zeta. cbn [snd storage outbox]. split.
    { eexists _, _. now rewrite <- List.app_assoc. }
    rewrite (checkForUpdates_regular _ _ _ _ _
               (with_file seen_articles_json (Holds seen1) fs))
      by reflexivity.
    cbn [snd requested outbox]. bot_simpl.
    rewrite (JsSet_of_array_NoDup _ Hnd1).
    match goal with
    | |- context [page (length (?l ++ ?x)%list) ?u] =>
        destruct (page (length (l ++ x)%list) u) as [html2|]
    end.
    + cbv zeta.
      remember (getNewArticles (parseArticles cheerio_load html2) _)
        as new2 eqn:E2.
      exists new2. split.
      * rewrite Husers.
        destruct new2; cbn [outbox announced]; now rewrite ?List.app_nil_r.
      * rewrite E2. apply (Hafter seen1 html2). intros b Hb.
        subst seen1. rewrite <- Hnew. now apply marked_covers.
    + exists []. split; [now rewrite List.app_nil_r|]. intros a [].
Qed.

Lemma manual_check_uses_up_new_articles_witness :
  let w1 :=
    snd (onCheck false written (Some "1") reached loadListing newsPage
           (fun _ => "timeout") (message "7" "Sari" "/check") world1) in
  let w2 :=
    snd (checkForUpdates false written reached loadListing newsPage false
           None w1) in
  (exists text options,
     outbox w1 =
     [SendMessage "7" "🔍 Checking for new articles..." NoOptions;
      SendMessage "7" text options]) /\
  exists new,
    outbox w2 = (outbox w1 ++ announced new [("7", VNum 30)])%list /\
    forall a, In a new ->
      (exists html', In a (parseArticles loadListing html')) /\
      forall b, In b (parseArticles loadListing "news") -> id a <> id b.
Proof.
  exact (manual_check_uses_up_new_articles false written (Some "1") reached
           loadListing newsPage (fun _ => "timeout")
           (message "7" "Sari" "/check") None world1 _ [("7", VNum 30)]
           "news" eq_refl eq_refl eq_refl eq_refl eq_refl eq_refl).
Defined.

(** X25. A manual check that fails.  A user who may use the bot sends
    [/check], and either the first page does not arrive, or it holds
    articles that are not seen and their notification is not delivered.
    Then the stored data are as before, so that no article is marked as
    seen, and the last call of the bot sends the message of the error to
    the chat of the message. *)
Theorem manual_check_failure_marks_nothing (mkdirSync : bool)
    (writeFileSync : nat -> Written) (ADMIN_CHAT_ID : option string)
    (delivered : nat -> bool) (cheerio_load : string -> Dom.Document)
    (page : nat -> string -> option string) (errorMessage : nat -> string)
    (msg : Message) (w : World) (fs : Files) (seenIds : list string) :
  dataDir (storage w) = Some fs ->
  fst (canUseBot mkdirSync ADMIN_CHAT_ID (from_id msg) w) = Returned true ->
  fst (loadSeenArticles mkdirSync (storage w)) = Returned seenIds ->
  match page (length (requested (site w)))
             "https://www.aktuaris.or.id/page/news_nextpage/" with
  | None => True
  | Some html =>
      getNewArticles (parseArticles cheerio_load html)
        (list_to_set seenIds) <> [] /\
      delivered (S (length (outbox w))) = false
  end ->
  let w1 :=
    snd (onCheck mkdirSync writeFileSync ADMIN_CHAT_ID delivered
           cheerio_load page errorMessage msg w) in
  storage w1 = storage w /\
  exists calls,
    outbox w1 =
    (outbox w ++ calls ++
     [SendMessage (chat_id msg)
        ("❌ Error checking for updates: " ++
         errorMessage (length (outbox w ++ calls)%list))
        NoOptions])%list.
Proof.
  intros Hdir Hcan Hseen Hfail. rewrite (world_eta w) in *.
  cbn [storage dataDir writes site outbox] in *. rewrite Hdir in *.
  rewrite canUseBot_run in Hcan. injection Hcan as Hcan.
  rewrite loadSeenArticles_run in Hseen. injection Hseen as Hseen.
  cbv zeta. rewrite (onCheck_run _ _ _ _ _ _ _ fs) by exact Hcan.
  destruct (page _ _) as [html|].
  - destruct Hfail as [Hnew Hsent]. cbv zeta. rewrite Hseen.
    destruct (getNewArticles _ _) as [|a new]; [congruence|].
    replace (length (outbox w ++ [SendMessage (chat_id msg)
               "🔍 Checking for new articles..." NoOptions])%list)
      with (S (length (outbox w)))
      by (rewrite List.length_app, Nat.add_comm; reflexivity).
    rewrite Hsent. cbn [snd storage outbox]. split; [reflexivity|].
    eexists [_; _]. rewrite <- !List.app_assoc. reflexivity.
  - cbn [snd storage outbox]. split; [reflexivity|].
    eexists [_]. rewrite <- !List.app_assoc. reflexivity.
Qed.

Lemma manual_check_failure_marks_nothing_witness :
  let w1 :=
    snd (onCheck false written (Some "1") blocked loadListing newsPage
           (fun _ => "timeout") (message "7" "Sari" "/check") world1) in
  fst (loadSeenArticles false (storage w1)) = Returned ["9"; "7"] /\
  exists calls,
    outbox w1 =
    (calls ++
     [SendMessage "7" "❌ Error checking for updates: timeout"
        NoOptions])%list.
Proof.
  destruct (manual_check_failure_marks_nothing false written (Some "1")
              blocked loadListing newsPage (fun _ => "timeout")
              (message "7" "Sari" "/check") world1 _ ["9"; "7"]
              eq_refl eq_refl eq_refl
              ltac:(split; [vm_compute; discriminate | reflexivity]))
    as [Hs [calls Ho]].
  split; [now rewrite Hs|]. exists calls. exact Ho.
Defined.
